(** * Webhook certificate lifecycle ([internal/certs]) of the butane operator

    A shallow embedding of the Go package [certs]: the pure helpers
    ([dnsNamesForService], [mutatingWebhookName]), the renewal policy
    ([needsRenewal]), the PKI generator ([generateCA], [generateServerCert]),
    persistence ([writeCertsToDisk]), trust propagation
    ([patchWebhookConfig]) and the orchestration ([Ensure]).

    Calls that leave the package (the Kubernetes client, the filesystem, the
    clock, the random source, the logger) are operations of a small free
    monad [Prog]; a handler gives them a meaning over a world of its choice,
    and [run] records the operations a program issues. *)

From Stdlib Require Import ZArith Lia Strings.Ascii Strings.String Strings.Byte.
From stdpp Require Import gmap strings list fin_maps sorting.

Local Open Scope Z_scope.

(** ** Go base types *)

(** [[]byte] *)
Abbreviation bytes := (list byte).

(** [time.Time], as nanoseconds since a fixed epoch; [time.Duration] is an
    [int64] count of nanoseconds. *)
Definition Time := Z.
Definition Duration := Z.

Definition minDuration : Duration := - 2 ^ 63.
Definition maxDuration : Duration := 2 ^ 63 - 1.

Definition Second : Duration := 1000000000.
Definition Hour : Duration := 3600 * Second.

(** [t.Add(d)] *)
Definition time_Add (t : Time) (d : Duration) : Time := t + d.

(** [t.Sub(u)]: the difference as a [Duration], saturated at the ends of the
    [int64] range as the Go library does. *)
Definition time_Sub (t u : Time) : Duration :=
  let d := t - u in
  if d <? minDuration then minDuration
  else if maxDuration <? d then maxDuration
  else d.

(** ** [fmt.Sprintf], for the verbs the package uses

    [%s] prints the next operand; [%w] (in [fmt.Errorf]) prints the text of
    the wrapped error, which the caller passes as the last operand. *)
Fixpoint Sprintf (format : string) (a : list string) : string :=
  match format with
  | EmptyString => EmptyString
  | String c rest =>
      match rest with
      | String v rest' =>
          if (Ascii.eqb c "%"%char
              && (Ascii.eqb v "s"%char || Ascii.eqb v "w"%char))%bool
          then match a with
               | x :: a' => x +:+ Sprintf rest' a'
               | [] => "%!" +:+ String v "(MISSING)" +:+ Sprintf rest' []
               end
          else String c (Sprintf rest a)
      | EmptyString => String c EmptyString
      end
  end.

(** ** Errors *)

(** [metav1.StatusReason]: the unknown reason (the empty string) and some of
    the reasons the library knows. *)
Inductive StatusReason :=
| StatusReasonUnknown
| StatusReasonNotFound
| StatusReasonAlreadyExists
| StatusReasonConflict
| StatusReasonForbidden
| StatusReasonTimeout.

(** A non-nil Go [error]: an API status error (its reason and HTTP code),
    any other error (I/O, entropy, encoding), or an error wrapped by
    [fmt.Errorf] with [%w]. *)
Inductive Error :=
| StatusError (reason : StatusReason) (code : Z) (message : string)
| PlainError (message : string)
| WrapError (message : string) (err : Error).

Definition Error_message (e : Error) : string :=
  match e with
  | StatusError _ _ m => m
  | PlainError m => m
  | WrapError m _ => m
  end.

(** [fmt.Errorf(format, a..., err)] where the last verb of [format] is [%w]. *)
Definition Errorf (format : string) (a : list string) (err : Error) : Error :=
  WrapError (Sprintf format (a ++ [Error_message err])) err.

(** [apierrors.IsNotFound]: the status error found by unwrapping has the
    reason not-found, or a reason the library does not know and the code
    404. *)
Fixpoint IsNotFound (e : Error) : bool :=
  match e with
  | StatusError StatusReasonNotFound _ _ => true
  | StatusError StatusReasonUnknown code _ => code =? 404
  | StatusError _ _ _ => false
  | PlainError _ => false
  | WrapError _ e' => IsNotFound e'
  end.

(** A Go result [(T, error)] of a call that follows the convention that
    exactly one of the two is meaningful. *)
Inductive result (T : Type) :=
| Ok (v : T)
| Err (e : Error).
Arguments Ok {T} v.
Arguments Err {T} e.

(** ** [dnsNamesForService] *)

Definition dnsNamesForService (serviceName namespace : string) : list string :=
  [ Sprintf "%s.%s.svc" [serviceName; namespace];
    Sprintf "%s.%s.svc.cluster.local" [serviceName; namespace] ].

(** ** [mutatingWebhookName] *)

Module MutatingName.
Definition old : string := "validating".
Definition new : string := "mutating".

(** Go's [s[i:j]], for [i <= j <= len(s)]. *)
Definition slice (s : string) (i j : nat) : string :=
  String.substring i (j - i)%nat s.

(** The [for] loop at index [i] with [n] iterations left: the loop runs
    while [i <= len(validatingName) - len(old)], so the number of
    iterations is fixed when the loop is entered. *)
Fixpoint loop (validatingName : string) (n i : nat) : string :=
  match n with
  | O => validatingName
  | S n' =>
      if String.eqb (slice validatingName i (i + String.length old)%nat) old
      then slice validatingName 0 i +:+ new
           +:+ slice validatingName (i + String.length old)%nat
                     (String.length validatingName)
      else loop validatingName n' (S i)
  end.
End MutatingName.

Definition mutatingWebhookName (validatingName : string) : string :=
  MutatingName.loop validatingName
    (Z.to_nat (Z.of_nat (String.length validatingName)
               - Z.of_nat (String.length MutatingName.old) + 1))
    0.

(** The spec's wording of the derivation, for comparison: scan left to
    right and replace the first occurrence of [old] by [new]. *)
Fixpoint replace_first (old new s : string) : string :=
  if String.prefix old s
  then new +:+ String.substring (String.length old)
                 (String.length s - String.length old)%nat s
  else match s with
       | EmptyString => EmptyString
       | String c s' => String c (replace_first old new s')
       end.

(** ** Kubernetes objects

    One module per Go struct, holding the fields the package reads or
    writes (and one passive field per webhook entry, to see that patching
    leaves the rest of an entry alone). *)

Module ObjectMeta.
Record t := mk {
  Name : string;
  Namespace : string;
  ResourceVersion : string
}.
End ObjectMeta.

Definition SecretTypeTLS : string := "kubernetes.io/tls".

Module Secret.
Record t := mk {
  ObjectMeta : ObjectMeta.t;
  Type_ : string;
  Data : gmap string bytes
}.
Definition Name (s : t) : string := ObjectMeta.Name (ObjectMeta s).
Definition ResourceVersion (s : t) : string :=
  ObjectMeta.ResourceVersion (ObjectMeta s).
End Secret.

Module WebhookClientConfig.
Record t := mk {
  URL : option string;
  CABundle : bytes
}.
End WebhookClientConfig.

Module ValidatingWebhook.
Record t := mk {
  Name : string;
  ClientConfig : WebhookClientConfig.t
}.
End ValidatingWebhook.

Module MutatingWebhook.
Record t := mk {
  Name : string;
  ClientConfig : WebhookClientConfig.t
}.
End MutatingWebhook.

Module ValidatingWebhookConfiguration.
Record t := mk {
  ObjectMeta : ObjectMeta.t;
  Webhooks : list ValidatingWebhook.t
}.
End ValidatingWebhookConfiguration.

Module MutatingWebhookConfiguration.
Record t := mk {
  ObjectMeta : ObjectMeta.t;
  Webhooks : list MutatingWebhook.t
}.
End MutatingWebhookConfiguration.

(** ** [crypto/rsa], [crypto/x509], [encoding/pem] data *)

Module rsa.
Record PublicKey := mkPublicKey { N : Z; E : Z }.
Record PrivateKey := mkPrivateKey {
  Public : PublicKey;
  D : Z;
  Primes : list Z
}.
End rsa.

Module pkix.
Record Name := mkName {
  CommonName : string;
  Organization : list string
}.
End pkix.

Module x509.
(** [x509.KeyUsage] bits. *)
Definition KeyUsageDigitalSignature : Z := Z.shiftl 1 0.
Definition KeyUsageContentCommitment : Z := Z.shiftl 1 1.
Definition KeyUsageKeyEncipherment : Z := Z.shiftl 1 2.
Definition KeyUsageDataEncipherment : Z := Z.shiftl 1 3.
Definition KeyUsageKeyAgreement : Z := Z.shiftl 1 4.
Definition KeyUsageCertSign : Z := Z.shiftl 1 5.
Definition KeyUsageCRLSign : Z := Z.shiftl 1 6.

Inductive ExtKeyUsage :=
| ExtKeyUsageAny
| ExtKeyUsageServerAuth
| ExtKeyUsageClientAuth
| ExtKeyUsageCodeSigning
| ExtKeyUsageEmailProtection.

(** The fields of [x509.Certificate] the package sets in its templates or
    reads from a parsed certificate; a field a template does not mention
    has Go's zero value. *)
Record Certificate := mkCertificate {
  SerialNumber : Z;
  Subject : pkix.Name;
  DNSNames : list string;
  NotBefore : Time;
  NotAfter : Time;
  KeyUsage : Z;
  ExtKeyUsage_ : list ExtKeyUsage;
  BasicConstraintsValid : bool;
  IsCA : bool
}.
End x509.

Module pem.
Record Block := mkBlock {
  Type_ : string;
  Bytes : bytes
}.
End pem.

(** The pure functions of the Go standard library that the package calls;
    the development is parametric in them. [pem_Decode] returns the first
    block only (the package drops the rest of the input). *)
Class Lib := {
  pem_Decode : bytes -> option pem.Block;
  pem_EncodeToMemory : pem.Block -> bytes;
  x509_ParseCertificate : bytes -> result x509.Certificate;
  x509_MarshalPKCS1PrivateKey : rsa.PrivateKey -> bytes;
  filepath_Join : string -> string -> string
}.

(** ** Operations on the outside world *)

Inductive Op :=
| SecretsGet (namespace name : string)
| SecretsUpdate (namespace : string) (secret : Secret.t)
| SecretsCreate (namespace : string) (secret : Secret.t)
| ValidatingGet (name : string)
| ValidatingUpdate (vwc : ValidatingWebhookConfiguration.t)
| MutatingGet (name : string)
| MutatingUpdate (mwc : MutatingWebhookConfiguration.t)
| MkdirAll (path : string) (perm : Z)
| WriteFile (name : string) (data : bytes) (perm : Z)
| TimeNow
| RsaGenerateKey (bits : Z)
| RandInt (max : Z)
| X509CreateCertificate (template parent : x509.Certificate)
    (pub : rsa.PublicKey) (priv : rsa.PrivateKey)
| LogInfo (msg : string) (keysAndValues : list string).

(** What an operation answers. A failed [Get] of a Secret answers an error
    and a pointer that is nil or an empty object, depending on the client
    ([Ensure] tests for both); the object an [Update] or [Create] returns is
    dropped by the package, so only its [error] (nil is [None]) is kept. *)
Definition Resp (o : Op) : Type :=
  match o with
  | SecretsGet _ _ => (Secret.t + option Secret.t * Error)%type
  | SecretsUpdate _ _ => option Error
  | SecretsCreate _ _ => option Error
  | ValidatingGet _ => result ValidatingWebhookConfiguration.t
  | ValidatingUpdate _ => option Error
  | MutatingGet _ => result MutatingWebhookConfiguration.t
  | MutatingUpdate _ => option Error
  | MkdirAll _ _ => option Error
  | WriteFile _ _ _ => option Error
  | TimeNow => Time
  | RsaGenerateKey _ => result rsa.PrivateKey
  | RandInt _ => result Z
  | X509CreateCertificate _ _ _ _ => result bytes
  | LogInfo _ _ => unit
  end.

(** Programs: return, panic, or issue an operation and go on with its
    answer. *)
Inductive Prog (A : Type) : Type :=
| Ret (a : A)
| Panic (msg : string)
| Vis (o : Op) (k : Resp o -> Prog A).
Arguments Ret {A} a.
Arguments Panic {A} msg.
Arguments Vis {A} o k.

Fixpoint bind {A B : Type} (p : Prog A) (f : A -> Prog B) : Prog B :=
  match p with
  | Ret a => f a
  | Panic msg => Panic msg
  | Vis o k => Vis o (fun r => bind (k r) f)
  end.

Definition call (o : Op) : Prog (Resp o) := Vis o Ret.

#[global] Instance Prog_ret : MRet Prog := @Ret.
#[global] Instance Prog_bind : MBind Prog := fun A B f p => bind p f.

(** A handler answers every operation in a world [W] and moves the world
    on. *)
Definition Handler (W : Type) : Type := forall o : Op, W -> Resp o * W.

Inductive Outcome (A : Type) : Type :=
| Returned (a : A)
| Panicked (msg : string).
Arguments Returned {A} a.
Arguments Panicked {A} msg.

Record Run (W A : Type) := mkRun {
  outcome : Outcome A;
  final : W;
  trace : list Op
}.
Arguments mkRun {W A}.
Arguments outcome {W A}.
Arguments final {W A}.
Arguments trace {W A}.

(** Running a program: its outcome, the world it leaves, and the operations
    it issued, in order. *)
Fixpoint run {W A : Type} (h : Handler W) (p : Prog A) (w : W) : Run W A :=
  match p with
  | Ret a => mkRun (Returned a) w []
  | Panic msg => mkRun (Panicked msg) w []
  | Vis o k =>
      let rw := h o w in
      let r := run h (k (fst rw)) (snd rw) in
      mkRun (outcome r) (final r) (o :: trace r)
  end.

(** ** The package [certs] *)

Module Config.
Record t := mk {
  ServiceName : string;
  Namespace : string;
  SecretName : string;
  WebhookConfigName : string;
  CertDir : string;
  CertValidity : Duration;
  RenewalThreshold : Duration
}.
End Config.

(** Go's [error] value: nil is [None]. *)
Abbreviation error := (option Error).

(** [time.Until(t)]: reads the clock. *)
Definition time_Until (t : Time) : Prog Duration :=
  now ← call TimeNow; mret (time_Sub t now).

(** File modes [0750] and [0640]. *)
Definition perm_0750 : Z := 7 * 64 + 5 * 8 + 0.
Definition perm_0640 : Z := 6 * 64 + 4 * 8 + 0.

(** The body of [for i := range webhooks { webhooks[i].ClientConfig.CABundle
    = caBundle; updated = true }], for the two kinds of entry: the list
    after the loop and the flag. *)
Definition setValidatingCABundle (caBundle : bytes)
    (wh : ValidatingWebhook.t) : ValidatingWebhook.t :=
  ValidatingWebhook.mk (ValidatingWebhook.Name wh)
    (WebhookClientConfig.mk
       (WebhookClientConfig.URL (ValidatingWebhook.ClientConfig wh)) caBundle).

Definition setMutatingCABundle (caBundle : bytes)
    (wh : MutatingWebhook.t) : MutatingWebhook.t :=
  MutatingWebhook.mk (MutatingWebhook.Name wh)
    (WebhookClientConfig.mk
       (WebhookClientConfig.URL (MutatingWebhook.ClientConfig wh)) caBundle).

Definition rangeValidating (caBundle : bytes)
    (webhooks : list ValidatingWebhook.t) : list ValidatingWebhook.t * bool :=
  foldl (fun st i => (alter (setValidatingCABundle caBundle) i (fst st), true))
        (webhooks, false) (seq 0 (length webhooks)).

Definition rangeMutating (caBundle : bytes)
    (webhooks : list MutatingWebhook.t) : list MutatingWebhook.t :=
  foldl (fun ws i => alter (setMutatingCABundle caBundle) i ws)
        webhooks (seq 0 (length webhooks)).

Section Certs.
Context `{Lib}.

(** [needsRenewal]; the clock is read only once the certificate parsed. *)
Definition needsRenewal (secret : Secret.t) (threshold : Duration)
    : Prog bool :=
  match Secret.Data secret !! "tls.crt" with
  | None => mret true
  | Some certPEM =>
      if (length certPEM =? 0)%nat then mret true
      else
        match pem_Decode certPEM with
        | None => mret true
        | Some block =>
            match x509_ParseCertificate (pem.Bytes block) with
            | Err _ => mret true
            | Ok cert =>
                remaining ← time_Until (x509.NotAfter cert);
                mret (remaining <? threshold)
            end
        end
  end.

Definition generateCA (validity : Duration)
    : Prog (result (x509.Certificate * rsa.PrivateKey * bytes)) :=
  r ← call (RsaGenerateKey 4096);
  match r with
  | Err err => mret (Err (Errorf "generating CA key: %w" [] err))
  | Ok key =>
      r ← call (RandInt (Z.shiftl 1 128));
      match r with
      | Err err => mret (Err (Errorf "generating serial number: %w" [] err))
      | Ok serial =>
          now ← call TimeNow;
          let tmpl :=
            {| x509.SerialNumber := serial;
               x509.Subject :=
                 {| pkix.CommonName := "webhook-ca";
                    pkix.Organization := ["butane-operator"] |};
               x509.DNSNames := [];
               x509.NotBefore := now;
               x509.NotAfter := time_Add now validity;
               x509.KeyUsage :=
                 Z.lor x509.KeyUsageCertSign x509.KeyUsageCRLSign;
               x509.ExtKeyUsage_ := [];
               x509.BasicConstraintsValid := true;
               x509.IsCA := true |} in
          r ← call (X509CreateCertificate tmpl tmpl (rsa.Public key) key);
          match r with
          | Err err =>
              mret (Err (Errorf "creating CA certificate: %w" [] err))
          | Ok certDER =>
              match x509_ParseCertificate certDER with
              | Err err =>
                  mret (Err (Errorf "parsing CA certificate: %w" [] err))
              | Ok cert =>
                  let certPEM :=
                    pem_EncodeToMemory
                      {| pem.Type_ := "CERTIFICATE";
                         pem.Bytes := certDER |} in
                  mret (Ok (cert, key, certPEM))
              end
          end
      end
  end.

(** [generateServerCert]; [dnsNames[0]] panics on an empty slice. *)
Definition generateServerCert (caCert : x509.Certificate)
    (caKey : rsa.PrivateKey) (dnsNames : list string) (validity : Duration)
    : Prog (result (bytes * bytes)) :=
  r ← call (RsaGenerateKey 2048);
  match r with
  | Err err => mret (Err (Errorf "generating server key: %w" [] err))
  | Ok key =>
      r ← call (RandInt (Z.shiftl 1 128));
      match r with
      | Err err => mret (Err (Errorf "generating serial number: %w" [] err))
      | Ok serial =>
          now ← call TimeNow;
          match dnsNames !! 0%nat with
          | None => Panic "runtime error: index out of range [0] with length 0"
          | Some dnsNames0 =>
              let tmpl :=
                {| x509.SerialNumber := serial;
                   x509.Subject :=
                     {| pkix.CommonName := dnsNames0;
                        pkix.Organization := ["butane-operator"] |};
                   x509.DNSNames := dnsNames;
                   x509.NotBefore := now;
                   x509.NotAfter := time_Add now validity;
                   x509.KeyUsage :=
                     Z.lor x509.KeyUsageDigitalSignature
                           x509.KeyUsageKeyEncipherment;
                   x509.ExtKeyUsage_ := [x509.ExtKeyUsageServerAuth];
                   x509.BasicConstraintsValid := false;
                   x509.IsCA := false |} in
              r ← call (X509CreateCertificate tmpl caCert
                          (rsa.Public key) caKey);
              match r with
              | Err err =>
                  mret (Err (Errorf "creating server certificate: %w" [] err))
              | Ok certDER =>
                  let certPEM :=
                    pem_EncodeToMemory
                      {| pem.Type_ := "CERTIFICATE";
                         pem.Bytes := certDER |} in
                  let keyPEM :=
                    pem_EncodeToMemory
                      {| pem.Type_ := "RSA PRIVATE KEY";
                         pem.Bytes := x509_MarshalPKCS1PrivateKey key |} in
                  mret (Ok (certPEM, keyPEM))
              end
          end
      end
  end.

Definition writeCertsToDisk (certDir : string) (certPEM keyPEM : bytes)
    : Prog error :=
  e ← call (MkdirAll certDir perm_0750);
  match e with
  | Some err => mret (Some (Errorf "creating cert dir %s: %w" [certDir] err))
  | None =>
      e ← call (WriteFile (filepath_Join certDir "tls.crt") certPEM perm_0640);
      match e with
      | Some err => mret (Some (Errorf "writing tls.crt: %w" [] err))
      | None =>
          e ← call (WriteFile (filepath_Join certDir "tls.key") keyPEM
                      perm_0640);
          match e with
          | Some err => mret (Some (Errorf "writing tls.key: %w" [] err))
          | None => mret None
          end
      end
  end.

(** The second half of [patchWebhookConfig], from the comment "Also patch
    MutatingWebhookConfiguration if it exists" on. *)
Definition patchMutating (name : string) (caBundle : bytes) : Prog error :=
  let mwcName := mutatingWebhookName name in
  r ← call (MutatingGet mwcName);
  match r with
  | Ok mwc =>
      let mwc' :=
        MutatingWebhookConfiguration.mk
          (MutatingWebhookConfiguration.ObjectMeta mwc)
          (rangeMutating caBundle (MutatingWebhookConfiguration.Webhooks mwc))
      in
      e ← call (MutatingUpdate mwc');
      match e with
      | Some err =>
          mret (Some (Errorf "updating MutatingWebhookConfiguration: %w" []
                        err))
      | None =>
          call (LogInfo "patched MutatingWebhookConfiguration with CA bundle"
                  ["name"; mwcName]);;
          mret None
      end
  | Err err =>
      if negb (IsNotFound err)
      then mret (Some (Errorf "getting MutatingWebhookConfiguration %s: %w"
                         [mwcName] err))
      else mret None
  end.

Definition patchWebhookConfig (name : string) (caBundle : bytes)
    : Prog error :=
  r ← call (ValidatingGet name);
  match r with
  | Err err =>
      mret (Some (Errorf "getting ValidatingWebhookConfiguration %s: %w"
                    [name] err))
  | Ok vwc =>
      let st :=
        rangeValidating caBundle (ValidatingWebhookConfiguration.Webhooks vwc)
      in
      let vwc' :=
        ValidatingWebhookConfiguration.mk
          (ValidatingWebhookConfiguration.ObjectMeta vwc) (fst st) in
      let updated := snd st in
      if updated
      then
        e ← call (ValidatingUpdate vwc');
        match e with
        | Some err =>
            mret (Some (Errorf "updating ValidatingWebhookConfiguration: %w"
                          [] err))
        | None =>
            call (LogInfo
                    "patched ValidatingWebhookConfiguration with CA bundle"
                    ["name"; name]);;
            patchMutating name caBundle
        end
      else patchMutating name caBundle
  end.

(** The [corev1.Secret] literal of [Ensure], with the resource version
    [Ensure] then sets (the empty string when it leaves it alone). *)
Definition newSecret (cfg : Config.t)
    (caPEM serverCertPEM serverKeyPEM : bytes) (resourceVersion : string)
    : Secret.t :=
  Secret.mk
    (ObjectMeta.mk (Config.SecretName cfg) (Config.Namespace cfg)
       resourceVersion)
    SecretTypeTLS
    (<["ca.crt" := caPEM]>
       (<["tls.crt" := serverCertPEM]>
          (<["tls.key" := serverKeyPEM]> ∅))).

(** [Ensure] from "Create or update the secret" to its end. [existing] is
    the pointer the [Get] left. *)
Definition persist (cfg : Config.t) (existing : option Secret.t)
    (caPEM serverCertPEM serverKeyPEM : bytes) : Prog error :=
  let secret := newSecret cfg caPEM serverCertPEM serverKeyPEM in
  let rest : Prog error :=
    e ← writeCertsToDisk (Config.CertDir cfg) serverCertPEM serverKeyPEM;
    match e with
    | Some err => mret (Some (Errorf "writing certs to disk: %w" [] err))
    | None =>
        call (LogInfo "wrote webhook certs to disk"
                ["dir"; Config.CertDir cfg]);;
        patchWebhookConfig (Config.WebhookConfigName cfg) caPEM
    end in
  let create : Prog error :=
    e ← call (SecretsCreate (Config.Namespace cfg) (secret ""));
    match e with
    | Some err => mret (Some (Errorf "creating secret: %w" [] err))
    | None => call (LogInfo "created webhook cert secret" []);; rest
    end in
  match existing with
  | Some ex =>
      if negb (String.eqb (Secret.Name ex) "")
      then
        e ← call (SecretsUpdate (Config.Namespace cfg)
                    (secret (Secret.ResourceVersion ex)));
        match e with
        | Some err => mret (Some (Errorf "updating secret: %w" [] err))
        | None => call (LogInfo "updated webhook cert secret" []);; rest
        end
      else create
  | None => create
  end.

(** [Ensure] from "Generate CA" on: the part both the renewal and the
    not-found branch fall through to. *)
Definition regenerate (cfg : Config.t) (dnsNames : list string)
    (existing : option Secret.t) : Prog error :=
  r ← generateCA (Config.CertValidity cfg);
  match r with
  | Err err => mret (Some (Errorf "generating CA: %w" [] err))
  | Ok (caCert, caKey, caPEM) =>
      r ← generateServerCert caCert caKey dnsNames (Config.CertValidity cfg);
      match r with
      | Err err => mret (Some (Errorf "generating server cert: %w" [] err))
      | Ok (serverCertPEM, serverKeyPEM) =>
          persist cfg existing caPEM serverCertPEM serverKeyPEM
      end
  end.

Definition Ensure (cfg : Config.t) : Prog error :=
  let dnsNames :=
    dnsNamesForService (Config.ServiceName cfg) (Config.Namespace cfg) in
  r ← call (SecretsGet (Config.Namespace cfg) (Config.SecretName cfg));
  match r with
  | inl existing =>
      renew ← needsRenewal existing (Config.RenewalThreshold cfg);
      if negb renew
      then
        call (LogInfo
                "existing webhook certs are still valid, skipping regeneration"
                []);;
        e ← writeCertsToDisk (Config.CertDir cfg)
              (Secret.Data existing !!! "tls.crt")
              (Secret.Data existing !!! "tls.key");
        match e with
        | Some err =>
            mret (Some (Errorf "writing existing certs to disk: %w" [] err))
        | None =>
            patchWebhookConfig (Config.WebhookConfigName cfg)
              (Secret.Data existing !!! "ca.crt")
        end
      else
        call (LogInfo "existing webhook certs need renewal" []);;
        regenerate cfg dnsNames (Some existing)
  | inr (existing, err) =>
      if negb (IsNotFound err)
      then mret (Some (Errorf "getting secret %s/%s: %w"
                         [Config.Namespace cfg; Config.SecretName cfg] err))
      else
        call (LogInfo "webhook cert secret not found, generating new certs"
                []);;
        regenerate cfg dnsNames existing
  end.
End Certs.

(** ** A reference world

    An in-memory cluster in the manner of client-go's fake clientset (an
    object tracker keyed by namespace and name), a filesystem as a map from
    paths to contents, a clock, a counter in place of the entropy source,
    and a small stand-in for the PEM and X.509 codecs. The general theorems
    below hold for every handler and every [Lib]; this world is where
    concrete runs are evaluated. *)

Module Ref.

(** *** Stand-in codecs *)

Definition byte_of_Z (z : Z) : byte :=
  default x00 (Byte.of_N (Z.to_N (z `mod` 256))).
Definition Z_of_byte (b : byte) : Z := Z.of_N (Byte.to_N b).

(** [n] bytes, big-endian. *)
Fixpoint put_nat (n : nat) (z : Z) : bytes :=
  match n with
  | O => []
  | S n' => put_nat n' (z / 256) ++ [byte_of_Z z]
  end.
Definition get_nat (bs : bytes) : Z :=
  foldl (fun acc b => acc * 256 + Z_of_byte b) 0 bs.

Definition putZ (z : Z) : bytes :=
  (if z <? 0 then x01 else x00) :: put_nat 16 (Z.abs z).
Definition putBool (b : bool) : bytes := [if b then x01 else x00].
Definition putString (s : string) : bytes :=
  put_nat 2 (Z.of_nat (String.length s)) ++ list_byte_of_string s.
Definition putList {A} (put : A -> bytes) (l : list A) : bytes :=
  put_nat 1 (Z.of_nat (length l)) ++ concat (map put l).
Definition putExtKeyUsage (u : x509.ExtKeyUsage) : bytes :=
  [match u with
   | x509.ExtKeyUsageAny => x00
   | x509.ExtKeyUsageServerAuth => x01
   | x509.ExtKeyUsageClientAuth => x02
   | x509.ExtKeyUsageCodeSigning => x03
   | x509.ExtKeyUsageEmailProtection => x04
   end].

Definition Parser (A : Type) : Type := bytes -> option (A * bytes).

Definition getBytes (n : nat) : Parser bytes :=
  fun bs => if (n <=? length bs)%nat then Some (take n bs, drop n bs) else None.
Definition pmap {A B} (f : A -> B) (p : Parser A) : Parser B :=
  fun bs => match p bs with
            | Some (a, rest) => Some (f a, rest)
            | None => None
            end.
Definition pbind {A B} (p : Parser A) (f : A -> Parser B) : Parser B :=
  fun bs => match p bs with
            | Some (a, rest) => f a rest
            | None => None
            end.
Definition getZ : Parser Z :=
  pbind (getBytes 1) (fun sign =>
    pmap (fun m => match sign with
                   | [x01] => - get_nat m
                   | _ => get_nat m
                   end)
         (getBytes 16)).
Definition getBool : Parser bool :=
  pmap (fun b => match b with [x01] => true | _ => false end) (getBytes 1).
Definition getString : Parser string :=
  pbind (getBytes 2) (fun n =>
    pmap string_of_list_byte (getBytes (Z.to_nat (get_nat n)))).
Fixpoint getMany {A} (p : Parser A) (n : nat) : Parser (list A) :=
  match n with
  | O => fun bs => Some ([], bs)
  | S n' => pbind p (fun a => pmap (cons a) (getMany p n'))
  end.
Definition getList {A} (p : Parser A) : Parser (list A) :=
  pbind (getBytes 1) (fun n => getMany p (Z.to_nat (get_nat n))).
Definition getExtKeyUsage : Parser x509.ExtKeyUsage :=
  fun bs =>
    match bs with
    | x00 :: rest => Some (x509.ExtKeyUsageAny, rest)
    | x01 :: rest => Some (x509.ExtKeyUsageServerAuth, rest)
    | x02 :: rest => Some (x509.ExtKeyUsageClientAuth, rest)
    | x03 :: rest => Some (x509.ExtKeyUsageCodeSigning, rest)
    | x04 :: rest => Some (x509.ExtKeyUsageEmailProtection, rest)
    | _ => None
    end.

(** The stand-in for DER: the fields of the certificate one after the
    other. *)
Definition encodeCertificate (c : x509.Certificate) : bytes :=
  putZ (x509.SerialNumber c)
  ++ putString (pkix.CommonName (x509.Subject c))
  ++ putList putString (pkix.Organization (x509.Subject c))
  ++ putList putString (x509.DNSNames c)
  ++ putZ (x509.NotBefore c)
  ++ putZ (x509.NotAfter c)
  ++ putZ (x509.KeyUsage c)
  ++ putList putExtKeyUsage (x509.ExtKeyUsage_ c)
  ++ putBool (x509.BasicConstraintsValid c)
  ++ putBool (x509.IsCA c).

Definition decodeCertificate : Parser x509.Certificate :=
  pbind getZ (fun serial =>
  pbind getString (fun cn =>
  pbind (getList getString) (fun org =>
  pbind (getList getString) (fun dns =>
  pbind getZ (fun notBefore =>
  pbind getZ (fun notAfter =>
  pbind getZ (fun keyUsage =>
  pbind (getList getExtKeyUsage) (fun eku =>
  pbind getBool (fun bcv =>
  pmap (fun isCA =>
          x509.mkCertificate serial (pkix.mkName cn org) dns notBefore
            notAfter keyUsage eku bcv isCA)
       getBool))))))))).

Definition parseCertificate (der : bytes) : result x509.Certificate :=
  match decodeCertificate der with
  | Some (c, []) => Ok c
  | Some (_, _ :: _) => Err (PlainError "x509: trailing data")
  | None => Err (PlainError "x509: malformed certificate")
  end.

(** The stand-in for PEM: a dash, the block type, the payload. *)
Definition encodePEM (b : pem.Block) : bytes :=
  "-"%byte :: putString (pem.Type_ b) ++ pem.Bytes b.
Definition decodePEM (data : bytes) : option pem.Block :=
  match data with
  | "-"%byte :: rest =>
      match getString rest with
      | Some (ty, payload) => Some (pem.mkBlock ty payload)
      | None => None
      end
  | _ => None
  end.

Definition marshalKey (k : rsa.PrivateKey) : bytes :=
  putZ (rsa.N (rsa.Public k)) ++ putZ (rsa.E (rsa.Public k)) ++ putZ (rsa.D k).

#[export] Instance lib : Lib := {|
  pem_Decode := decodePEM;
  pem_EncodeToMemory := encodePEM;
  x509_ParseCertificate := parseCertificate;
  x509_MarshalPKCS1PrivateKey := marshalKey;
  filepath_Join := fun dir name => dir +:+ "/" +:+ name
|}.

(** *** The cluster, the disk, the clock *)

Record World := mkWorld {
  secrets : gmap (string * string) Secret.t;
  validating : gmap string ValidatingWebhookConfiguration.t;
  mutating : gmap string MutatingWebhookConfiguration.t;
  dirs : gset string;
  files : gmap string bytes;
  clock : Time;
  entropy : Z;
  logged : list string
}.

Definition notFound (kind name : string) : Error :=
  StatusError StatusReasonNotFound 404
    (Sprintf "%s %s not found" [kind; name]).
Definition alreadyExists (kind name : string) : Error :=
  StatusError StatusReasonAlreadyExists 409
    (Sprintf "%s %s already exists" [kind; name]).

Definition emptySecret : Secret.t :=
  Secret.mk (ObjectMeta.mk "" "" "") "" ∅.

Definition handler : Handler World :=
  fun o =>
    match o return World -> Resp o * World with
    | SecretsGet ns name => fun w =>
        match secrets w !! (ns, name) with
        | Some s => (inl s, w)
        | None => (inr (Some emptySecret, notFound "secrets" name), w)
        end
    | SecretsUpdate ns s => fun w =>
        match secrets w !! (ns, Secret.Name s) with
        | Some _ =>
            (None,
             mkWorld (<[(ns, Secret.Name s) := s]> (secrets w)) (validating w)
               (mutating w) (dirs w) (files w) (clock w) (entropy w) (logged w))
        | None => (Some (notFound "secrets" (Secret.Name s)), w)
        end
    | SecretsCreate ns s => fun w =>
        match secrets w !! (ns, Secret.Name s) with
        | Some _ => (Some (alreadyExists "secrets" (Secret.Name s)), w)
        | None =>
            (None,
             mkWorld (<[(ns, Secret.Name s) := s]> (secrets w)) (validating w)
               (mutating w) (dirs w) (files w) (clock w) (entropy w) (logged w))
        end
    | ValidatingGet name => fun w =>
        match validating w !! name with
        | Some v => (Ok v, w)
        | None =>
            (Err (notFound "validatingwebhookconfigurations" name), w)
        end
    | ValidatingUpdate v => fun w =>
        let name :=
          ObjectMeta.Name (ValidatingWebhookConfiguration.ObjectMeta v) in
        match validating w !! name with
        | Some _ =>
            (None,
             mkWorld (secrets w) (<[name := v]> (validating w)) (mutating w)
               (dirs w) (files w) (clock w) (entropy w) (logged w))
        | None =>
            (Some (notFound "validatingwebhookconfigurations" name), w)
        end
    | MutatingGet name => fun w =>
        match mutating w !! name with
        | Some m => (Ok m, w)
        | None => (Err (notFound "mutatingwebhookconfigurations" name), w)
        end
    | MutatingUpdate m => fun w =>
        let name :=
          ObjectMeta.Name (MutatingWebhookConfiguration.ObjectMeta m) in
        match mutating w !! name with
        | Some _ =>
            (None,
             mkWorld (secrets w) (validating w) (<[name := m]> (mutating w))
               (dirs w) (files w) (clock w) (entropy w) (logged w))
        | None => (Some (notFound "mutatingwebhookconfigurations" name), w)
        end
    | MkdirAll path _ => fun w =>
        (None,
         mkWorld (secrets w) (validating w) (mutating w) ({[path]} ∪ dirs w)
           (files w) (clock w) (entropy w) (logged w))
    | WriteFile name data _ => fun w =>
        (None,
         mkWorld (secrets w) (validating w) (mutating w) (dirs w)
           (<[name := data]> (files w)) (clock w) (entropy w) (logged w))
    | TimeNow => fun w => (clock w, w)
    | RsaGenerateKey bits => fun w =>
        (Ok (rsa.mkPrivateKey (rsa.mkPublicKey (2 ^ (bits - 1) + entropy w) 65537)
               (entropy w) []),
         mkWorld (secrets w) (validating w) (mutating w) (dirs w) (files w)
           (clock w) (entropy w + 1) (logged w))
    | RandInt max => fun w =>
        (Ok (entropy w `mod` max),
         mkWorld (secrets w) (validating w) (mutating w) (dirs w) (files w)
           (clock w) (entropy w + 1) (logged w))
    | X509CreateCertificate template _ _ _ => fun w =>
        (Ok (encodeCertificate template), w)
    | LogInfo msg _ => fun w =>
        (tt,
         mkWorld (secrets w) (validating w) (mutating w) (dirs w) (files w)
           (clock w) (entropy w) (logged w ++ [msg]))
    end.

(** The same cluster seen through a client that never finds a validating
    configuration. *)
Definition withoutPrimary : Handler World :=
  fun o =>
    match o return World -> Resp o * World with
    | ValidatingGet name => fun w =>
        (Err (notFound "validatingwebhookconfigurations" name), w)
    | o' => handler o'
    end.
End Ref.

(** ** Vocabulary of the statements *)

(** The operations that write a Secret, and those that touch one at all. *)
Definition isSecretWrite (o : Op) : bool :=
  match o with
  | SecretsUpdate _ _ | SecretsCreate _ _ => true
  | _ => false
  end.

Definition isSecretOp (o : Op) : bool :=
  match o with
  | SecretsGet _ _ | SecretsUpdate _ _ | SecretsCreate _ _ => true
  | _ => false
  end.

(** Every operation the program can issue, whatever it is answered,
    satisfies [P]. *)
Fixpoint only {A : Type} (P : Op -> Prop) (p : Prog A) : Prop :=
  match p with
  | Ret _ => True
  | Panic _ => True
  | Vis o k => P o /\ forall r, only P (k r)
  end.

(** The program cannot panic, whatever it is answered. *)
Fixpoint noPanic {A : Type} (p : Prog A) : Prop :=
  match p with
  | Ret _ => True
  | Panic _ => False
  | Vis _ k => forall r, noPanic (k r)
  end.

(** The handler answers operation [o] with an answer in [P] in every
    world. *)
Definition always {W : Type} (h : Handler W) (o : Op) (P : Resp o -> Prop)
    : Prop :=
  forall w, P (fst (h o w)).

(** Every entry carries the CA bundle [ca]. *)
Definition validatingBundles (ca : bytes)
    (v : ValidatingWebhookConfiguration.t) : Prop :=
  Forall (fun wh => WebhookClientConfig.CABundle
                      (ValidatingWebhook.ClientConfig wh) = ca)
         (ValidatingWebhookConfiguration.Webhooks v).

Definition mutatingBundles (ca : bytes)
    (m : MutatingWebhookConfiguration.t) : Prop :=
  Forall (fun wh => WebhookClientConfig.CABundle
                      (MutatingWebhook.ClientConfig wh) = ca)
         (MutatingWebhookConfiguration.Webhooks m).

(** The object [patchWebhookConfig] hands to the update of the primary. *)
Definition patchedValidating (ca : bytes)
    (v : ValidatingWebhookConfiguration.t) : ValidatingWebhookConfiguration.t :=
  ValidatingWebhookConfiguration.mk
    (ValidatingWebhookConfiguration.ObjectMeta v)
    (map (setValidatingCABundle ca) (ValidatingWebhookConfiguration.Webhooks v)).

Definition patchedMutating (ca : bytes)
    (m : MutatingWebhookConfiguration.t) : MutatingWebhookConfiguration.t :=
  MutatingWebhookConfiguration.mk
    (MutatingWebhookConfiguration.ObjectMeta m)
    (map (setMutatingCABundle ca) (MutatingWebhookConfiguration.Webhooks m)).

(** What trust propagation may issue: reads and updates of the two
    configurations under the primary and the derived name, every update
    carrying the bundle in every entry, and log lines. *)
Definition patchOp (name : string) (ca : bytes) (o : Op) : Prop :=
  match o with
  | ValidatingGet n => n = name
  | ValidatingUpdate v => validatingBundles ca v
  | MutatingGet n => n = mutatingWebhookName name
  | MutatingUpdate m => mutatingBundles ca m
  | LogInfo _ _ => True
  | _ => False
  end.

(** The log lines of [patchWebhookConfig]. *)
Definition logValidating (name : string) : Op :=
  LogInfo "patched ValidatingWebhookConfiguration with CA bundle"
    ["name"; name].
Definition logMutating (name : string) : Op :=
  LogInfo "patched MutatingWebhookConfiguration with CA bundle"
    ["name"; mutatingWebhookName name].

(** The world in which [patchWebhookConfig] turns to the secondary, when
    the primary [vwc] was fetched leaving world [w1] and its update, if one
    was due, went through. *)
Definition afterPrimary {W : Type} (h : Handler W) (name : string)
    (ca : bytes) (vwc : ValidatingWebhookConfiguration.t) (w1 : W) : W :=
  match ValidatingWebhookConfiguration.Webhooks vwc with
  | [] => w1
  | _ :: _ =>
      snd (h (logValidating name)
             (snd (h (ValidatingUpdate (patchedValidating ca vwc)) w1)))
  end.

(** What the reuse path of [Ensure] may do to the disk and to the webhook
    configurations, given the record it found: make the directory, write
    the two files from the record's leaf certificate and key, and update
    configurations whose every entry carries the record's authority
    certificate. *)
Definition reuseOp `{Lib} (cfg : Config.t) (existing : Secret.t) (o : Op)
    : Prop :=
  match o with
  | MkdirAll path perm => path = Config.CertDir cfg /\ perm = perm_0750
  | WriteFile name data perm =>
      perm = perm_0640
      /\ (name = filepath_Join (Config.CertDir cfg) "tls.crt"
          /\ data = Secret.Data existing !!! "tls.crt"
          \/ name = filepath_Join (Config.CertDir cfg) "tls.key"
             /\ data = Secret.Data existing !!! "tls.key")
  | ValidatingUpdate v =>
      validatingBundles (Secret.Data existing !!! "ca.crt") v
  | MutatingUpdate m => mutatingBundles (Secret.Data existing !!! "ca.crt") m
  | _ => True
  end.

(** The write [persist] starts with: an [Update] carrying the version
    token of the record found, when a record with a name was found, and a
    [Create] otherwise. *)
Definition upsertOp `{Lib} (cfg : Config.t) (existing : option Secret.t)
    (caPEM certPEM keyPEM : bytes) : Op :=
  match existing with
  | Some ex =>
      if String.eqb (Secret.Name ex) ""
      then SecretsCreate (Config.Namespace cfg)
             (newSecret cfg caPEM certPEM keyPEM "")
      else SecretsUpdate (Config.Namespace cfg)
             (newSecret cfg caPEM certPEM keyPEM (Secret.ResourceVersion ex))
  | None =>
      SecretsCreate (Config.Namespace cfg)
        (newSecret cfg caPEM certPEM keyPEM "")
  end.

(** The log line of the reuse path of [Ensure]. *)
Definition logSkip : Op :=
  LogInfo "existing webhook certs are still valid, skipping regeneration" [].

(** The log lines of the two ways into regeneration. *)
Definition logRenew : Op := LogInfo "existing webhook certs need renewal" [].
Definition logAbsent : Op :=
  LogInfo "webhook cert secret not found, generating new certs" [].

(** The program reports an error (a non-nil [error]) from every world. *)
Definition reportsError {W : Type} (h : Handler W) (p : Prog error) : Prop :=
  forall w, exists e, outcome (run h p w) = Returned (Some e).

(** ** Scenarios in the reference world

    The configuration and the objects of the package's end-to-end tests. *)

Module Scenario.
Import Ref.

Definition day : Duration := 24 * Hour.

Definition cfg : Config.t :=
  Config.mk "webhook-service" "test-ns" "webhook-server-cert"
    "test-validating-webhook-configuration" "/tmp/certs"
    (365 * day) (30 * day).

Definition primary : ValidatingWebhookConfiguration.t :=
  ValidatingWebhookConfiguration.mk
    (ObjectMeta.mk "test-validating-webhook-configuration" "" "1")
    [ValidatingWebhook.mk "test.webhook.io" (WebhookClientConfig.mk None [])].

Definition emptyPrimary : ValidatingWebhookConfiguration.t :=
  ValidatingWebhookConfiguration.mk
    (ObjectMeta.mk "test-validating-webhook-configuration" "" "1") [].

Definition secondary : MutatingWebhookConfiguration.t :=
  MutatingWebhookConfiguration.mk
    (ObjectMeta.mk "test-mutating-webhook-configuration" "" "1")
    [MutatingWebhook.mk "mutate.webhook.io"
       (WebhookClientConfig.mk (Some "https://old") [])].

Definition start : Time := 1700000000000000000.

(** Cold start: no secret, the primary configuration only. *)
Definition cold : World :=
  mkWorld ∅ {[ "test-validating-webhook-configuration" := primary ]} ∅ ∅ ∅
    start 7 [].

(** After a first [Ensure]: a secret with a leaf valid for 365 days. *)
Definition warm : World := final (run handler (Ensure cfg) cold).

(** The same cluster after a restart, 340 days later, on an empty disk:
    25 days of validity are left. *)
Definition stale : World :=
  mkWorld (secrets warm) (validating warm) (mutating warm) ∅ ∅
    (start + 340 * day) (entropy warm) [].

(** A cluster with both configurations, and clusters whose primary has no
    webhooks or is missing. *)
Definition both : World :=
  mkWorld (secrets warm) (validating warm)
    {[ "test-mutating-webhook-configuration" := secondary ]} ∅ ∅
    (start + day) (entropy warm) [].

Definition hollow : World :=
  mkWorld (secrets warm)
    {[ "test-validating-webhook-configuration" := emptyPrimary ]} ∅ ∅ ∅
    (start + day) (entropy warm) [].

Definition orphan : World :=
  mkWorld (secrets warm) ∅ ∅ ∅ ∅ (start + day) (entropy warm) [].

(** The record of the warm cluster and its three blobs. *)
Definition record : Secret.t :=
  default emptySecret (secrets warm !! ("test-ns", "webhook-server-cert")).
Definition leaf : bytes := Secret.Data record !!! "tls.crt".
Definition leafKey : bytes := Secret.Data record !!! "tls.key".
Definition authority : bytes := Secret.Data record !!! "ca.crt".

(** The authority and the leaf the generator makes from the cold
    world. *)
Definition madeCA : x509.Certificate * rsa.PrivateKey * bytes :=
  match outcome (run handler (generateCA (365 * day)) cold) with
  | Returned (Ok made) => made
  | _ => (x509.mkCertificate 0 (pkix.mkName "" []) [] 0 0 0 [] false false,
          rsa.mkPrivateKey (rsa.mkPublicKey 0 0) 0 [], [])
  end.
Definition afterCA : World :=
  final (run handler (generateCA (365 * day)) cold).
Definition madeLeaf : bytes * bytes :=
  match outcome (run handler
                   (generateServerCert (fst (fst madeCA)) (snd (fst madeCA))
                      ["svc.ns.svc"; "svc.ns.svc.cluster.local"] (365 * day))
                   afterCA) with
  | Returned (Ok made) => made
  | _ => ([], [])
  end.
End Scenario.

(** ** Proof automation *)

(** Unfolds the monadic plumbing of a program, and nothing else. *)
Ltac prog_simpl :=
  cbn [mbind mret Prog_bind Prog_ret bind call only noPanic fst snd] in *.

(** Walks a static predicate ([only], [noPanic]) through a program. *)
Ltac prog_walk :=
  repeat (prog_simpl;
          match goal with
          | |- True => exact I
          | |- _ /\ _ => split
          | |- forall _, _ => intro
          | |- only _ (match ?x with _ => _ end) => destruct x
          | |- noPanic (match ?x with _ => _ end) => destruct x
          | |- only _ (if ?x then _ else _) => destruct x
          | |- noPanic (if ?x then _ else _) => destruct x
          end).

(** Walks [reportsError] through a program, given its rules for [Ret] and
    [Vis]. *)
Ltac errs_walk_with lret lvis :=
  repeat (prog_simpl;
          match goal with
          | |- forall _, _ => intro
          | |- reportsError _ (Ret (Some _)) => apply lret
          | |- reportsError _ (mret (Some _)) => apply lret
          | |- reportsError _ (Vis _ _) => apply lvis
          | |- reportsError _ (match ?x with _ => _ end) => destruct x
          | |- reportsError _ (if ?x then _ else _) => destruct x
          end).

(** ** Further vocabulary: the stages of the pipeline *)

(** The operations on the local disk, and on the webhook configurations. *)
Definition isDiskOp (o : Op) : bool :=
  match o with
  | MkdirAll _ _ | WriteFile _ _ _ => true
  | _ => false
  end.

Definition isWebhookOp (o : Op) : bool :=
  match o with
  | ValidatingGet _ | ValidatingUpdate _ | MutatingGet _ | MutatingUpdate _ =>
      true
  | _ => false
  end.

(** The stage of [Ensure] an operation belongs to; a log line belongs to
    none. *)
Definition stage (o : Op) : option nat :=
  match o with
  | SecretsGet _ _ => Some 0%nat
  | TimeNow | RsaGenerateKey _ | RandInt _ | X509CreateCertificate _ _ _ _ =>
      Some 1%nat
  | SecretsUpdate _ _ | SecretsCreate _ _ => Some 2%nat
  | MkdirAll _ _ => Some 3%nat
  | WriteFile _ _ _ => Some 4%nat
  | ValidatingGet _ => Some 5%nat
  | ValidatingUpdate _ => Some 6%nat
  | MutatingGet _ => Some 7%nat
  | MutatingUpdate _ => Some 8%nat
  | LogInfo _ _ => None
  end.

(** Stage [t] may follow stage [s]: it is a later stage, or the same one
    for the two stages that take several operations (the clock and the
    generator, the file writes). *)
Definition follows (s t : nat) : Prop :=
  (s < t)%nat \/ (s = t /\ (s = 1%nat \/ s = 4%nat)).

(** From an operation of stage [prev] on, every operation the program can
    issue belongs to a stage that may follow the stage of the operation
    before it. *)
Fixpoint pipeline {A : Type} (prev : option nat) (p : Prog A) : Prop :=
  match p with
  | Ret _ => True
  | Panic _ => True
  | Vis o k =>
      match stage o with
      | None => forall r, pipeline prev (k r)
      | Some t =>
          match prev with
          | None => True
          | Some s => follows s t
          end
          /\ forall r, pipeline (Some t) (k r)
      end
  end.

(** Every value the program can return, whatever it is answered, satisfies
    [P]. *)
Fixpoint returns {A : Type} (P : A -> Prop) (p : Prog A) : Prop :=
  match p with
  | Ret a => P a
  | Panic _ => True
  | Vis _ k => forall r, returns P (k r)
  end.

(** A Go [error] that is nil or made by [fmt.Errorf] around a cause. *)
Definition nilOrWrapped (e : error) : Prop :=
  match e with
  | None => True
  | Some (WrapError _ _) => True
  | Some _ => False
  end.

(** Walks [pipeline] and [returns] through a program whose definitions
    have been unfolded. *)
Ltac stage_walk :=
  repeat (cbn [mbind mret Prog_bind Prog_ret bind call pipeline returns stage
               nilOrWrapped Errorf fst snd] in *;
          match goal with
          | |- True => exact I
          | |- _ /\ _ => split
          | |- forall _, _ => intro
          | |- follows _ _ => unfold follows; lia
          | |- pipeline _ ?p =>
              match p with
              | context [match ?x with _ => _ end] => destruct x
              end
          | |- returns _ ?p =>
              match p with
              | context [match ?x with _ => _ end] => destruct x
              end
          end).

(** All the writes of one pass of [Ensure] carry the same material: the
    Secret written holds the three blobs, the two files hold the leaf
    certificate and its key, every webhook configuration updated carries
    the authority certificate in every entry. *)
Definition materialOp `{Lib} (cfg : Config.t) (caPEM certPEM keyPEM : bytes)
    (o : Op) : Prop :=
  match o with
  | SecretsUpdate ns s | SecretsCreate ns s =>
      ns = Config.Namespace cfg
      /\ exists resourceVersion,
           s = newSecret cfg caPEM certPEM keyPEM resourceVersion
  | MkdirAll path perm => path = Config.CertDir cfg /\ perm = perm_0750
  | WriteFile name data perm =>
      perm = perm_0640
      /\ (name = filepath_Join (Config.CertDir cfg) "tls.crt" /\ data = certPEM
          \/ name = filepath_Join (Config.CertDir cfg) "tls.key"
             /\ data = keyPEM)
  | ValidatingUpdate v => validatingBundles caPEM v
  | MutatingUpdate m => mutatingBundles caPEM m
  | _ => True
  end.

(** An operation that touches neither the disk nor a webhook
    configuration and writes no Secret: the [Get] of the Secret, the
    clock, the generator, a log line. *)
Definition harmless (o : Op) : Prop :=
  isDiskOp o = false /\ isWebhookOp o = false /\ isSecretWrite o = false.

(** The log line after the files of a regenerated record. *)
Definition logWrote (cfg : Config.t) : Op :=
  LogInfo "wrote webhook certs to disk" ["dir"; Config.CertDir cfg].

(** ** Further vocabulary: what was asked and what was answered *)

(** An operation with the answer it got. *)
Definition Event : Type := {o : Op & Resp o}.
Definition asked (ev : Event) : Op := projT1 ev.

(** The operations a run issues with their answers, in order; [trace] is
    its first components. *)
Fixpoint transcript {W A : Type} (h : Handler W) (p : Prog A) (w : W)
    : list Event :=
  match p with
  | Ret _ => []
  | Panic _ => []
  | Vis o k =>
      existT o (fst (h o w))
      :: transcript h (k (fst (h o w))) (snd (h o w))
  end.

(** The error an answer reports, when it reports one; the clock and the
    logger report none. *)
Definition failure (o : Op) : Resp o -> option Error :=
  match o return Resp o -> option Error with
  | SecretsGet _ _ =>
      fun r => match r with inl _ => None | inr (_, err) => Some err end
  | SecretsUpdate _ _ => fun r => r
  | SecretsCreate _ _ => fun r => r
  | ValidatingGet _ =>
      fun r => match r with Ok _ => None | Err err => Some err end
  | ValidatingUpdate _ => fun r => r
  | MutatingGet _ =>
      fun r => match r with Ok _ => None | Err err => Some err end
  | MutatingUpdate _ => fun r => r
  | MkdirAll _ _ => fun r => r
  | WriteFile _ _ _ => fun r => r
  | TimeNow => fun _ => None
  | RsaGenerateKey _ =>
      fun r => match r with Ok _ => None | Err err => Some err end
  | RandInt _ =>
      fun r => match r with Ok _ => None | Err err => Some err end
  | X509CreateCertificate _ _ _ _ =>
      fun r => match r with Ok _ => None | Err err => Some err end
  | LogInfo _ _ => fun _ => None
  end.

Definition failed (ev : Event) : option Error :=
  failure (projT1 ev) (projT2 ev).

(** The failures the package goes on after: not-found on the [Get] of the
    Secret and on the [Get] of the mutating configuration. *)
Definition tolerated (o : Op) (err : Error) : bool :=
  match o with
  | SecretsGet _ _ => IsNotFound err
  | MutatingGet _ => IsNotFound err
  | _ => false
  end.

Definition passed (ev : Event) : Prop :=
  match failed ev with
  | None => True
  | Some err => tolerated (asked ev) err = true
  end.

(** [cause] is [err] or lies under it in its chain of [%w] wrappings, where
    [errors.Unwrap] finds it. *)
Fixpoint causedBy (err cause : Error) : Prop :=
  err = cause
  \/ match err with
     | WrapError _ inner => causedBy inner cause
     | _ => False
     end.

(** Every operation the program can issue satisfies [P] of the answered
    operations before it, [past] being those before the program. *)
Fixpoint guarded {A : Type} (P : list Event -> Op -> Prop)
    (past : list Event) (p : Prog A) : Prop :=
  match p with
  | Ret _ => True
  | Panic _ => True
  | Vis o k => P past o /\ forall r, guarded P (past ++ [existT o r]) (k r)
  end.

(** Every value the program can return satisfies [P] of the answered
    operations before the return. *)
Fixpoint concludes {A : Type} (P : list Event -> A -> Prop)
    (past : list Event) (p : Prog A) : Prop :=
  match p with
  | Ret a => P past a
  | Panic _ => True
  | Vis o k => forall r, concludes P (past ++ [existT o r]) (k r)
  end.

(** The Secret an answer shows the cluster to hold: the one a [Get]
    returned, the one an [Update] or a [Create] that went through sent. *)
Definition shown (o : Op) : Resp o -> option Secret.t :=
  match o return Resp o -> option Secret.t with
  | SecretsGet _ _ =>
      fun r => match r with inl s => Some s | inr _ => None end
  | SecretsUpdate _ s =>
      fun r => match r with None => Some s | Some _ => None end
  | SecretsCreate _ s =>
      fun r => match r with None => Some s | Some _ => None end
  | _ => fun _ => None
  end.

(** The latest Secret the answers so far have shown the cluster to hold. *)
Definition known (past : list Event) : option Secret.t :=
  last (omap (fun ev => shown (projT1 ev) (projT2 ev)) past).

(** The answered operations on the disk so far are the making of the
    certificate directory and the writes of the two files, in that order,
    each answered with no error. *)
Definition filesInstalled `{Lib} (cfg : Config.t) (past : list Event) : Prop :=
  exists certPEM keyPEM : bytes,
    List.filter (fun ev => isDiskOp (asked ev)) past
    = [existT (MkdirAll (Config.CertDir cfg) perm_0750) (None : option Error);
       existT (WriteFile (filepath_Join (Config.CertDir cfg) "tls.crt")
                 certPEM perm_0640) (None : option Error);
       existT (WriteFile (filepath_Join (Config.CertDir cfg) "tls.key")
                 keyPEM perm_0640) (None : option Error)].

(** A webhook configuration is only touched once the files are there. *)
Definition filesFirst `{Lib} (cfg : Config.t) (past : list Event) (o : Op)
    : Prop :=
  isWebhookOp o = true -> filesInstalled cfg past.

(** What is written to a file or sent as a bundle is what the Secret the
    cluster is known to hold holds. *)
Definition fromKnown `{Lib} (cfg : Config.t) (past : list Event) (o : Op)
    : Prop :=
  match o with
  | WriteFile name data _ =>
      exists s,
        known past = Some s
        /\ (name = filepath_Join (Config.CertDir cfg) "tls.crt"
            /\ data = Secret.Data s !!! "tls.crt"
            \/ name = filepath_Join (Config.CertDir cfg) "tls.key"
               /\ data = Secret.Data s !!! "tls.key")
  | ValidatingUpdate v =>
      exists s,
        known past = Some s /\ validatingBundles (Secret.Data s !!! "ca.crt") v
  | MutatingUpdate m =>
      exists s,
        known past = Some s /\ mutatingBundles (Secret.Data s !!! "ca.crt") m
  | _ => True
  end.

(** The certificates made so far, each with the template it was made
    from, and the keys generated so far. *)
Definition madeCert (o : Op) : Resp o -> option (x509.Certificate * bytes) :=
  match o return Resp o -> option (x509.Certificate * bytes) with
  | X509CreateCertificate template _ _ _ =>
      fun r => match r with Ok der => Some (template, der) | Err _ => None end
  | _ => fun _ => None
  end.

Definition madeKey (o : Op) : Resp o -> option rsa.PrivateKey :=
  match o return Resp o -> option rsa.PrivateKey with
  | RsaGenerateKey _ =>
      fun r => match r with Ok key => Some key | Err _ => None end
  | _ => fun _ => None
  end.

Definition certsMade (past : list Event) : list (x509.Certificate * bytes) :=
  omap (fun ev => madeCert (projT1 ev) (projT2 ev)) past.

Definition keysMade (past : list Event) : list rsa.PrivateKey :=
  omap (fun ev => madeKey (projT1 ev) (projT2 ev)) past.

(** The data flow of a regeneration. The first certificate asked for is
    the authority: self-signed under the first key generated. The second
    is the leaf: for the DNS names of the service, with the second key
    generated as its public key, under the parse of the authority
    certificate made before it and signed with the authority's key. Both
    are valid for the configured time. The Secret written holds the PEM of
    the two certificates made in the pass and of the leaf's key. *)
Definition fromThisPass `{Lib} (cfg : Config.t) (past : list Event) (o : Op)
    : Prop :=
  match o with
  | X509CreateCertificate template parent pub priv =>
      x509.NotAfter template
      = time_Add (x509.NotBefore template) (Config.CertValidity cfg)
      /\ match certsMade past, keysMade past with
         | [], [caKey] =>
             x509.IsCA template = true
             /\ parent = template
             /\ pub = rsa.Public caKey
             /\ priv = caKey
         | [(caTemplate, caDER)], [caKey; leafKey] =>
             x509.IsCA template = false
             /\ x509.DNSNames template
                = dnsNamesForService (Config.ServiceName cfg)
                    (Config.Namespace cfg)
             /\ x509.IsCA caTemplate = true
             /\ x509_ParseCertificate caDER = Ok parent
             /\ pub = rsa.Public leafKey
             /\ priv = caKey
         | _, _ => False
         end
  | SecretsUpdate _ s | SecretsCreate _ s =>
      exists caTemplate caDER leafTemplate leafDER caKey leafKey,
        certsMade past = [(caTemplate, caDER); (leafTemplate, leafDER)]
        /\ keysMade past = [caKey; leafKey]
        /\ Secret.Data s
           = <["ca.crt" := pem_EncodeToMemory
                             {| pem.Type_ := "CERTIFICATE";
                                pem.Bytes := caDER |}]>
               (<["tls.crt" := pem_EncodeToMemory
                                 {| pem.Type_ := "CERTIFICATE";
                                    pem.Bytes := leafDER |}]>
                  (<["tls.key" := pem_EncodeToMemory
                                    {| pem.Type_ := "RSA PRIVATE KEY";
                                       pem.Bytes :=
                                         x509_MarshalPKCS1PrivateKey leafKey
                                    |}]> ∅))
  | _ => True
  end.

(** A nil return means every answer passed. *)
Definition nilPassed (past : list Event) (e : error) : Prop :=
  e = None -> Forall passed past.

(** An error returned has for cause the failure of the last operation
    issued, or the failure to parse the certificate it created. *)
Definition errorCause `{Lib} (past : list Event) (e : error) : Prop :=
  forall err,
    e = Some err ->
    exists cause,
      causedBy err cause
      /\ ((exists ev,
              last past = Some ev
              /\ failed ev = Some cause
              /\ tolerated (asked ev) cause = false)
          \/ (exists template parent pub priv certDER,
                 last past
                 = Some (existT (X509CreateCertificate template parent pub priv)
                           (Ok certDER : result bytes))
                 /\ x509_ParseCertificate certDER = Err cause)).

(** The scrutinee a program is stuck on. *)
Ltac stuck_on p :=
  lazymatch p with
  | bind ?q _ => stuck_on q
  | @mbind Prog _ _ _ _ ?q => stuck_on q
  | match ?x with _ => _ end =>
      lazymatch x with
      | match _ with _ => _ end => stuck_on x
      | _ => constr:(x)
      end
  end.

(** Walks [guarded] and [concludes] through a program whose definitions
    have been unfolded; [leaf] shows what is to be shown of each operation
    and of each return. *)
Ltac history_walk leaf :=
  repeat (cbn [mbind mret Prog_bind Prog_ret bind call guarded concludes app
               Errorf negb fst snd] in *;
          lazymatch goal with
          | |- True => exact I
          | |- forall _, _ => intro
          | |- concludes _ _ ?p =>
              let x := stuck_on p in destruct x eqn:?
          | |- guarded _ _ ?p =>
              let x := stuck_on p in destruct x eqn:?
          | |- _ /\ (forall _, _) => split; [solve [leaf]|]
          | |- _ => solve [leaf]
          end).

(** Every answer of a list of answered operations passed. *)
Ltac passed_leaf :=
  repeat apply Forall_cons_2; try apply Forall_nil;
  unfold passed, failed;
  cbn [projT1 projT2 failure asked tolerated];
  first [exact I | assumption | now apply negb_false_iff].

(** The cause of an error returned is the failure of the last answer, or
    the failure to parse the certificate created last. *)
Ltac cause_leaf :=
  unfold errorCause;
  let err := fresh "err" in
  let Herr := fresh "Herr" in
  intros err Herr;
  first
    [ discriminate Herr
    | injection Herr as <-;
      eexists; split; cycle 1;
      [ first [ left; eexists; split; [reflexivity|];
                split; [reflexivity|];
                cbn [asked projT1 tolerated];
                first [reflexivity | assumption | now apply negb_true_iff]
              | right; do 5 eexists; split; [reflexivity | eassumption] ]
      | unfold Errorf; cbn [causedBy];
        repeat (first [left; reflexivity | right]);
        lazymatch goal with
        | |- causedBy ?e ?e => destruct e; left; reflexivity
        end ] ].

(** ** Faults in the reference world *)

Module Faults.
(** The answer by which an operation reports the error [e]; the clock and
    the logger cannot fail. *)
Definition refuse (o : Op) (e : Error) : option (Resp o) :=
  match o return option (Resp o) with
  | SecretsGet _ _ => Some (inr (None, e))
  | SecretsUpdate _ _ => Some (Some e)
  | SecretsCreate _ _ => Some (Some e)
  | ValidatingGet _ => Some (Err e)
  | ValidatingUpdate _ => Some (Some e)
  | MutatingGet _ => Some (Err e)
  | MutatingUpdate _ => Some (Some e)
  | MkdirAll _ _ => Some (Some e)
  | WriteFile _ _ _ => Some (Some e)
  | TimeNow => None
  | RsaGenerateKey _ => Some (Err e)
  | RandInt _ => Some (Err e)
  | X509CreateCertificate _ _ _ _ => Some (Err e)
  | LogInfo _ _ => None
  end.

(** The handler [h] with the faults [fault]: an operation that [fault]
    gives an error reports it and leaves the world alone. *)
Definition withFaults {W : Type} (fault : Op -> option Error)
    (h : Handler W) : Handler W :=
  fun o w =>
    match fault o with
    | Some e =>
        match refuse o e with
        | Some r => (r, w)
        | None => h o w
        end
    | None => h o w
    end.

Definition forbidden : Error :=
  StatusError StatusReasonForbidden 403 "forbidden".
Definition conflict : Error :=
  StatusError StatusReasonConflict 409
    "the object has been modified; please apply your changes to the latest version and try again".

(** A cluster that forbids reading Secrets, one that refuses every write
    of a Secret, a disk that is full, an entropy source that is dry. *)
Definition secretsForbidden : Handler Ref.World :=
  withFaults (fun o => match o with
                       | SecretsGet _ _ => Some forbidden
                       | _ => None
                       end) Ref.handler.

Definition secretsReadOnly : Handler Ref.World :=
  withFaults (fun o => match o with
                       | SecretsUpdate _ _ => Some conflict
                       | SecretsCreate _ _ => Some forbidden
                       | _ => None
                       end) Ref.handler.

Definition diskFull : Handler Ref.World :=
  withFaults (fun o => match o with
                       | WriteFile _ _ _ =>
                           Some (PlainError "no space left on device")
                       | _ => None
                       end) Ref.handler.

Definition noEntropy : Handler Ref.World :=
  withFaults (fun o => match o with
                       | RsaGenerateKey _ =>
                           Some (PlainError "entropy source failure")
                       | _ => None
                       end) Ref.handler.

(** A cluster whose two configurations have no webhook. *)
Definition emptySecondary : MutatingWebhookConfiguration.t :=
  MutatingWebhookConfiguration.mk
    (ObjectMeta.mk "test-mutating-webhook-configuration" "" "1") [].

Definition hollowBoth : Ref.World :=
  Ref.mkWorld (Ref.secrets Scenario.warm)
    {[ "test-validating-webhook-configuration" := Scenario.emptyPrimary ]}
    {[ "test-mutating-webhook-configuration" := emptySecondary ]} ∅ ∅
    (Scenario.start + Scenario.day) (Ref.entropy Scenario.warm) [].
End Faults.


(** ** The contract of [crypto/x509], [crypto/rsa] and [encoding/pem]

    What the package relies on of the libraries behind the operations. The
    statements about generated certificates take these as hypotheses; the
    module [Notary] below is a library in which they hold. *)

(** A certificate holds its times to the second. *)
Definition truncateSecond (t : Time) : Time := t - t `mod` Second.

(** The certificate [x509.ParseCertificate] reads back from what
    [x509.CreateCertificate] made of a template: the fields of the
    template, the times to the second, and the CA flag only with the basic
    constraints. *)
Definition issued (tmpl : x509.Certificate) : x509.Certificate :=
  {| x509.SerialNumber := x509.SerialNumber tmpl;
     x509.Subject := x509.Subject tmpl;
     x509.DNSNames := x509.DNSNames tmpl;
     x509.NotBefore := truncateSecond (x509.NotBefore tmpl);
     x509.NotAfter := truncateSecond (x509.NotAfter tmpl);
     x509.KeyUsage := x509.KeyUsage tmpl;
     x509.ExtKeyUsage_ := x509.ExtKeyUsage_ tmpl;
     x509.BasicConstraintsValid := x509.BasicConstraintsValid tmpl;
     x509.IsCA := x509.BasicConstraintsValid tmpl && x509.IsCA tmpl |}.

(** [BitLen] of [big.Int]: the length of the absolute value in bits. *)
Definition BitLen (n : Z) : Z :=
  if n =? 0 then 0 else Z.log2 (Z.abs n) + 1.

(** What [x509.CreateCertificate] makes, [x509.ParseCertificate] reads
    back. *)
Definition createParses `{Lib} {W : Type} (h : Handler W) : Prop :=
  forall tmpl parent pub priv w der,
    fst (h (X509CreateCertificate tmpl parent pub priv) w) = Ok der ->
    x509_ParseCertificate der = Ok (issued tmpl).

(** [pem.Decode] reads back the certificate block [pem.EncodeToMemory]
    wrote. *)
Definition decodesCertificates `{Lib} : Prop :=
  forall der,
    pem_Decode (pem_EncodeToMemory {| pem.Type_ := "CERTIFICATE";
                                      pem.Bytes := der |})
    = Some {| pem.Type_ := "CERTIFICATE"; pem.Bytes := der |}.

(** [rsa.GenerateKey] returns a key whose modulus has the bit length asked
    for. *)
Definition keysSized {W : Type} (h : Handler W) : Prop :=
  forall bits w key,
    fst (h (RsaGenerateKey bits) w) = Ok key ->
    BitLen (rsa.N (rsa.Public key)) = bits.

(** [cert.Verify(x509.VerifyOptions{Roots: roots, KeyUsages: usages,
    CurrentTime: t})], on the DER of the certificate and of the roots;
    [true] for a nil error. *)
Definition Verifier : Type :=
  bytes -> list bytes -> list x509.ExtKeyUsage -> Time -> bool.

(** Chain verification accepts a certificate against a root when: the
    certificate was made with the root (as parsed) for parent and signed
    with the private key whose public half the root was made for; the root
    is a CA with valid basic constraints, may sign certificates, and is not
    restricted in its extended key usages; the usage asked for is among
    those of the certificate; and the time is within the validity of
    both. *)
Definition verifyAccepts `{Lib} {W : Type} (h : Handler W) (verify : Verifier)
    : Prop :=
  forall tmpl parent pub priv w der rootTmpl rootParent rootPriv w0 rootDER
         usage t,
    fst (h (X509CreateCertificate tmpl parent pub priv) w) = Ok der ->
    fst (h (X509CreateCertificate rootTmpl rootParent (rsa.Public priv)
              rootPriv) w0) = Ok rootDER ->
    x509_ParseCertificate rootDER = Ok parent ->
    x509.IsCA parent = true ->
    x509.BasicConstraintsValid parent = true ->
    Z.land (x509.KeyUsage parent) x509.KeyUsageCertSign <> 0 ->
    x509.ExtKeyUsage_ parent = [] ->
    In usage (x509.ExtKeyUsage_ tmpl) ->
    x509.NotBefore (issued tmpl) <= t <= x509.NotAfter (issued tmpl) ->
    x509.NotBefore parent <= t <= x509.NotAfter parent ->
    verify der [rootDER] [usage] t = true.

(** The check of the package's test of [generateServerCert]: decode the
    PEM, parse the certificate, and verify it for server authentication
    against a pool holding the authority certificate. *)
Definition verifiesServerAuth `{Lib} (verify : Verifier)
    (certPEM caDER : bytes) (t : Time) : bool :=
  match pem_Decode certPEM with
  | Some block =>
      match x509_ParseCertificate (pem.Bytes block) with
      | Ok _ =>
          verify (pem.Bytes block) [caDER] [x509.ExtKeyUsageServerAuth] t
      | Err _ => false
      end
  | None => false
  end.

(** ** A library with signatures

    The stand-in library of [Ref], with a certificate that also holds the
    public key it is for and the public key of its signer, times to the
    second, keys of the size asked for, and chain verification. *)

Module Notary.
#[global] Instance ExtKeyUsage_eq_dec : EqDecision x509.ExtKeyUsage.
Proof. solve_decision. Defined.
#[global] Instance Name_eq_dec : EqDecision pkix.Name.
Proof. solve_decision. Defined.
#[global] Instance Certificate_eq_dec : EqDecision x509.Certificate.
Proof. solve_decision. Defined.

(** A modulus, on 520 bytes. *)
Definition putModulus (n : Z) : bytes := Ref.put_nat 520 n.
Definition getModulus : Ref.Parser Z :=
  Ref.pmap Ref.get_nat (Ref.getBytes 520).

Definition encodeSigned (c : x509.Certificate) (pub signer : rsa.PublicKey)
    : bytes :=
  Ref.encodeCertificate c
  ++ putModulus (rsa.N pub) ++ putModulus (rsa.N signer).

Definition decodeSigned : Ref.Parser (x509.Certificate * Z * Z) :=
  Ref.pbind Ref.decodeCertificate (fun c =>
  Ref.pbind getModulus (fun subjectKey =>
  Ref.pmap (fun signerKey => (c, subjectKey, signerKey)) getModulus)).

Definition parseSigned (der : bytes) : option (x509.Certificate * Z * Z) :=
  match decodeSigned der with
  | Some (x, []) => Some x
  | _ => None
  end.

Definition parseCertificate (der : bytes) : result x509.Certificate :=
  match parseSigned der with
  | Some (c, _, _) => Ok c
  | None => Err (PlainError "x509: malformed certificate")
  end.

Definition lib : Lib := {|
  pem_Decode := Ref.decodePEM;
  pem_EncodeToMemory := Ref.encodePEM;
  x509_ParseCertificate := parseCertificate;
  x509_MarshalPKCS1PrivateKey := Ref.marshalKey;
  filepath_Join := fun dir name => dir +:+ "/" +:+ name
|}.

(** The cluster, the disk and the clock of [Ref]; a key is only returned
    when it has the size asked for, a certificate when its bytes read
    back. *)
Definition handler : Handler Ref.World :=
  fun o =>
    match o return Ref.World -> Resp o * Ref.World with
    | RsaGenerateKey bits => fun w =>
        match fst (Ref.handler (RsaGenerateKey bits) w) with
        | Ok key =>
            if BitLen (rsa.N (rsa.Public key)) =? bits
            then Ref.handler (RsaGenerateKey bits) w
            else (Err (PlainError "crypto/rsa: invalid key size"), w)
        | Err err => (Err err, w)
        end
    | X509CreateCertificate template _ pub priv => fun w =>
        let der := encodeSigned (issued template) pub (rsa.Public priv) in
        if decide (parseSigned der
                   = Some (issued template, rsa.N pub,
                           rsa.N (rsa.Public priv)))
        then (Ok der, w)
        else (Err (PlainError "x509: cannot marshal the certificate"), w)
    | o' => Ref.handler o'
    end.

Definition allows (usage : x509.ExtKeyUsage) (c : x509.Certificate) : bool :=
  match x509.ExtKeyUsage_ c with
  | [] => true
  | usages =>
      existsb (fun u => bool_decide (u = usage)
                        || bool_decide (u = x509.ExtKeyUsageAny)) usages
  end.

Definition current (t : Time) (c : x509.Certificate) : bool :=
  (x509.NotBefore c <=? t) && (t <=? x509.NotAfter c).

(** A chain of one link: the signer of the certificate is the key a root
    is for, that root is a CA that may sign, and certificate and root
    are current and allow the usages. *)
Definition verify : Verifier :=
  fun leaf roots usages t =>
    match parseSigned leaf with
    | Some (c, _, signer) =>
        current t c
        && forallb (fun u => allows u c) usages
        && existsb
             (fun root =>
                match parseSigned root with
                | Some (r, subjectKey, _) =>
                    (subjectKey =? signer)
                    && x509.IsCA r && x509.BasicConstraintsValid r
                    && negb (Z.land (x509.KeyUsage r) x509.KeyUsageCertSign
                             =? 0)
                    && current t r
                    && forallb (fun u => allows u r) usages
                | None => false
                end)
             roots
    | None => false
    end.
End Notary.

(** ** The generator on the library with signatures *)

Module NotaryS.
Import Notary.
Local Existing Instance Notary.lib.

(** The package's test of the generator, a third of a second into a
    second: an authority for a year, a leaf under it for the two names
    of a service. *)
Definition validity : Duration := 365 * Scenario.day.
Definition dnsNames : list string :=
  ["svc.ns.svc"; "svc.ns.svc.cluster.local"].
Definition cold : Ref.World :=
  Ref.mkWorld ∅ ∅ ∅ ∅ ∅ (Scenario.start + 333333333) 7 [].

(** What a run returned, or a default. *)
Definition returned {A : Type} (default : A) (o : Outcome (result A)) : A :=
  match o with
  | Returned (Ok a) => a
  | _ => default
  end.
Definition blockBytes (b : option pem.Block) : bytes :=
  match b with
  | Some block => pem.Bytes block
  | None => []
  end.

Definition madeCA : x509.Certificate * rsa.PrivateKey * bytes :=
  returned
    (x509.mkCertificate 0 (pkix.mkName "" []) [] 0 0 0 [] false false,
     rsa.mkPrivateKey (rsa.mkPublicKey 0 0) 0 [], [])
    (outcome (run handler (generateCA validity) cold)).
Definition caCert : x509.Certificate := fst (fst madeCA).
Definition caKey : rsa.PrivateKey := snd (fst madeCA).
Definition caDER : bytes := blockBytes (pem_Decode (snd madeCA)).
Definition afterCA : Ref.World :=
  final (run handler (generateCA validity) cold).
Definition madeLeaf : bytes * bytes :=
  returned ([], [])
    (outcome (run handler
                (generateServerCert caCert caKey dnsNames validity)
                afterCA)).
End NotaryS.

(** ** A record that carries a resource version

    The stale record of [Scenario], as the API server hands it out: with
    a resource version. *)

Module ScenarioV.
Import Ref Scenario.
Definition versionedRecord : Secret.t :=
  Secret.mk (ObjectMeta.mk "webhook-server-cert" "test-ns" "41")
    SecretTypeTLS (Secret.Data record).
Definition versioned : World :=
  mkWorld {[ ("test-ns", "webhook-server-cert") := versionedRecord ]}
    (validating warm) (mutating warm) ∅ ∅ (start + 340 * day)
    (entropy warm) [].
End ScenarioV.

(** * Properties *)

(** ** Running programs *)

Section RunFacts.
Context {W : Type} (h : Handler W).

Lemma run_eta {A} (r : Run W A) : mkRun (outcome r) (final r) (trace r) = r.
Proof. destruct r; reflexivity. Qed.

Lemma run_vis {A} (o : Op) (k : Resp o -> Prog A) (w : W) :
  run h (Vis o k) w
  = mkRun (outcome (run h (k (fst (h o w))) (snd (h o w))))
          (final (run h (k (fst (h o w))) (snd (h o w))))
          (o :: trace (run h (k (fst (h o w))) (snd (h o w)))).
Proof. reflexivity. Qed.

Lemma run_bind {A B} (p : Prog A) (f : A -> Prog B) (w : W) :
  run h (p ≫= f) w
  = match outcome (run h p w) with
    | Returned a =>
        let r := run h (f a) (final (run h p w)) in
        mkRun (outcome r) (final r) (trace (run h p w) ++ trace r)
    | Panicked msg =>
        mkRun (Panicked msg) (final (run h p w)) (trace (run h p w))
    end.
Proof.
  revert w; induction p as [a|msg|o k IH]; intros w.
  - cbn. now rewrite run_eta.
  - reflexivity.
  - change (Vis o k ≫= f) with (Vis o (fun r => k r ≫= f)).
    rewrite !run_vis, IH.
    cbn [outcome final trace].
    destruct (outcome (run h (k (fst (h o w))) (snd (h o w))));
      reflexivity.
Qed.

Lemma only_weaken {A} (P Q : Op -> Prop) (p : Prog A) :
  (forall o, P o -> Q o) -> only P p -> only Q p.
Proof.
  intros HPQ; induction p as [a|msg|o k IH]; cbn; [trivial..|].
  intros [Ho Hk]; split; [auto | intros r; apply IH, Hk].
Qed.

Lemma only_bind {A B} (P : Op -> Prop) (p : Prog A) (f : A -> Prog B) :
  only P p -> (forall a, only P (f a)) -> only P (p ≫= f).
Proof.
  intros Hp Hf; induction p as [a|msg|o k IH]; cbn.
  - apply Hf.
  - trivial.
  - destruct Hp as [Ho Hk]; split; [exact Ho | intros r; apply IH, Hk].
Qed.

Lemma only_trace {A} (P : Op -> Prop) (p : Prog A) (w : W) :
  only P p -> Forall P (trace (run h p w)).
Proof.
  revert w; induction p as [a|msg|o k IH]; intros w Hp; cbn.
  - constructor.
  - constructor.
  - destruct Hp as [Ho Hk]. constructor; [exact Ho | apply IH, Hk].
Qed.

Lemma noPanic_bind {A B} (p : Prog A) (f : A -> Prog B) :
  noPanic p -> (forall a, noPanic (f a)) -> noPanic (p ≫= f).
Proof.
  intros Hp Hf; induction p as [a|msg|o k IH]; cbn.
  - apply Hf.
  - exact Hp.
  - intros r; apply IH, Hp.
Qed.

Lemma noPanic_run {A} (p : Prog A) (w : W) :
  noPanic p -> exists a, outcome (run h p w) = Returned a.
Proof.
  revert w; induction p as [a|msg|o k IH]; intros w Hp; cbn.
  - eauto.
  - destruct Hp.
  - apply IH, Hp.
Qed.
End RunFacts.

(** ** The [range] loops *)

Section RangeFacts.
Context {A : Type} (f : A -> A).

(** Updating the entries at the indices [i, i+1, ...] one after the other
    is mapping over the tail from [i]. *)
Lemma foldl_alter_seq (suffix : list A) :
  forall prefix : list A,
    foldl (fun ws i => alter f i ws) (prefix ++ suffix)
          (seq (length prefix) (length suffix))
    = prefix ++ map f suffix.
Proof.
  induction suffix as [|x suffix IH]; intros prefix; [reflexivity|].
  cbn [length seq foldl map].
  replace (alter f (length prefix) (prefix ++ x :: suffix))
    with ((prefix ++ [f x]) ++ suffix).
  - replace (S (length prefix)) with (length (prefix ++ [f x]))
      by (rewrite length_app; cbn; lia).
    rewrite IH, <- app_assoc. reflexivity.
  - rewrite <- app_assoc. cbn.
    induction prefix as [|y prefix IHp]; cbn; [reflexivity|].
    now rewrite IHp.
Qed.

Lemma foldl_alter_all (l : list A) :
  foldl (fun ws i => alter f i ws) l (seq 0 (length l)) = map f l.
Proof. exact (foldl_alter_seq l []). Qed.

Lemma foldl_alter_flag (l : list nat) (ws : list A) (b : bool) :
  foldl (fun st i => (alter f i (fst st), true)) (ws, b) l
  = (foldl (fun ws i => alter f i ws) ws l,
     match l with [] => b | _ :: _ => true end).
Proof.
  revert ws b; induction l as [|i l IH]; intros ws b; [reflexivity|].
  cbn [foldl fst]. rewrite IH. destruct l; reflexivity.
Qed.
End RangeFacts.

Lemma rangeValidating_map (ca : bytes) (ws : list ValidatingWebhook.t) :
  rangeValidating ca ws
  = (map (setValidatingCABundle ca) ws,
     match ws with [] => false | _ :: _ => true end).
Proof.
  unfold rangeValidating.
  rewrite foldl_alter_flag, foldl_alter_all.
  destruct ws; reflexivity.
Qed.

Lemma rangeMutating_map (ca : bytes) (ws : list MutatingWebhook.t) :
  rangeMutating ca ws = map (setMutatingCABundle ca) ws.
Proof. apply foldl_alter_all. Qed.

Lemma validatingBundles_patched (ca : bytes)
    (v : ValidatingWebhookConfiguration.t) :
  validatingBundles ca (patchedValidating ca v).
Proof.
  unfold validatingBundles, patchedValidating; cbn.
  induction (ValidatingWebhookConfiguration.Webhooks v); constructor; auto.
Qed.

Lemma mutatingBundles_patched (ca : bytes)
    (m : MutatingWebhookConfiguration.t) :
  mutatingBundles ca (patchedMutating ca m).
Proof.
  unfold mutatingBundles, patchedMutating; cbn.
  induction (MutatingWebhookConfiguration.Webhooks m); constructor; auto.
Qed.


(** ** Strings *)

Section StringFacts.
Local Open Scope nat_scope.

(** [String.append] is never unfolded by [simpl]; its two equations. *)
Lemma string_app_nil (s : string) : "" +:+ s = s.
Proof. reflexivity. Qed.

Lemma string_app_cons (c : ascii) (s1 s2 : string) :
  String c s1 +:+ s2 = String c (s1 +:+ s2).
Proof. reflexivity. Qed.

Lemma string_length_app (s1 s2 : string) :
  String.length (s1 +:+ s2) = String.length s1 + String.length s2.
Proof.
  induction s1 as [|c s1 IH]; [reflexivity|].
  rewrite string_app_cons; simpl; now rewrite IH.
Qed.

Lemma string_app_assoc (s1 s2 s3 : string) :
  (s1 +:+ s2) +:+ s3 = s1 +:+ (s2 +:+ s3).
Proof.
  induction s1 as [|c s1 IH]; [reflexivity|].
  rewrite !string_app_cons; now rewrite IH.
Qed.

Lemma substring_skip (pre s : string) (i n : nat) :
  String.substring (String.length pre + i) n (pre +:+ s)
  = String.substring i n s.
Proof.
  induction pre as [|c pre IH]; [reflexivity|].
  rewrite string_app_cons; simpl; exact IH.
Qed.

Lemma substring_all (s : string) :
  String.substring 0 (String.length s) s = s.
Proof. induction s as [|c s IH]; simpl; [reflexivity | now rewrite IH]. Qed.

Lemma substring_take (pre s : string) :
  String.substring 0 (String.length pre) (pre +:+ s) = pre.
Proof.
  induction pre as [|c pre IH].
  - destruct s; reflexivity.
  - rewrite string_app_cons; simpl; now rewrite IH.
Qed.

Lemma substring_short (s : string) :
  forall n, String.length s < n ->
            String.length (String.substring 0 n s) < n.
Proof.
  induction s as [|c s IH]; intros [|n] Hlt; simpl in *; try lia.
  specialize (IH n); lia.
Qed.
End StringFacts.

(** ** [mutatingWebhookName] *)

Section MutatingNameFacts.
Import MutatingName.
Local Open Scope nat_scope.

Lemma prefix_old_spec (s : string) :
  String.prefix old s = true <-> String.substring 0 10 s = old.
Proof. apply String.prefix_correct. Qed.

Lemma replace_first_short (s : string) :
  String.length s < 10 -> replace_first old new s = s.
Proof.
  induction s as [|c s IH]; intros Hlen.
  - reflexivity.
  - cbn [replace_first].
    destruct (String.prefix old (String c s)) eqn:Hp.
    + apply prefix_old_spec in Hp.
      pose proof (substring_short (String c s) 10 Hlen) as Hs.
      rewrite Hp in Hs; simpl in Hs; lia.
    + f_equal; apply IH; simpl in Hlen; lia.
Qed.

(** The loop entered at index [length pre] of [pre +:+ s], with the
    iterations that remain, replaces the first occurrence in [s]. *)
Lemma loop_replace_first (n : nat) :
  forall pre s,
    n = String.length s + 1 - 10 ->
    loop (pre +:+ s) n (String.length pre)
    = pre +:+ replace_first old new s.
Proof.
  induction n as [|n IH]; intros pre s Hn.
  - simpl. rewrite replace_first_short by lia. reflexivity.
  - cbn [loop]. unfold slice.
    replace (String.length pre + String.length old - String.length pre)
      with 10 by (simpl; lia).
    rewrite <- (Nat.add_0_r (String.length pre)) at 1.
    rewrite substring_skip.
    destruct s as [|c s]; [simpl in Hn; lia|].
    cbn [replace_first].
    destruct (String.prefix old (String c s)) eqn:Hp.
    + apply prefix_old_spec in Hp. rewrite Hp, String.eqb_refl.
      rewrite Nat.sub_0_r, substring_take.
      rewrite substring_skip, string_length_app.
      replace (String.length pre + String.length (String c s)
               - (String.length pre + String.length old))
        with (String.length (String c s) - String.length old) by lia.
      reflexivity.
    + assert (String.substring 0 10 (String c s) <> old) as Hne.
      { intros Heq. apply prefix_old_spec in Heq. congruence. }
      apply String.eqb_neq in Hne. rewrite Hne.
      replace (pre +:+ String c s) with ((pre +:+ String c "") +:+ s)
        by (rewrite string_app_assoc; reflexivity).
      replace (S (String.length pre))
        with (String.length (pre +:+ String c ""))
        by (rewrite string_length_app; simpl; lia).
      rewrite IH by (simpl in Hn; lia).
      rewrite string_app_assoc. reflexivity.
Qed.

Lemma mutatingWebhookName_replace_first (name : string) :
  mutatingWebhookName name = replace_first old new name.
Proof.
  unfold mutatingWebhookName.
  apply (loop_replace_first _ "" name).
  change (String.length old) with 10. lia.
Qed.

Lemma replace_first_absent (s : string) :
  (forall i, String.substring i 10 s <> old) -> replace_first old new s = s.
Proof.
  induction s as [|c s IH]; intros Hno; [reflexivity|].
  cbn [replace_first].
  destruct (String.prefix old (String c s)) eqn:Hp.
  - apply prefix_old_spec in Hp. destruct (Hno 0 Hp).
  - f_equal. apply IH. intros i. exact (Hno (S i)).
Qed.

Lemma replace_first_unfold (s : string) :
  replace_first old new s
  = if String.prefix old s
    then new +:+ String.substring (String.length old)
                   (String.length s - String.length old) s
    else match s with
         | EmptyString => EmptyString
         | String c s' => String c (replace_first old new s')
         end.
Proof. destruct s; reflexivity. Qed.

Lemma replace_first_at (pre post : string) :
  (forall i, i < String.length pre ->
             String.substring i 10 (pre +:+ old +:+ post) <> old) ->
  replace_first old new (pre +:+ old +:+ post) = pre +:+ new +:+ post.
Proof.
  induction pre as [|c pre IH]; intros Hfirst.
  - rewrite !string_app_nil, replace_first_unfold.
    assert (String.prefix old (old +:+ post) = true) as ->.
    { apply prefix_old_spec. apply (substring_take old post). }
    rewrite <- (Nat.add_0_r (String.length old)) at 1.
    rewrite substring_skip, string_length_app.
    replace (String.length old + String.length post - String.length old)
      with (String.length post) by lia.
    now rewrite substring_all.
  - rewrite !string_app_cons, replace_first_unfold.
    destruct (String.prefix old (String c (pre +:+ old +:+ post))) eqn:Hp.
    + apply prefix_old_spec in Hp.
      destruct (Hfirst 0); [simpl; lia | exact Hp].
    + f_equal. apply IH. intros i Hi.
      apply (Hfirst (S i)). simpl; lia.
Qed.
End MutatingNameFacts.

(** C4. The DNS identities of a service are a function of the service name
    and the namespace alone: exactly the two names [s.n.svc] and
    [s.n.svc.cluster.local], in this order; for the service
    [webhook-service] in [my-ns] they are [webhook-service.my-ns.svc] and
    [webhook-service.my-ns.svc.cluster.local]. *)
Theorem dnsNamesForService_exact :
  (forall s n : string,
      dnsNamesForService s n
      = [s +:+ "." +:+ n +:+ ".svc";
         s +:+ "." +:+ n +:+ ".svc.cluster.local"])
  /\ dnsNamesForService "webhook-service" "my-ns"
     = ["webhook-service.my-ns.svc";
        "webhook-service.my-ns.svc.cluster.local"].
Proof.
  split; [intros s n | reflexivity].
  unfold dnsNamesForService. cbn [Sprintf Ascii.eqb Bool.eqb andb orb].
  reflexivity.
Qed.

(** C5. The name of the mutating configuration is the name of the
    validating one with the first occurrence of [validating], scanning from
    the left, replaced by [mutating] (later occurrences stay), and the name
    itself when [validating] does not occur in it; this is the spec's
    [replace_first]. The convention name maps to
    [butane-operator-mutating-webhook-configuration] and [no-match-here] to
    itself. *)
Theorem mutatingWebhookName_first_occurrence :
  (forall name, mutatingWebhookName name
                = replace_first "validating" "mutating" name)
  /\ (forall pre post : string,
         (forall i, (i < String.length pre)%nat ->
                    String.substring i 10 (pre +:+ "validating" +:+ post)
                    <> "validating") ->
         mutatingWebhookName (pre +:+ "validating" +:+ post)
         = pre +:+ "mutating" +:+ post)
  /\ (forall name : string,
         (forall i, String.substring i 10 name <> "validating") ->
         mutatingWebhookName name = name)
  /\ mutatingWebhookName "butane-operator-validating-webhook-configuration"
     = "butane-operator-mutating-webhook-configuration"
  /\ mutatingWebhookName "no-match-here" = "no-match-here".
Proof.
  repeat split; try reflexivity.
  - apply mutatingWebhookName_replace_first.
  - intros pre post Hfirst.
    rewrite mutatingWebhookName_replace_first.
    now apply replace_first_at.
  - intros name Hno.
    rewrite mutatingWebhookName_replace_first.
    now apply replace_first_absent.
Qed.

Lemma mutatingWebhookName_first_occurrence_witness :
  mutatingWebhookName ("a-" +:+ "validating" +:+ "-validating")
  = "a-" +:+ "mutating" +:+ "-validating"
  /\ mutatingWebhookName "validatin-g" = "validatin-g".
Proof.
  split.
  - apply (proj1 (proj2 mutatingWebhookName_first_occurrence)).
    intros [|[|i]] Hi; simpl in Hi; try lia; vm_compute; discriminate.
  - apply (proj1 (proj2 (proj2 mutatingWebhookName_first_occurrence))).
    intros i. do 12 (destruct i as [|i]; [vm_compute; discriminate|]).
    destruct i; vm_compute; discriminate.
Defined.

(** ** The renewal policy *)

Lemma time_Sub_lt_exact (t u : Time) (threshold : Duration) :
  minDuration < threshold <= maxDuration ->
  (time_Sub t u < threshold <-> t - u < threshold).
Proof.
  unfold time_Sub, minDuration, maxDuration.
  change (2 ^ 63) with 9223372036854775808. intros Hrange.
  repeat match goal with
         | |- context [?a <? ?b] => destruct (Z.ltb_spec a b)
         end; lia.
Qed.

Section RenewalFacts.
Context `{Lib} {W : Type} (h : Handler W).

(** C1. [needsRenewal] always returns, and it returns true exactly when
    the [tls.crt] field of the secret is absent or empty, or its bytes
    fail PEM decoding, or the decoded bytes fail certificate parsing, or
    the remaining validity of the parsed certificate ([time.Until] of its
    [NotAfter]: [NotAfter] minus the clock reading, as a [Duration]) is
    below the threshold; it returns false exactly when the field is
    present and non-empty, decodes, parses, and the remaining validity is
    at least the threshold. For a threshold that is a [Duration] above
    the least one, the comparison is that of the exact difference
    [NotAfter - now]. *)
Theorem needsRenewal_iff (secret : Secret.t) (threshold : Duration) (w : W) :
  let now := fst (h TimeNow w) in
  let leaf := Secret.Data secret !! "tls.crt" in
  exists b : bool,
    outcome (run h (needsRenewal secret threshold) w) = Returned b
    /\ (b = true <->
        leaf = None \/ leaf = Some []
        \/ (exists certPEM, leaf = Some certPEM /\ pem_Decode certPEM = None)
        \/ (exists certPEM block err,
               leaf = Some certPEM /\ pem_Decode certPEM = Some block
               /\ x509_ParseCertificate (pem.Bytes block) = Err err)
        \/ (exists certPEM block cert,
               leaf = Some certPEM /\ pem_Decode certPEM = Some block
               /\ x509_ParseCertificate (pem.Bytes block) = Ok cert
               /\ time_Sub (x509.NotAfter cert) now < threshold))
    /\ (b = false <->
        exists certPEM block cert,
          leaf = Some certPEM /\ certPEM <> []
          /\ pem_Decode certPEM = Some block
          /\ x509_ParseCertificate (pem.Bytes block) = Ok cert
          /\ threshold <= time_Sub (x509.NotAfter cert) now)
    /\ (minDuration < threshold <= maxDuration ->
        forall notAfter : Time,
          time_Sub notAfter now < threshold <-> notAfter - now < threshold).
Proof.
  intros now leaf. unfold needsRenewal. fold leaf.
  assert (forall notAfter : Time, minDuration < threshold <= maxDuration ->
            (time_Sub notAfter now < threshold
             <-> notAfter - now < threshold)) as Hexact
    by (intros; now apply time_Sub_lt_exact).
  assert (forall (b : bool) (P Q : Prop),
            outcome (run h (mret b : Prog bool) w) = Returned b ->
            (b = true <-> P) -> (b = false <-> Q) ->
            exists b' : bool,
              outcome (run h (mret b : Prog bool) w) = Returned b'
              /\ (b' = true <-> P) /\ (b' = false <-> Q)
              /\ (minDuration < threshold <= maxDuration ->
                  forall notAfter : Time,
                    time_Sub notAfter now < threshold
                    <-> notAfter - now < threshold)) as Hpack.
  { intros b P Q Hb HP HQ; exists b; repeat (split; [assumption|]).
    intros Hr t; now apply Hexact. }
  destruct leaf as [certPEM|] eqn:Hleaf.
  2:{ apply Hpack; [reflexivity| |]; split; auto; try discriminate.
      intros (? & ? & ? & ? & _); discriminate. }
  destruct certPEM as [|b0 certPEM].
  { apply Hpack; [reflexivity| |]; split; auto; try discriminate.
    intros (? & ? & ? & [= <-] & Hne & _). now destruct Hne. }
  cbn [length Nat.eqb].
  destruct (pem_Decode (b0 :: certPEM)) as [block|] eqn:Hdec.
  2:{ apply Hpack; [reflexivity| |]; split; auto; try discriminate.
      - intros _. right; right; left. eauto.
      - intros (? & ? & ? & [= <-] & _ & Hd & _). congruence. }
  destruct (x509_ParseCertificate (pem.Bytes block)) as [cert|err] eqn:Hparse.
  2:{ apply Hpack; [reflexivity| |]; split; auto; try discriminate.
      - intros _. right; right; right; left. eauto 6.
      - intros (? & ? & ? & [= <-] & _ & Hd & Hp & _). congruence. }
  assert (outcome (run h (remaining ← time_Until (x509.NotAfter cert);
                          mret (remaining <? threshold)) w)
          = Returned (time_Sub (x509.NotAfter cert) now <? threshold))
    as Hout by reflexivity.
  destruct (Z.ltb_spec (time_Sub (x509.NotAfter cert) now) threshold)
    as [Hlt|Hge].
  - exists true; split; [exact Hout|].
    split; [| split; [| intros Hr t; now apply Hexact]];
      split; auto; try discriminate.
    + intros _. right; right; right; right. eauto 8.
    + intros (? & ? & ? & [= <-] & _ & Hd & Hp & Hle).
      rewrite Hdec in Hd; injection Hd as <-.
      rewrite Hparse in Hp; injection Hp as <-. lia.
  - exists false; split; [exact Hout|].
    split; [| split; [| intros Hr t; now apply Hexact]];
      split; auto; try discriminate.
    + intros [Hx|[Hx|[(? & [= <-] & Hd)|[(? & ? & ? & [= <-] & Hd & Hp)
                |(? & ? & ? & [= <-] & Hd & Hp & Hlt)]]]];
        try discriminate; try congruence.
      rewrite Hdec in Hd; injection Hd as <-.
      rewrite Hparse in Hp; injection Hp as <-. lia.
    + intros _. exists (b0 :: certPEM), block, cert.
      repeat split; auto.
Qed.
End RenewalFacts.

(** ** Shapes of the programs *)

Section Shapes.
Context `{Lib}.

Lemma needsRenewal_only (secret : Secret.t) (threshold : Duration) :
  only (fun o => o = TimeNow) (needsRenewal secret threshold).
Proof. unfold needsRenewal, time_Until. prog_walk; reflexivity. Qed.

Lemma needsRenewal_noPanic (secret : Secret.t) (threshold : Duration) :
  noPanic (needsRenewal secret threshold).
Proof. unfold needsRenewal, time_Until. prog_walk. Qed.

Lemma writeCertsToDisk_only (certDir : string) (certPEM keyPEM : bytes) :
  only (fun o => o = MkdirAll certDir perm_0750
                 \/ o = WriteFile (filepath_Join certDir "tls.crt") certPEM
                          perm_0640
                 \/ o = WriteFile (filepath_Join certDir "tls.key") keyPEM
                          perm_0640)
       (writeCertsToDisk certDir certPEM keyPEM).
Proof. unfold writeCertsToDisk. prog_walk; auto. Qed.

Lemma writeCertsToDisk_noPanic (certDir : string) (certPEM keyPEM : bytes) :
  noPanic (writeCertsToDisk certDir certPEM keyPEM).
Proof. unfold writeCertsToDisk. prog_walk. Qed.

Lemma patchMutating_only (name : string) (ca : bytes) :
  only (fun o => patchOp name ca o
                 /\ forall v, o <> ValidatingUpdate v
                 /\ o <> ValidatingGet name)
       (patchMutating name ca).
Proof.
  unfold patchMutating. prog_walk; cbn [patchOp]; try easy.
  rewrite rangeMutating_map. apply (mutatingBundles_patched ca).
Qed.

Lemma patchWebhookConfig_only (name : string) (ca : bytes) :
  only (patchOp name ca) (patchWebhookConfig name ca).
Proof.
  unfold patchWebhookConfig. prog_walk; cbn [patchOp]; try easy.
  - rewrite rangeValidating_map. apply (validatingBundles_patched ca).
  - eapply only_weaken; [|apply patchMutating_only]. now intros o [Ho _].
  - eapply only_weaken; [|apply patchMutating_only]. now intros o [Ho _].
Qed.

Lemma patchWebhookConfig_noPanic (name : string) (ca : bytes) :
  noPanic (patchWebhookConfig name ca).
Proof. unfold patchWebhookConfig, patchMutating. prog_walk. Qed.

Lemma generateCA_noPanic (validity : Duration) : noPanic (generateCA validity).
Proof. unfold generateCA. prog_walk. Qed.

Lemma generateServerCert_noPanic (caCert : x509.Certificate)
    (caKey : rsa.PrivateKey) (dnsNames : list string) (validity : Duration) :
  dnsNames <> [] ->
  noPanic (generateServerCert caCert caKey dnsNames validity).
Proof.
  intros Hne. unfold generateServerCert.
  destruct dnsNames as [|d0 dnsNames]; [congruence|].
  cbn [lookup list_lookup]. prog_walk.
Qed.
End Shapes.

(** ** Trust propagation *)

Section Propagation.
Context `{Lib} {W : Type} (h : Handler W).

(** The run of the second half, by the answers it gets. *)
Lemma patchMutating_run (name : string) (ca : bytes) (w : W) :
  run h (patchMutating name ca) w
  = let get := h (MutatingGet (mutatingWebhookName name)) w in
    match fst get with
    | Err err =>
        mkRun (Returned
                 (if negb (IsNotFound err)
                  then Some (Errorf "getting MutatingWebhookConfiguration %s: %w"
                               [mutatingWebhookName name] err)
                  else None))
              (snd get) [MutatingGet (mutatingWebhookName name)]
    | Ok mwc =>
        let upd := h (MutatingUpdate (patchedMutating ca mwc)) (snd get) in
        match fst upd with
        | Some err =>
            mkRun (Returned
                     (Some (Errorf "updating MutatingWebhookConfiguration: %w"
                              [] err)))
                  (snd upd)
                  [MutatingGet (mutatingWebhookName name);
                   MutatingUpdate (patchedMutating ca mwc)]
        | None =>
            mkRun (Returned None)
                  (snd (h (logMutating name) (snd upd)))
                  [MutatingGet (mutatingWebhookName name);
                   MutatingUpdate (patchedMutating ca mwc);
                   logMutating name]
        end
    end.
Proof.
  unfold patchMutating, patchedMutating. prog_simpl. rewrite run_vis.
  cbv zeta.
  destruct (fst (h (MutatingGet (mutatingWebhookName name)) w))
    as [mwc|err].
  - rewrite rangeMutating_map, run_vis.
    destruct (fst (h (MutatingUpdate _) _)); reflexivity.
  - destruct (negb (IsNotFound err)); reflexivity.
Qed.

(** The run of the whole, once the primary has been fetched. *)
Lemma patchWebhookConfig_run_found (name : string) (ca : bytes) (w w1 : W)
    (vwc : ValidatingWebhookConfiguration.t) :
  h (ValidatingGet name) w = (Ok vwc, w1) ->
  run h (patchWebhookConfig name ca) w
  = match ValidatingWebhookConfiguration.Webhooks vwc with
    | [] =>
        let r := run h (patchMutating name ca) w1 in
        mkRun (outcome r) (final r) (ValidatingGet name :: trace r)
    | _ :: _ =>
        let upd := h (ValidatingUpdate (patchedValidating ca vwc)) w1 in
        match fst upd with
        | Some err =>
            mkRun (Returned
                     (Some (Errorf "updating ValidatingWebhookConfiguration: %w"
                              [] err)))
                  (snd upd)
                  [ValidatingGet name;
                   ValidatingUpdate (patchedValidating ca vwc)]
        | None =>
            let r := run h (patchMutating name ca)
                       (snd (h (logValidating name) (snd upd))) in
            mkRun (outcome r) (final r)
                  (ValidatingGet name
                   :: ValidatingUpdate (patchedValidating ca vwc)
                   :: logValidating name :: trace r)
        end
    end.
Proof.
  intros Hget. unfold patchWebhookConfig, patchedValidating. prog_simpl.
  rewrite run_vis, Hget. cbn [fst snd]. rewrite rangeValidating_map.
  destruct (ValidatingWebhookConfiguration.Webhooks vwc) as [|wh0 whs];
    cbn [fst snd]; [reflexivity|].
  prog_simpl. rewrite run_vis. cbv zeta.
  destruct (fst (h (ValidatingUpdate _) w1)); reflexivity.
Qed.

Lemma patchWebhookConfig_run_failed (name : string) (ca : bytes) (w w1 : W)
    (err : Error) :
  h (ValidatingGet name) w = (Err err, w1) ->
  run h (patchWebhookConfig name ca) w
  = mkRun (Returned
             (Some (Errorf "getting ValidatingWebhookConfiguration %s: %w"
                      [name] err)))
          w1 [ValidatingGet name].
Proof.
  intros Hget. unfold patchWebhookConfig. prog_simpl.
  rewrite run_vis, Hget. reflexivity.
Qed.

(** C2, as the code has it. When the primary configuration is fetched and
    its webhook list is not empty, the very next operation is its update,
    with the same metadata and, entry by entry, the same webhooks except
    that every CA bundle is the given one; when the list is empty, no
    update of the primary is issued at all. *)
Theorem patchWebhookConfig_primary_update (name : string) (ca : bytes)
    (w w1 : W) (vwc : ValidatingWebhookConfiguration.t) :
  h (ValidatingGet name) w = (Ok vwc, w1) ->
  let r := run h (patchWebhookConfig name ca) w in
  let patched := patchedValidating ca vwc in
  (forall i wh,
      ValidatingWebhookConfiguration.Webhooks vwc !! i = Some wh ->
      ValidatingWebhookConfiguration.Webhooks patched !! i
      = Some (ValidatingWebhook.mk (ValidatingWebhook.Name wh)
                (WebhookClientConfig.mk
                   (WebhookClientConfig.URL (ValidatingWebhook.ClientConfig wh))
                   ca)))
  /\ length (ValidatingWebhookConfiguration.Webhooks patched)
     = length (ValidatingWebhookConfiguration.Webhooks vwc)
  /\ ValidatingWebhookConfiguration.ObjectMeta patched
     = ValidatingWebhookConfiguration.ObjectMeta vwc
  /\ (ValidatingWebhookConfiguration.Webhooks vwc <> [] ->
      exists rest,
        trace r = ValidatingGet name :: ValidatingUpdate patched :: rest)
  /\ (ValidatingWebhookConfiguration.Webhooks vwc = [] ->
      forall v, ~ In (ValidatingUpdate v) (trace r)).
Proof.
  intros Hget r patched. subst r patched.
  rewrite (patchWebhookConfig_run_found _ _ _ _ _ Hget).
  repeat split.
  - intros i wh Hi. unfold patchedValidating; cbn.
    rewrite list_lookup_fmap, Hi. reflexivity.
  - unfold patchedValidating; cbn. apply length_map.
  - intros Hne.
    destruct (ValidatingWebhookConfiguration.Webhooks vwc); [congruence|].
    cbv zeta. destruct (fst (h (ValidatingUpdate _) w1)); cbn; eauto.
  - intros Hnil v Hin. rewrite Hnil in Hin. cbv zeta in Hin.
    cbn [trace] in Hin.
    destruct Hin as [Hin|Hin]; [discriminate|].
    pose proof (only_trace h _ _ w1 (patchMutating_only name ca)) as Hall.
    rewrite Forall_forall in Hall.
    apply list_elem_of_In, Hall in Hin.
    destruct Hin as [_ Hne]. now destruct (Hne v).
Qed.

(** The primary decides: if fetching it fails in every world, the
    propagation reports an error. *)
Lemma patchWebhookConfig_primary_required (name : string) (ca : bytes)
    (w : W) :
  always h (ValidatingGet name) (fun r => exists err, r = Err err) ->
  exists e, outcome (run h (patchWebhookConfig name ca) w) = Returned (Some e).
Proof.
  intros Halways. destruct (Halways w) as [err Herr].
  destruct (h (ValidatingGet name) w) as [r w1] eqn:Hget.
  cbn in Herr; subst r.
  rewrite (patchWebhookConfig_run_failed _ _ _ _ _ Hget). eauto.
Qed.
End Propagation.

(** ** The shape of [Ensure] *)

Section EnsureRuns.
Context `{Lib} {W : Type} (h : Handler W).

(** The reuse path: the renewal check, the log line, the files, the
    propagation, one after the other. *)
Lemma Ensure_run_reuse (cfg : Config.t) (w w1 : W) (existing : Secret.t) :
  h (SecretsGet (Config.Namespace cfg) (Config.SecretName cfg)) w
  = (inl existing, w1) ->
  outcome (run h (needsRenewal existing (Config.RenewalThreshold cfg)) w1)
  = Returned false ->
  let rn := run h (needsRenewal existing (Config.RenewalThreshold cfg)) w1 in
  let rw := run h (writeCertsToDisk (Config.CertDir cfg)
                     (Secret.Data existing !!! "tls.crt")
                     (Secret.Data existing !!! "tls.key"))
              (snd (h logSkip (final rn))) in
  let rp := run h (patchWebhookConfig (Config.WebhookConfigName cfg)
                     (Secret.Data existing !!! "ca.crt")) (final rw) in
  let before :=
    SecretsGet (Config.Namespace cfg) (Config.SecretName cfg)
    :: trace rn ++ logSkip :: trace rw in
  run h (Ensure cfg) w
  = match outcome rw with
    | Returned None => mkRun (outcome rp) (final rp) (before ++ trace rp)
    | Returned (Some err) =>
        mkRun (Returned
                 (Some (Errorf "writing existing certs to disk: %w" [] err)))
              (final rw) before
    | Panicked msg => mkRun (Panicked msg) (final rw) before
    end.
Proof.
  intros Hget Hrenew rn rw rp before. subst before rp rw rn.
  unfold Ensure. prog_simpl. rewrite run_vis, Hget. cbn [fst snd].
  rewrite run_bind, Hrenew. cbv zeta. cbn [negb].
  prog_simpl. rewrite run_vis. fold logSkip. rewrite run_bind.
  cbn [outcome final trace].
  destruct (outcome (run h (writeCertsToDisk _ _ _) _)) as [[err|]|msg].
  - cbn. rewrite app_nil_r. reflexivity.
  - cbv zeta. cbn [outcome final trace].
    f_equal. cbn [app]. now rewrite <- app_assoc.
  - cbn. reflexivity.
Qed.
End EnsureRuns.

(** ** Programs that cannot succeed *)

Section ReportsError.
Context `{Lib} {W : Type} (h : Handler W).

Lemma reportsError_ret (e : Error) : reportsError h (Ret (Some e)).
Proof. intros w; cbn; eauto. Qed.

Lemma reportsError_vis (o : Op) (k : Resp o -> Prog error) :
  (forall r, reportsError h (k r)) -> reportsError h (Vis o k).
Proof. intros Hk w. rewrite run_vis. apply Hk. Qed.

Lemma reportsError_bind {A} (p : Prog A) (f : A -> Prog error) :
  noPanic p -> (forall a, reportsError h (f a)) -> reportsError h (p ≫= f).
Proof.
  intros Hp Hf w. rewrite run_bind.
  destruct (noPanic_run h p w Hp) as [a ->]. apply Hf.
Qed.

Section PrimaryMissing.
Context (cfg : Config.t).
Hypothesis primary_fails :
  always h (ValidatingGet (Config.WebhookConfigName cfg))
         (fun r => exists err, r = Err err).

Lemma patch_reportsError (ca : bytes) :
  reportsError h (patchWebhookConfig (Config.WebhookConfigName cfg) ca).
Proof.
  intros w. now apply patchWebhookConfig_primary_required.
Qed.

Lemma persist_reportsError (existing : option Secret.t)
    (caPEM serverCertPEM serverKeyPEM : bytes) :
  reportsError h (persist cfg existing caPEM serverCertPEM serverKeyPEM).
Proof.
  assert (reportsError h
            (e ← writeCertsToDisk (Config.CertDir cfg) serverCertPEM
                   serverKeyPEM;
             match e with
             | Some err =>
                 mret (Some (Errorf "writing certs to disk: %w" [] err))
             | None =>
                 call (LogInfo "wrote webhook certs to disk"
                         ["dir"; Config.CertDir cfg]);;
                 patchWebhookConfig (Config.WebhookConfigName cfg) caPEM
             end)) as Hrest.
  { apply reportsError_bind; [apply writeCertsToDisk_noPanic|].
    errs_walk_with reportsError_ret reportsError_vis. apply patch_reportsError. }
  unfold persist. errs_walk_with reportsError_ret reportsError_vis; exact Hrest.
Qed.

Lemma regenerate_reportsError (dnsNames : list string)
    (existing : option Secret.t) :
  dnsNames <> [] -> reportsError h (regenerate cfg dnsNames existing).
Proof.
  intros Hne. unfold regenerate.
  apply reportsError_bind; [apply generateCA_noPanic|].
  errs_walk_with reportsError_ret reportsError_vis.
  apply reportsError_bind; [now apply generateServerCert_noPanic|].
  errs_walk_with reportsError_ret reportsError_vis. apply persist_reportsError.
Qed.

Lemma Ensure_reportsError : reportsError h (Ensure cfg).
Proof.
  unfold Ensure. errs_walk_with reportsError_ret reportsError_vis.
  - apply reportsError_bind; [apply needsRenewal_noPanic|].
    errs_walk_with reportsError_ret reportsError_vis.
    + apply reportsError_bind; [apply writeCertsToDisk_noPanic|].
      errs_walk_with reportsError_ret reportsError_vis. apply patch_reportsError.
    + now apply regenerate_reportsError.
  - now apply regenerate_reportsError.
Qed.
End PrimaryMissing.
End ReportsError.

(** ** The error policy of trust propagation *)

Section ErrorPolicy.
Context `{Lib} {W : Type} (h : Handler W).
Context (name : string) (ca : bytes).

(** Once the primary is fetched and, when it has entries, updated, the
    run goes on as the second half, in the world reached. *)
Lemma patchWebhookConfig_primary_pass (w w1 : W)
    (vwc : ValidatingWebhookConfiguration.t) :
  h (ValidatingGet name) w = (Ok vwc, w1) ->
  ValidatingWebhookConfiguration.Webhooks vwc = []
  \/ fst (h (ValidatingUpdate (patchedValidating ca vwc)) w1) = None ->
  exists pre : list Op,
    run h (patchWebhookConfig name ca) w
    = (let rm := run h (patchMutating name ca) (afterPrimary h name ca vwc w1)
       in mkRun (outcome rm) (final rm) (pre ++ trace rm))
    /\ (ValidatingWebhookConfiguration.Webhooks vwc <> [] ->
        In (ValidatingUpdate (patchedValidating ca vwc)) pre)
    /\ (forall m, ~ In (MutatingUpdate m) pre).
Proof.
  intros Hget Hpass.
  rewrite (patchWebhookConfig_run_found _ _ _ _ _ _ Hget).
  unfold afterPrimary.
  destruct (ValidatingWebhookConfiguration.Webhooks vwc) as [|wh whs] eqn:Hws.
  - exists [ValidatingGet name].
    repeat split; [congruence | intros m [|[]]; discriminate].
  - destruct Hpass as [|Hupd]; [discriminate|]. cbv zeta. rewrite Hupd.
    eexists [ValidatingGet name; ValidatingUpdate _; logValidating name].
    repeat split.
    + intros _. right; left; reflexivity.
    + intros m [|[|[|[]]]]; discriminate.
Qed.
End ErrorPolicy.


(** ** The reuse path of [Ensure] *)

Section Frame.
Context {W S : Type} (h : Handler W) (store : W -> S).
Hypothesis store_frame :
  forall o w, isSecretWrite o = false -> store (snd (h o w)) = store w.

(** A program that issues no write to a Secret leaves the store as it
    found it. *)
Lemma only_frame {A} (p : Prog A) (w : W) :
  only (fun o => isSecretWrite o = false) p ->
  store (final (run h p w)) = store w.
Proof.
  revert w; induction p as [a|msg|o k IH]; intros w Hp; cbn;
    [reflexivity..|].
  destruct Hp as [Ho Hk]. rewrite IH by apply Hk. now apply store_frame.
Qed.
End Frame.

Section Reuse.
Context `{Lib} {W : Type} (h : Handler W).

Lemma writeCertsToDisk_run (certDir : string) (certPEM keyPEM : bytes)
    (w : W) :
  let r := run h (writeCertsToDisk certDir certPEM keyPEM) w in
  (exists err, outcome r = Returned (Some err))
  \/ (outcome r = Returned None
      /\ trace r
         = [MkdirAll certDir perm_0750;
            WriteFile (filepath_Join certDir "tls.crt") certPEM perm_0640;
            WriteFile (filepath_Join certDir "tls.key") keyPEM perm_0640]).
Proof.
  unfold writeCertsToDisk. prog_simpl. cbv zeta.
  rewrite run_vis. destruct (fst (h (MkdirAll _ _) w)); [cbn; eauto|].
  rewrite run_vis. destruct (fst (h (WriteFile _ _ _) _)); [cbn; eauto|].
  rewrite run_vis. destruct (fst (h (WriteFile _ _ _) _)); cbn; eauto.
Qed.

Lemma writeCertsToDisk_mkdir (certDir : string) (certPEM keyPEM : bytes)
    (w : W) :
  exists rest,
    trace (run h (writeCertsToDisk certDir certPEM keyPEM) w)
    = MkdirAll certDir perm_0750 :: rest.
Proof. unfold writeCertsToDisk. prog_simpl. rewrite run_vis. cbn. eauto. Qed.

Context (cfg : Config.t) (existing : Secret.t) (w w1 : W).
Hypothesis found :
  h (SecretsGet (Config.Namespace cfg) (Config.SecretName cfg)) w
  = (inl existing, w1).
Hypothesis valid :
  outcome (run h (needsRenewal existing (Config.RenewalThreshold cfg)) w1)
  = Returned false.

(** The reuse path issues one operation on Secrets, the [Get], and what
    follows is the renewal check, the log line, the files and the
    propagation, all from the record. *)
Lemma Ensure_reuse_trace :
  exists rest,
    trace (run h (Ensure cfg) w)
    = SecretsGet (Config.Namespace cfg) (Config.SecretName cfg) :: rest
    /\ Forall (fun o => isSecretOp o = false /\ reuseOp cfg existing o) rest.
Proof.
  assert (Forall (fun o => isSecretOp o = false /\ reuseOp cfg existing o)
            (trace (run h (needsRenewal existing
                             (Config.RenewalThreshold cfg)) w1))) as Hn.
  { apply only_trace.
    eapply only_weaken; [|apply needsRenewal_only]. now intros o ->. }
  assert (forall w', Forall (fun o => isSecretOp o = false
                                      /\ reuseOp cfg existing o)
            (trace (run h (writeCertsToDisk (Config.CertDir cfg)
                             (Secret.Data existing !!! "tls.crt")
                             (Secret.Data existing !!! "tls.key")) w')))
    as Hw.
  { intros w'. apply only_trace.
    eapply only_weaken; [|apply writeCertsToDisk_only].
    intros o [-> | [-> | ->]]; cbn; auto. }
  assert (forall w', Forall (fun o => isSecretOp o = false
                                      /\ reuseOp cfg existing o)
            (trace (run h (patchWebhookConfig (Config.WebhookConfigName cfg)
                             (Secret.Data existing !!! "ca.crt")) w')))
    as Hp.
  { intros w'. apply only_trace.
    eapply only_weaken; [|apply patchWebhookConfig_only].
    intros [] Ho; cbn in *; auto; contradiction. }
  assert (isSecretOp logSkip = false /\ reuseOp cfg existing logSkip)
    as Hl by now cbn.
  rewrite (Ensure_run_reuse h cfg w w1 existing found valid). cbv zeta.
  destruct (outcome (run h (writeCertsToDisk _ _ _) _)) as [[err|]|msg];
    cbn [trace app]; eexists; (split; [reflexivity|]).
  - apply Forall_app_2; [exact Hn|]. apply Forall_cons_2; [exact Hl|apply Hw].
  - apply Forall_app_2; [|apply Hp].
    apply Forall_app_2; [exact Hn|]. apply Forall_cons_2; [exact Hl|apply Hw].
  - apply Forall_app_2; [exact Hn|]. apply Forall_cons_2; [exact Hl|apply Hw].
Qed.

(** C10. On the reuse path the only operation [Ensure] issues on Secrets
    is the initial [Get]: no [Create], no [Update], and no further
    read. *)
Theorem Ensure_reuse_reads_only :
  (exists rest,
      trace (run h (Ensure cfg) w)
      = SecretsGet (Config.Namespace cfg) (Config.SecretName cfg) :: rest
      /\ Forall (fun o => isSecretOp o = false) rest)
  /\ (forall ns s, ~ In (SecretsUpdate ns s) (trace (run h (Ensure cfg) w)))
  /\ (forall ns s, ~ In (SecretsCreate ns s) (trace (run h (Ensure cfg) w))).
Proof.
  destruct Ensure_reuse_trace as (rest & Htr & Hrest).
  assert (Forall (fun o => isSecretOp o = false) rest) as Hno.
  { eapply Forall_impl; [exact Hrest|]. now intros o [Ho _]. }
  split; [eauto|].
  rewrite Htr. rewrite Forall_forall in Hno.
  split; intros ns s [Hin|Hin]; try discriminate;
    apply list_elem_of_In, Hno in Hin; discriminate.
Qed.
End Reuse.

Section ReuseFrame.
Context `{Lib} {W S : Type} (h : Handler W) (store : W -> S).
Context (cfg : Config.t) (existing : Secret.t) (w w1 : W).
Hypothesis store_frame :
  forall o w', isSecretWrite o = false -> store (snd (h o w')) = store w'.
Hypothesis found :
  h (SecretsGet (Config.Namespace cfg) (Config.SecretName cfg)) w
  = (inl existing, w1).
Hypothesis valid :
  outcome (run h (needsRenewal existing (Config.RenewalThreshold cfg)) w1)
  = Returned false.

(** On the reuse path the store of Secrets is after the call what it
    was before it (in particular the leaf certificate of the record is
    byte-identical), for every handler whose store only moves on a
    [Create] or an [Update] of a Secret. The disk is still refreshed:
    [MkdirAll] is always issued, every file written is [tls.crt] or
    [tls.key] under the configured directory with the record's own leaf
    certificate and key, and unless writing fails both are written and
    [Ensure] goes on with, and returns the result of, the propagation of
    the record's authority certificate; every update of a webhook
    configuration carries that certificate in every entry. *)
Lemma Ensure_reuse_frame :
  let r := run h (Ensure cfg) w in
  let dir := Config.CertDir cfg in
  store (final r) = store w
  /\ Forall (reuseOp cfg existing) (trace r)
  /\ In (MkdirAll dir perm_0750) (trace r)
  /\ ((exists err,
          outcome r
          = Returned (Some (Errorf "writing existing certs to disk: %w" []
                              err)))
      \/ (exists pre wp,
             let rp := run h (patchWebhookConfig (Config.WebhookConfigName cfg)
                                (Secret.Data existing !!! "ca.crt")) wp in
             trace r
             = pre
               ++ [MkdirAll dir perm_0750;
                   WriteFile (filepath_Join dir "tls.crt")
                     (Secret.Data existing !!! "tls.crt") perm_0640;
                   WriteFile (filepath_Join dir "tls.key")
                     (Secret.Data existing !!! "tls.key") perm_0640]
               ++ trace rp
             /\ outcome r = outcome rp
             /\ final r = final rp)).
Proof.
  intros r dir. subst r dir.
  destruct (Ensure_reuse_trace h cfg existing w w1 found valid)
    as (rest & Htr & Hrest).
  split; [|split; [|split]].
  - (* the store *)
    assert (w1 = snd (h (SecretsGet (Config.Namespace cfg)
                           (Config.SecretName cfg)) w)) as Hw1
      by now rewrite found.
    assert (store w1 = store w) as Hs1
      by (rewrite Hw1; now apply store_frame).
    assert (forall A (p : Prog A) w',
               only (fun o => isSecretOp o = false) p ->
               store (final (run h p w')) = store w') as Hframe.
    { intros A p w' Hp. apply (only_frame h store store_frame).
      eapply only_weaken; [|exact Hp]. now intros []. }
    assert (store (final (run h (needsRenewal existing
                                   (Config.RenewalThreshold cfg)) w1))
            = store w) as Hsn.
    { rewrite Hframe; [exact Hs1|].
      eapply only_weaken; [|apply needsRenewal_only]. now intros o ->. }
    assert (forall w', store (final (run h (writeCertsToDisk
                                   (Config.CertDir cfg)
                                   (Secret.Data existing !!! "tls.crt")
                                   (Secret.Data existing !!! "tls.key")) w'))
                       = store w') as Hsw.
    { intros w'. apply Hframe.
      eapply only_weaken; [|apply writeCertsToDisk_only].
      now intros o [-> | [-> | ->]]. }
    assert (forall w', store (final (run h (patchWebhookConfig
                                   (Config.WebhookConfigName cfg)
                                   (Secret.Data existing !!! "ca.crt")) w'))
                       = store w') as Hsp.
    { intros w'. apply Hframe.
      eapply only_weaken; [|apply patchWebhookConfig_only].
      intros [] Ho; cbn in *; auto; contradiction. }
    rewrite (Ensure_run_reuse h cfg w w1 existing found valid). cbv zeta.
    destruct (outcome (run h (writeCertsToDisk _ _ _) _)) as [[err|]|msg];
      cbn [final]; rewrite ?Hsp, Hsw, store_frame, Hsn; reflexivity.
  - (* what is issued *)
    rewrite Htr. apply Forall_cons_2; [exact I|].
    eapply Forall_impl; [exact Hrest|]. now intros o [_ Ho].
  - (* the directory *)
    rewrite (Ensure_run_reuse h cfg w w1 existing found valid). cbv zeta.
    destruct (writeCertsToDisk_mkdir h (Config.CertDir cfg)
                (Secret.Data existing !!! "tls.crt")
                (Secret.Data existing !!! "tls.key")
                (snd (h logSkip
                        (final (run h (needsRenewal existing
                                         (Config.RenewalThreshold cfg)) w1)))))
      as (tl & Htl).
    assert (forall pre : list Op,
               In (MkdirAll (Config.CertDir cfg) perm_0750)
                  (pre ++ logSkip :: MkdirAll (Config.CertDir cfg) perm_0750
                       :: tl)) as Hin.
    { intros pre. apply in_or_app. right. right. now left. }
    destruct (outcome (run h (writeCertsToDisk _ _ _) _)) as [[err|]|msg];
      cbn [trace app]; rewrite Htl; right;
      [apply Hin | apply in_or_app; left; apply Hin | apply Hin].
  - (* the files, then the propagation *)
    rewrite (Ensure_run_reuse h cfg w w1 existing found valid). cbv zeta.
    destruct (writeCertsToDisk_run h (Config.CertDir cfg)
                (Secret.Data existing !!! "tls.crt")
                (Secret.Data existing !!! "tls.key")
                (snd (h logSkip
                        (final (run h (needsRenewal existing
                                         (Config.RenewalThreshold cfg)) w1)))))
      as [(err & Herr)|(Hok & Hfiles)].
    + left. rewrite Herr. cbn. eauto.
    + right. rewrite Hok, Hfiles. cbn [outcome final trace].
      eexists (SecretsGet _ _ :: trace _ ++ [logSkip]), _.
      cbv zeta. split; [|split; reflexivity].
      cbn [app]. rewrite <- !app_assoc. reflexivity.
Qed.
End ReuseFrame.

(** ** The PKI generator *)

Section Generator.
Context `{Lib} {W : Type} (h : Handler W).

(** A successful [generateCA] has asked for a 4096-bit RSA key, a
    serial number below [2^128] and the time, in this order, and then for
    one certificate, self-signed (the template is its own parent, the key
    signs its own public half), whose template is a CA ([IsCA] and valid
    basic constraints) with the certificate-sign (and CRL-sign) key usage
    bit, the common name [webhook-ca], and the validity window from the
    time read to that time plus [validity], not a nanosecond earlier. The
    certificate returned is the library's parse of the bytes it made of
    that template, the PEM block is their encoding, and the key returned
    is the one generated. *)
Lemma generateCA_success (validity : Duration) (w : W)
    (cert : x509.Certificate) (key : rsa.PrivateKey) (certPEM : bytes) :
  outcome (run h (generateCA validity) w) = Returned (Ok (cert, key, certPEM)) ->
  exists (serial : Z) (now : Time) (certDER : bytes) (tmpl : x509.Certificate)
         (w1 w2 w3 w4 : W),
    h (RsaGenerateKey 4096) w = (Ok key, w1)
    /\ h (RandInt (2 ^ 128)) w1 = (Ok serial, w2)
    /\ h TimeNow w2 = (now, w3)
    /\ h (X509CreateCertificate tmpl tmpl (rsa.Public key) key) w3
       = (Ok certDER, w4)
    /\ trace (run h (generateCA validity) w)
       = [RsaGenerateKey 4096; RandInt (2 ^ 128); TimeNow;
          X509CreateCertificate tmpl tmpl (rsa.Public key) key]
    /\ x509.IsCA tmpl = true
    /\ x509.BasicConstraintsValid tmpl = true
    /\ Z.testbit (x509.KeyUsage tmpl) 5 = true
    /\ Z.land (x509.KeyUsage tmpl) x509.KeyUsageCertSign
       = x509.KeyUsageCertSign
    /\ x509.KeyUsage tmpl = x509.KeyUsageCertSign + x509.KeyUsageCRLSign
    /\ pkix.CommonName (x509.Subject tmpl) = "webhook-ca"
    /\ pkix.Organization (x509.Subject tmpl) = ["butane-operator"]
    /\ x509.SerialNumber tmpl = serial
    /\ x509.NotBefore tmpl = now
    /\ x509.NotAfter tmpl = now + validity
    /\ x509.DNSNames tmpl = []
    /\ x509.ExtKeyUsage_ tmpl = []
    /\ x509_ParseCertificate certDER = Ok cert
    /\ certPEM
       = pem_EncodeToMemory {| pem.Type_ := "CERTIFICATE";
                               pem.Bytes := certDER |}.
Proof.
  unfold generateCA. prog_simpl. intros Hout.
  rewrite run_vis in Hout |- *.
  destruct (h (RsaGenerateKey 4096) w) as [[key'|e] w1] eqn:Hkey;
    cbn [fst snd] in *; [|discriminate].
  rewrite run_vis in Hout |- *.
  change (Z.shiftl 1 128) with (2 ^ 128) in *.
  destruct (h (RandInt (2 ^ 128)) w1) as [[serial|e] w2] eqn:Hserial;
    cbn [fst snd] in *; [|discriminate].
  rewrite run_vis in Hout |- *.
  destruct (h TimeNow w2) as [now w3] eqn:Hnow; cbn [fst snd] in *.
  rewrite run_vis in Hout |- *.
  match type of Hout with
  | context [h (X509CreateCertificate ?t _ _ _) w3] => set (tmpl := t) in *
  end.
  destruct (h (X509CreateCertificate tmpl tmpl (rsa.Public key') key') w3)
    as [[certDER|e] w4] eqn:Hder; cbn [fst snd] in *; [|discriminate].
  destruct (x509_ParseCertificate certDER) as [cert'|e] eqn:Hparse;
    [|discriminate].
  cbn in Hout. injection Hout as <- <- <-.
  exists serial, now, certDER, tmpl, w1, w2, w3, w4.
  repeat (split; [first [assumption | reflexivity | discriminate]|]).
  reflexivity.
Qed.

(** A successful [generateServerCert] on a non-empty list of DNS
    names has asked for a 2048-bit RSA key, a serial number below [2^128]
    and the time, in this order, and then for one certificate, issued
    under the authority certificate and signed with the authority key it
    was given, whose template is not a CA, lists exactly the DNS names
    given (same length, same order), has the first of them as common
    name, the server-auth extended key usage (and nothing else), the
    digital-signature and key-encipherment key usages, and the validity
    window from the time read to that time plus [validity]. The PEM
    blocks returned encode the library's bytes for that template and the
    generated key. *)
Lemma generateServerCert_success (caCert : x509.Certificate)
    (caKey : rsa.PrivateKey) (dnsNames : list string) (validity : Duration)
    (w : W) (certPEM keyPEM : bytes) :
  dnsNames <> [] ->
  outcome (run h (generateServerCert caCert caKey dnsNames validity) w)
  = Returned (Ok (certPEM, keyPEM)) ->
  exists (key : rsa.PrivateKey) (serial : Z) (now : Time) (certDER : bytes)
         (tmpl : x509.Certificate) (w1 w2 w3 w4 : W),
    h (RsaGenerateKey 2048) w = (Ok key, w1)
    /\ h (RandInt (2 ^ 128)) w1 = (Ok serial, w2)
    /\ h TimeNow w2 = (now, w3)
    /\ h (X509CreateCertificate tmpl caCert (rsa.Public key) caKey) w3
       = (Ok certDER, w4)
    /\ trace (run h (generateServerCert caCert caKey dnsNames validity) w)
       = [RsaGenerateKey 2048; RandInt (2 ^ 128); TimeNow;
          X509CreateCertificate tmpl caCert (rsa.Public key) caKey]
    /\ x509.IsCA tmpl = false
    /\ x509.DNSNames tmpl = dnsNames
    /\ length (x509.DNSNames tmpl) = length dnsNames
    /\ (forall i, x509.DNSNames tmpl !! i = dnsNames !! i)
    /\ Some (pkix.CommonName (x509.Subject tmpl)) = head dnsNames
    /\ x509.ExtKeyUsage_ tmpl = [x509.ExtKeyUsageServerAuth]
    /\ x509.KeyUsage tmpl
       = x509.KeyUsageDigitalSignature + x509.KeyUsageKeyEncipherment
    /\ x509.SerialNumber tmpl = serial
    /\ x509.NotBefore tmpl = now
    /\ x509.NotAfter tmpl = now + validity
    /\ certPEM
       = pem_EncodeToMemory {| pem.Type_ := "CERTIFICATE";
                               pem.Bytes := certDER |}
    /\ keyPEM
       = pem_EncodeToMemory
           {| pem.Type_ := "RSA PRIVATE KEY";
              pem.Bytes := x509_MarshalPKCS1PrivateKey key |}.
Proof.
  intros Hne. destruct dnsNames as [|d0 dns]; [congruence|]. clear Hne.
  unfold generateServerCert. prog_simpl. intros Hout.
  rewrite run_vis in Hout |- *.
  destruct (h (RsaGenerateKey 2048) w) as [[key|e] w1] eqn:Hkey;
    cbn [fst snd] in *; [|discriminate].
  rewrite run_vis in Hout |- *.
  change (Z.shiftl 1 128) with (2 ^ 128) in *.
  destruct (h (RandInt (2 ^ 128)) w1) as [[serial|e] w2] eqn:Hserial;
    cbn [fst snd] in *; [|discriminate].
  rewrite run_vis in Hout |- *.
  destruct (h TimeNow w2) as [now w3] eqn:Hnow; cbn [fst snd] in *.
  cbn [lookup list_lookup] in *. prog_simpl.
  rewrite run_vis in Hout |- *.
  match type of Hout with
  | context [h (X509CreateCertificate ?t _ _ _) w3] => set (tmpl := t) in *
  end.
  destruct (h (X509CreateCertificate tmpl caCert (rsa.Public key) caKey) w3)
    as [[certDER|e] w4] eqn:Hder; cbn [fst snd] in *; [|discriminate].
  cbn in Hout. injection Hout as <- <-.
  exists key, serial, now, certDER, tmpl, w1, w2, w3, w4.
  repeat (split; [first [assumption | reflexivity | discriminate]|]).
  reflexivity.
Qed.

(** On an empty list of DNS names [generateServerCert] panics at
    [dnsNames[0]], once the key, the serial number and the time are
    there. *)
Lemma generateServerCert_empty_panics (caCert : x509.Certificate)
    (caKey : rsa.PrivateKey) (validity : Duration) (w : W) :
  (exists e, outcome (run h (generateServerCert caCert caKey [] validity) w)
             = Returned (Err e))
  \/ (exists msg,
         outcome (run h (generateServerCert caCert caKey [] validity) w)
         = Panicked msg).
Proof.
  unfold generateServerCert. prog_simpl. rewrite run_vis.
  destruct (fst (h (RsaGenerateKey 2048) w)); [|cbn; eauto].
  rewrite run_vis. destruct (fst (h (RandInt _) _)); [|cbn; eauto].
  rewrite run_vis. cbn. eauto.
Qed.
End Generator.

(** ** Persisting a regenerated record *)

Section Upsert.
Context `{Lib} {W : Type} (h : Handler W).

Lemma generateCA_only (validity : Duration) :
  only (fun o => isSecretOp o = false) (generateCA validity).
Proof. unfold generateCA. prog_walk; reflexivity. Qed.

Lemma generateServerCert_only (caCert : x509.Certificate)
    (caKey : rsa.PrivateKey) (dnsNames : list string) (validity : Duration) :
  only (fun o => isSecretOp o = false)
       (generateServerCert caCert caKey dnsNames validity).
Proof. unfold generateServerCert. prog_walk; reflexivity. Qed.

(** After the write of the Secret, [persist] issues no operation on
    Secrets. *)
Lemma persist_rest_only (cfg : Config.t) (caPEM certPEM keyPEM : bytes) :
  only (fun o => isSecretOp o = false)
       (e ← writeCertsToDisk (Config.CertDir cfg) certPEM keyPEM;
        match e with
        | Some err => mret (Some (Errorf "writing certs to disk: %w" [] err))
        | None =>
            call (LogInfo "wrote webhook certs to disk"
                    ["dir"; Config.CertDir cfg]);;
            patchWebhookConfig (Config.WebhookConfigName cfg) caPEM
        end).
Proof.
  apply only_bind.
  - eapply only_weaken; [|apply writeCertsToDisk_only].
    now intros o [-> | [-> | ->]].
  - intros [err|]; prog_walk; [reflexivity|].
    eapply only_weaken; [|apply patchWebhookConfig_only].
    intros [] Ho; cbn in *; auto; contradiction.
Qed.

Lemma persist_trace (cfg : Config.t) (existing : option Secret.t)
    (caPEM certPEM keyPEM : bytes) (w : W) :
  exists rest,
    trace (run h (persist cfg existing caPEM certPEM keyPEM) w)
    = upsertOp cfg existing caPEM certPEM keyPEM :: rest
    /\ Forall (fun o => isSecretOp o = false) rest.
Proof.
  pose proof (persist_rest_only cfg caPEM certPEM keyPEM) as Hrest.
  assert (forall (e : error) (ctx log : string) (w' : W),
             Forall (fun o => isSecretOp o = false)
               (trace (run h
                  match e with
                  | Some err => mret (Some (Errorf ctx [] err))
                  | None =>
                      call (LogInfo log []);;
                      (e ← writeCertsToDisk (Config.CertDir cfg) certPEM
                             keyPEM;
                       match e with
                       | Some err =>
                           mret (Some (Errorf "writing certs to disk: %w"
                                         [] err))
                       | None =>
                           call (LogInfo "wrote webhook certs to disk"
                                   ["dir"; Config.CertDir cfg]);;
                           patchWebhookConfig (Config.WebhookConfigName cfg)
                             caPEM
                       end)
                  end w'))) as Htail.
  { intros [err|] ctx log w'; [constructor|].
    prog_simpl. rewrite run_vis. cbn [trace].
    apply Forall_cons_2; [reflexivity|].
    apply (only_trace h _ _ _ Hrest). }
  unfold persist, upsertOp.
  destruct existing as [ex|]; [destruct (String.eqb (Secret.Name ex) "")|];
    cbn [negb]; prog_simpl; rewrite run_vis; cbn [trace];
    eexists; (split; [reflexivity|]); apply Htail.
Qed.

Lemma filter_no_secret_op (l : list Op) :
  Forall (fun o => isSecretOp o = false) l -> List.filter isSecretWrite l = [].
Proof.
  induction 1 as [|o l Ho _ IH]; [reflexivity|].
  cbn. rewrite IH. now destruct o.
Qed.

(** [regenerate] issues the operations of the generator, none of them on
    Secrets, and then either stops without success or goes on as
    [persist] with the material generated. *)
Lemma regenerate_trace (cfg : Config.t) (dnsNames : list string)
    (existing : option Secret.t) (w : W) :
  let r := run h (regenerate cfg dnsNames existing) w in
  exists gen,
    Forall (fun o => isSecretOp o = false) gen
    /\ ((trace r = gen /\ outcome r <> Returned None)
        \/ (exists caPEM certPEM keyPEM wp,
               let rp := run h (persist cfg existing caPEM certPEM keyPEM) wp
               in trace r = gen ++ trace rp /\ outcome r = outcome rp)).
Proof.
  cbv zeta. unfold regenerate. rewrite run_bind.
  pose proof (only_trace h _ _ w (generateCA_only (Config.CertValidity cfg)))
    as Hca.
  destruct (outcome (run h (generateCA _) w)) as [[[[caCert caKey] caPEM]|e]|msg].
  - cbv zeta. rewrite run_bind.
    pose proof (only_trace h _ _ (final (run h (generateCA
                                                  (Config.CertValidity cfg)) w))
                  (generateServerCert_only caCert caKey dnsNames
                     (Config.CertValidity cfg))) as Hsc.
    set (tca := trace (run h (generateCA (Config.CertValidity cfg)) w)) in *.
    set (tsc := trace (run h (generateServerCert caCert caKey dnsNames
                                (Config.CertValidity cfg)) _)) in *.
    assert (Forall (fun o => isSecretOp o = false) (tca ++ tsc)) as Hgen
      by now apply Forall_app_2.
    destruct (outcome (run h (generateServerCert _ _ _ _) _))
      as [[[certPEM keyPEM]|e]|msg].
    + cbv zeta. cbn [outcome trace].
      exists (tca ++ tsc). split; [exact Hgen|].
      right. eexists caPEM, certPEM, keyPEM, _.
      rewrite app_assoc. split; reflexivity.
    + cbn [outcome trace]. exists (tca ++ tsc). split; [exact Hgen|].
      left. cbn. rewrite !app_nil_r. split; [reflexivity | discriminate].
    + cbn [outcome trace]. exists (tca ++ tsc). split; [exact Hgen|].
      left. split; [reflexivity | discriminate].
  - cbn. eexists. split; [exact Hca|].
    left. rewrite app_nil_r. split; [reflexivity | discriminate].
  - cbn. eexists. split; [exact Hca|].
    left. split; [reflexivity | discriminate].
Qed.

Lemma Ensure_run_renew (cfg : Config.t) (w w1 : W) (existing : Secret.t) :
  h (SecretsGet (Config.Namespace cfg) (Config.SecretName cfg)) w
  = (inl existing, w1) ->
  outcome (run h (needsRenewal existing (Config.RenewalThreshold cfg)) w1)
  = Returned true ->
  let rn := run h (needsRenewal existing (Config.RenewalThreshold cfg)) w1 in
  let rg := run h (regenerate cfg
                     (dnsNamesForService (Config.ServiceName cfg)
                        (Config.Namespace cfg))
                     (Some existing))
              (snd (h logRenew (final rn))) in
  run h (Ensure cfg) w
  = mkRun (outcome rg) (final rg)
      (SecretsGet (Config.Namespace cfg) (Config.SecretName cfg)
       :: trace rn ++ logRenew :: trace rg).
Proof.
  intros Hget Hrenew. cbv zeta.
  unfold Ensure. prog_simpl. rewrite run_vis, Hget. cbn [fst snd].
  rewrite run_bind, Hrenew. cbv zeta. cbn [negb].
  prog_simpl. rewrite run_vis. reflexivity.
Qed.

Lemma Ensure_run_absent (cfg : Config.t) (w w1 : W)
    (existing : option Secret.t) (err : Error) :
  h (SecretsGet (Config.Namespace cfg) (Config.SecretName cfg)) w
  = (inr (existing, err), w1) ->
  IsNotFound err = true ->
  let rg := run h (regenerate cfg
                     (dnsNamesForService (Config.ServiceName cfg)
                        (Config.Namespace cfg))
                     existing)
              (snd (h logAbsent w1)) in
  run h (Ensure cfg) w
  = mkRun (outcome rg) (final rg)
      (SecretsGet (Config.Namespace cfg) (Config.SecretName cfg)
       :: logAbsent :: trace rg).
Proof.
  intros Hget Hnf. cbv zeta.
  unfold Ensure. prog_simpl. rewrite run_vis, Hget. cbn [fst snd].
  rewrite Hnf. cbn [negb]. prog_simpl. rewrite run_vis. reflexivity.
Qed.

(** The writes to Secrets of a regeneration: none, and then no success,
    or the single write [persist] starts with. *)
Lemma regenerate_writes (cfg : Config.t) (dnsNames : list string)
    (existing : option Secret.t) (w : W) :
  let r := run h (regenerate cfg dnsNames existing) w in
  (List.filter isSecretWrite (trace r) = [] /\ outcome r <> Returned None)
  \/ (exists caPEM certPEM keyPEM,
         List.filter isSecretWrite (trace r)
         = [upsertOp cfg existing caPEM certPEM keyPEM]).
Proof.
  cbv zeta.
  destruct (regenerate_trace cfg dnsNames existing w)
    as (gen & Hgen & [[-> Hout]|(caPEM & certPEM & keyPEM & wp & Htr & _)]).
  - left. split; [now apply filter_no_secret_op | exact Hout].
  - right. exists caPEM, certPEM, keyPEM. rewrite Htr.
    destruct (persist_trace cfg existing caPEM certPEM keyPEM wp)
      as (rest & -> & Hrest).
    rewrite List.filter_app, (filter_no_secret_op gen Hgen).
    cbn [app List.filter].
    rewrite (filter_no_secret_op rest Hrest).
    unfold upsertOp. destruct existing as [ex|];
      [destruct (String.eqb (Secret.Name ex) "")|]; reflexivity.
Qed.

(** When [Ensure] regenerates, it writes the Secret at most once, and
    exactly once when it succeeds. If the [Get] found a record (a record
    has a name), the write is an [Update] of an object with the
    configured name and namespace, the TLS type, the three blobs, and the
    resource version of the record found; if the [Get] reported
    not-found (leaving a nil pointer or an empty object), the write is a
    [Create] of such an object with no resource version. *)
Lemma Ensure_upsert_writes (cfg : Config.t) (w : W) :
  let r := run h (Ensure cfg) w in
  let ns := Config.Namespace cfg in
  let writes := List.filter isSecretWrite (trace r) in
  (forall existing w1,
      h (SecretsGet ns (Config.SecretName cfg)) w = (inl existing, w1) ->
      Secret.Name existing <> "" ->
      outcome (run h (needsRenewal existing (Config.RenewalThreshold cfg)) w1)
      = Returned true ->
      (writes = [] /\ outcome r <> Returned None)
      \/ (exists caPEM certPEM keyPEM,
             writes
             = [SecretsUpdate ns
                  (Secret.mk
                     (ObjectMeta.mk (Config.SecretName cfg) ns
                        (Secret.ResourceVersion existing))
                     SecretTypeTLS
                     (<["ca.crt" := caPEM]>
                        (<["tls.crt" := certPEM]>
                           (<["tls.key" := keyPEM]> ∅))))]))
  /\ (forall existing err w1,
         h (SecretsGet ns (Config.SecretName cfg)) w
         = (inr (existing, err), w1) ->
         IsNotFound err = true ->
         (existing = None
          \/ exists empty, existing = Some empty /\ Secret.Name empty = "") ->
         (writes = [] /\ outcome r <> Returned None)
         \/ (exists caPEM certPEM keyPEM,
                writes
                = [SecretsCreate ns
                     (Secret.mk
                        (ObjectMeta.mk (Config.SecretName cfg) ns "")
                        SecretTypeTLS
                        (<["ca.crt" := caPEM]>
                           (<["tls.crt" := certPEM]>
                              (<["tls.key" := keyPEM]> ∅))))])).
Proof.
  cbv zeta. split.
  - intros existing w1 Hget Hname Hrenew.
    rewrite (Ensure_run_renew cfg w w1 existing Hget Hrenew).
    cbv zeta. cbn [trace outcome List.filter isSecretWrite].
    rewrite List.filter_app.
    rewrite (filter_no_secret_op (trace (run h (needsRenewal _ _) w1))).
    2:{ apply only_trace. eapply only_weaken; [|apply needsRenewal_only].
        now intros o ->. }
    cbn [app List.filter logRenew isSecretWrite].
    match goal with
    | |- context [run h (regenerate cfg ?d ?e) ?w'] =>
        destruct (regenerate_writes cfg d e w')
          as [Hnone|(caPEM & certPEM & keyPEM & Hone)]
    end.
    + now left.
    + right. exists caPEM, certPEM, keyPEM. rewrite Hone.
      unfold upsertOp. apply String.eqb_neq in Hname. now rewrite Hname.
  - intros existing err w1 Hget Hnf Hempty.
    rewrite (Ensure_run_absent cfg w w1 existing err Hget Hnf).
    cbv zeta. cbn [trace outcome List.filter isSecretWrite logAbsent].
    match goal with
    | |- context [run h (regenerate cfg ?d ?e) ?w'] =>
        destruct (regenerate_writes cfg d e w')
          as [Hnone|(caPEM & certPEM & keyPEM & Hone)]
    end.
    + now left.
    + right. exists caPEM, certPEM, keyPEM. rewrite Hone.
      unfold upsertOp.
      destruct Hempty as [->|(empty & -> & ->)]; reflexivity.
Qed.
End Upsert.

(** ** The reference world: concrete runs *)

Section Concrete.
Import Ref Scenario.

Lemma Ref_store_frame (o : Op) (w : World) :
  isSecretWrite o = false -> secrets (snd (handler o w)) = secrets w.
Proof.
  destruct o; cbn; try discriminate; intros _;
    try reflexivity;
    match goal with
    | |- context [match ?x with _ => _ end] => destruct x
    end; reflexivity.
Qed.

(** The tests of [needsRenewal]: a leaf valid for a year against a
    threshold of thirty days, the same leaf twenty-five days before its
    end, an absent field, an empty field, bytes that are not PEM. *)
Lemma needsRenewal_iff_witness :
  outcome (run handler (needsRenewal record (30 * day)) warm)
  = Returned false
  /\ outcome (run handler (needsRenewal record (30 * day)) stale)
     = Returned true
  /\ outcome (run handler (needsRenewal emptySecret (30 * day)) warm)
     = Returned true
  /\ outcome (run handler
                (needsRenewal
                   (Secret.mk (ObjectMeta.mk "s" "ns" "1") SecretTypeTLS
                      {[ "tls.crt" := [] ]})
                   (30 * day)) warm)
     = Returned true
  /\ outcome (run handler
                (needsRenewal
                   (Secret.mk (ObjectMeta.mk "s" "ns" "1") SecretTypeTLS
                      {[ "tls.crt" := list_byte_of_string "not a pem" ]})
                   (30 * day)) warm)
     = Returned true
  /\ (time_Sub (start + 365 * day) (clock stale) < 30 * day
      <-> start + 365 * day - clock stale < 30 * day).
Proof.
  assert (forall (s : Secret.t) (w : World) (b : bool),
             (b = true <->
              match outcome (run handler (needsRenewal s (30 * day)) w) with
              | Returned b' => b' = true
              | Panicked _ => False
              end) ->
             outcome (run handler (needsRenewal s (30 * day)) w) = Returned b)
    as Hdecide.
  { intros s w b Hb.
    destruct (needsRenewal_iff handler s (30 * day) w)
      as (b' & Hout & _). rewrite Hout in Hb |- *.
    destruct b, b'; try reflexivity; destruct Hb as [H1 H2];
      [discriminate (H1 eq_refl) | discriminate (H2 eq_refl)]. }
  repeat (split; [apply Hdecide; vm_compute; split; congruence|]).
  destruct (needsRenewal_iff handler record (30 * day) stale)
    as (_ & _ & _ & _ & Hexact).
  apply Hexact. vm_compute. split; [reflexivity | discriminate].
Defined.

(** C2, as stated, fails: the primary exists, its webhook list is empty,
    and the propagation succeeds without issuing any update of it. *)
Lemma patchWebhookConfig_empty_primary_no_update :
  validating hollow !! Config.WebhookConfigName cfg = Some emptyPrimary
  /\ ValidatingWebhookConfiguration.Webhooks emptyPrimary = []
  /\ outcome (run handler
                (patchWebhookConfig (Config.WebhookConfigName cfg) authority)
                hollow)
     = Returned None
  /\ trace (run handler
              (patchWebhookConfig (Config.WebhookConfigName cfg) authority)
              hollow)
     = [ValidatingGet "test-validating-webhook-configuration";
        MutatingGet "test-mutating-webhook-configuration"].
Proof. split; [|split; [|split]]; vm_compute; reflexivity. Qed.

Lemma patchWebhookConfig_primary_update_witness :
  handler (ValidatingGet (Config.WebhookConfigName cfg)) warm
  = (Ok (patchedValidating authority primary), warm)
  /\ (exists rest,
         trace (run handler
                  (patchWebhookConfig (Config.WebhookConfigName cfg)
                     authority) warm)
         = ValidatingGet (Config.WebhookConfigName cfg)
           :: ValidatingUpdate
                (patchedValidating authority
                   (patchedValidating authority primary))
           :: rest)
  /\ (forall v,
         ~ In (ValidatingUpdate v)
             (trace (run handler
                       (patchWebhookConfig (Config.WebhookConfigName cfg)
                          authority) hollow))).
Proof.
  split; [vm_compute; reflexivity|]. split.
  - apply (patchWebhookConfig_primary_update handler
             (Config.WebhookConfigName cfg) authority warm warm
             (patchedValidating authority primary));
      [vm_compute; reflexivity | discriminate].
  - apply (patchWebhookConfig_primary_update handler
             (Config.WebhookConfigName cfg) authority hollow hollow
             emptyPrimary); vm_compute; reflexivity.
Defined.


Lemma Ensure_reuse_reads_only_witness :
  handler (SecretsGet (Config.Namespace cfg) (Config.SecretName cfg)) both
  = (inl record, both)
  /\ outcome (run handler
                (needsRenewal record (Config.RenewalThreshold cfg)) both)
     = Returned false
  /\ (forall ns s, ~ In (SecretsUpdate ns s)
                     (trace (run handler (Ensure cfg) both)))
  /\ (forall ns s, ~ In (SecretsCreate ns s)
                     (trace (run handler (Ensure cfg) both))).
Proof.
  assert (handler (SecretsGet (Config.Namespace cfg) (Config.SecretName cfg))
            both = (inl record, both)) as Hfound
    by (vm_compute; reflexivity).
  assert (outcome (run handler
                     (needsRenewal record (Config.RenewalThreshold cfg))
                     both) = Returned false) as Hvalid
    by (vm_compute; reflexivity).
  destruct (Ensure_reuse_reads_only handler cfg record both both
              Hfound Hvalid) as (_ & Hupd & Hcre).
  exact (conj Hfound (conj Hvalid (conj Hupd Hcre))).
Defined.

(** *** The end-to-end scenarios of the package's tests *)

(** Cold start: the record is created with its three blobs, the two
    files hold the leaf and its key, the primary carries the
    authority. *)
Example scenario_cold_start :
  let r := run handler (Ensure cfg) cold in
  outcome r = Returned None
  /\ secrets cold = ∅
  /\ secrets (final r) !! ("test-ns", "webhook-server-cert") = Some record
  /\ (length authority =? 0)%nat = false
  /\ (length leaf =? 0)%nat = false
  /\ (length leafKey =? 0)%nat = false
  /\ files (final r) !! "/tmp/certs/tls.crt" = Some leaf
  /\ files (final r) !! "/tmp/certs/tls.key" = Some leafKey
  /\ validating (final r) !! "test-validating-webhook-configuration"
     = Some (patchedValidating authority primary).
Proof.
  cbv zeta.
  split; [|split; [|split; [|split; [|split; [|split; [|split; [|split]]]]]]];
    vm_compute; reflexivity.
Qed.

(** Restart on an empty disk with a record valid for a year: the record
    stays, the files come back, both configurations are patched. *)
Example scenario_reuse :
  let r := run handler (Ensure cfg) both in
  outcome r = Returned None
  /\ files both = ∅
  /\ secrets (final r) = secrets both
  /\ files (final r) !! "/tmp/certs/tls.crt" = Some leaf
  /\ files (final r) !! "/tmp/certs/tls.key" = Some leafKey
  /\ validating (final r) !! "test-validating-webhook-configuration"
     = Some (patchedValidating authority primary)
  /\ mutating (final r) !! "test-mutating-webhook-configuration"
     = Some (patchedMutating authority secondary).
Proof.
  cbv zeta.
  split; [|split; [|split; [|split; [|split; [|split]]]]];
    vm_compute; reflexivity.
Qed.

(** Twenty-five days before the end, against a threshold of thirty: the
    record is updated in place with a new leaf under a new authority. *)
Example scenario_renewal :
  let r := run handler (Ensure cfg) stale in
  let renewed :=
    default emptySecret
      (secrets (final r) !! ("test-ns", "webhook-server-cert")) in
  outcome r = Returned None
  /\ Secret.ResourceVersion renewed = Secret.ResourceVersion record
  /\ Secret.Data renewed !!! "tls.crt" <> leaf
  /\ Secret.Data renewed !!! "ca.crt" <> authority
  /\ files (final r) !! "/tmp/certs/tls.crt"
     = Some (Secret.Data renewed !!! "tls.crt")
  /\ validating (final r) !! "test-validating-webhook-configuration"
     = Some (patchedValidating (Secret.Data renewed !!! "ca.crt") primary).
Proof.
  assert (forall a b : bytes,
             bool_decide (map Byte.to_N a = map Byte.to_N b) = false ->
             a <> b) as Hneq.
  { intros a b Hab ->. apply bool_decide_eq_false in Hab. now apply Hab. }
  cbv zeta.
  split; [|split; [|split; [|split; [|split]]]];
    try (apply Hneq); vm_compute; reflexivity.
Qed.

(** Without the primary, [Ensure] reports an error (and the files are
    written all the same). *)
Example scenario_missing_primary :
  let r := run handler (Ensure cfg) orphan in
  (exists e, outcome r = Returned (Some e) /\ IsNotFound e = true)
  /\ files (final r) !! "/tmp/certs/tls.crt" = Some leaf.
Proof.
  cbv zeta. split; [eexists; split|]; vm_compute; reflexivity.
Qed.
End Concrete.

(** * The refresh, the upsert and the generated certificates *)

(** ** The run of the reuse path *)

Section ReuseRun.
Context `{Lib} {W : Type} (h : Handler W).

(** [needsRenewal] answers false only after it has read the clock. *)
Lemma needsRenewal_false_run (secret : Secret.t) (threshold : Duration)
    (w : W) :
  outcome (run h (needsRenewal secret threshold) w) = Returned false ->
  run h (needsRenewal secret threshold) w
  = mkRun (Returned false) (snd (h TimeNow w)) [TimeNow].
Proof.
  unfold needsRenewal, time_Until.
  destruct (Secret.Data secret !! "tls.crt") as [certPEM|]; [|discriminate].
  destruct (length certPEM =? 0)%nat; [discriminate|].
  destruct (pem_Decode certPEM) as [block|]; [|discriminate].
  destruct (x509_ParseCertificate (pem.Bytes block)) as [cert|e];
    [|discriminate].
  prog_simpl. rewrite run_vis. cbn. now intros [= ->].
Qed.
End ReuseRun.

Section ReuseRefresh.
Context `{Lib} {W S : Type} (h : Handler W) (store : W -> S).
Context (cfg : Config.t) (existing : Secret.t) (w w1 : W).
Hypothesis store_frame :
  forall o w', isSecretWrite o = false -> store (snd (h o w')) = store w'.
Hypothesis found :
  h (SecretsGet (Config.Namespace cfg) (Config.SecretName cfg)) w
  = (inl existing, w1).
Hypothesis valid :
  outcome (run h (needsRenewal existing (Config.RenewalThreshold cfg)) w1)
  = Returned false.

(** C3. On the reuse path the store of Secrets is after the call what it
    was before it (in particular the leaf certificate of the record is
    byte-identical), for every handler whose store only moves on a
    [Create] or an [Update] of a Secret; and the run of [Ensure] is the
    refresh, told by the answers of the handler alone. After the [Get],
    the clock and the log line, [MkdirAll] is asked for the configured
    directory; if it is granted, [tls.crt] is written with the record's
    leaf certificate, then [tls.key] with the record's key; a refusal of
    one of the three ends the run with that error, wrapped in
    "writing existing certs to disk". Once the files are written the
    validating configuration is fetched; if it has an entry it is
    updated with the record's authority certificate in every entry; then
    the mutating configuration is fetched and, when found, updated with
    that certificate; a failure of a fetch or an update ends the run
    with that error, except a not-found of the mutating configuration,
    which ends it with nil. *)
Theorem Ensure_reuse_refreshes :
  let r := run h (Ensure cfg) w in
  let dir := Config.CertDir cfg in
  let name := Config.WebhookConfigName cfg in
  let ca := Secret.Data existing !!! "ca.crt" in
  let get := SecretsGet (Config.Namespace cfg) (Config.SecretName cfg) in
  let mkdir := MkdirAll dir perm_0750 in
  let crt :=
    WriteFile (filepath_Join dir "tls.crt")
      (Secret.Data existing !!! "tls.crt") perm_0640 in
  let key :=
    WriteFile (filepath_Join dir "tls.key")
      (Secret.Data existing !!! "tls.key") perm_0640 in
  let vget := ValidatingGet name in
  let mget := MutatingGet (mutatingWebhookName name) in
  let w2 := snd (h logSkip (snd (h TimeNow w1))) in
  let w3 := snd (h mkdir w2) in
  let w4 := snd (h crt w3) in
  let w5 := snd (h key w4) in
  let w6 := snd (h vget w5) in
  let refused (err : Error) (w' : W) (done : list Op) : Run W error :=
    mkRun (Returned (Some (Errorf "writing existing certs to disk: %w" []
                             err)))
          w' ([get; TimeNow; logSkip] ++ done) in
  let secondary (w' : W) (done : list Op) : Run W error :=
    match fst (h mget w') with
    | Err err =>
        mkRun (Returned
                 (if IsNotFound err then None
                  else Some (Errorf
                               "getting MutatingWebhookConfiguration %s: %w"
                               [mutatingWebhookName name] err)))
              (snd (h mget w'))
              ([get; TimeNow; logSkip; mkdir; crt; key] ++ done ++ [mget])
    | Ok mwc =>
        let mupd := MutatingUpdate (patchedMutating ca mwc) in
        let w'' := snd (h mupd (snd (h mget w'))) in
        match fst (h mupd (snd (h mget w'))) with
        | Some err =>
            mkRun (Returned
                     (Some (Errorf
                              "updating MutatingWebhookConfiguration: %w" []
                              err)))
                  w''
                  ([get; TimeNow; logSkip; mkdir; crt; key]
                   ++ done ++ [mget; mupd])
        | None =>
            mkRun (Returned None) (snd (h (logMutating name) w''))
                  ([get; TimeNow; logSkip; mkdir; crt; key]
                   ++ done ++ [mget; mupd; logMutating name])
        end
    end in
  store (final r) = store w
  /\ Forall (reuseOp cfg existing) (trace r)
  /\ In (MkdirAll dir perm_0750) (trace r)
  /\ r
     = match fst (h mkdir w2) with
       | Some err =>
           refused (Errorf "creating cert dir %s: %w" [dir] err) w3 [mkdir]
       | None =>
           match fst (h crt w3) with
           | Some err =>
               refused (Errorf "writing tls.crt: %w" [] err) w4 [mkdir; crt]
           | None =>
               match fst (h key w4) with
               | Some err =>
                   refused (Errorf "writing tls.key: %w" [] err) w5
                     [mkdir; crt; key]
               | None =>
                   match fst (h vget w5) with
                   | Err err =>
                       mkRun (Returned
                                (Some (Errorf
                                         "getting ValidatingWebhookConfiguration %s: %w"
                                         [name] err)))
                             w6
                             [get; TimeNow; logSkip; mkdir; crt; key; vget]
                   | Ok vwc =>
                       match ValidatingWebhookConfiguration.Webhooks vwc with
                       | [] => secondary w6 [vget]
                       | _ :: _ =>
                           let vupd :=
                             ValidatingUpdate (patchedValidating ca vwc) in
                           match fst (h vupd w6) with
                           | Some err =>
                               mkRun (Returned
                                        (Some (Errorf
                                                 "updating ValidatingWebhookConfiguration: %w"
                                                 [] err)))
                                     (snd (h vupd w6))
                                     [get; TimeNow; logSkip; mkdir; crt; key;
                                      vget; vupd]
                           | None =>
                               secondary
                                 (snd (h (logValidating name)
                                         (snd (h vupd w6))))
                                 [vget; vupd; logValidating name]
                           end
                       end
                   end
               end
           end
       end.
Proof.
  cbv zeta.
  pose proof (Ensure_reuse_frame h store cfg existing w w1 store_frame
                found valid) as Hold.
  cbv zeta in Hold. destruct Hold as (Hstore & Hops & Hdir & _).
  split; [exact Hstore|]. split; [exact Hops|]. split; [exact Hdir|].
  unfold Ensure. prog_simpl. rewrite run_vis, found. cbn [fst snd].
  rewrite run_bind, (needsRenewal_false_run h _ _ _ valid).
  cbv zeta. cbn [outcome final trace negb]. prog_simpl.
  rewrite run_vis. unfold writeCertsToDisk. prog_simpl.
  fold logSkip.
  rewrite run_vis.
  destruct (fst (h (MkdirAll _ _) _)) as [e|]; [reflexivity|].
  prog_simpl. rewrite run_vis.
  destruct (fst (h (WriteFile _ _ _) _)) as [e|]; [reflexivity|].
  prog_simpl. rewrite run_vis.
  destruct (fst (h (WriteFile _ _ _) _)) as [e|]; [reflexivity|].
  prog_simpl.
  match goal with
  | |- context [run h (patchWebhookConfig ?n ?c) ?w'] =>
      destruct (h (ValidatingGet n) w') as [[vwc|e] w6] eqn:Hv;
      [rewrite (patchWebhookConfig_run_found h n c w' w6 vwc Hv)
      |rewrite (patchWebhookConfig_run_failed h n c w' w6 e Hv)]
  end; cbn [fst snd]; [|reflexivity].
  destruct (ValidatingWebhookConfiguration.Webhooks vwc) as [|wh whs].
  - cbv zeta. rewrite patchMutating_run. cbv zeta.
    destruct (fst (h (MutatingGet _) w6)) as [mwc|e].
    + destruct (fst (h (MutatingUpdate _) _)); reflexivity.
    + destruct (IsNotFound e); reflexivity.
  - cbv zeta.
    destruct (fst (h (ValidatingUpdate _) w6)) as [e|]; [reflexivity|].
    rewrite patchMutating_run. cbv zeta.
    destruct (fst (h (MutatingGet _) _)) as [mwc|e].
    + destruct (fst (h (MutatingUpdate _) _)); reflexivity.
    + destruct (IsNotFound e); reflexivity.
Qed.
End ReuseRefresh.

(** ** The write of a regeneration *)

Section UpsertRun.
Context `{Lib} {W : Type} (h : Handler W).

(** The run of [persist] after its write of the Secret, [op], which
    leaves world [w'] and is followed by the log line [logged] when it
    goes through. *)
Lemma persist_rest_run (cfg : Config.t) (caPEM certPEM keyPEM : bytes)
    (logged : string) (w : W) :
  exists rest,
    trace (run h
             (call (LogInfo logged []);;
              (e ← writeCertsToDisk (Config.CertDir cfg) certPEM keyPEM;
               match e with
               | Some err =>
                   mret (Some (Errorf "writing certs to disk: %w" [] err))
               | None =>
                   call (LogInfo "wrote webhook certs to disk"
                           ["dir"; Config.CertDir cfg]);;
                   patchWebhookConfig (Config.WebhookConfigName cfg) caPEM
               end)) w)
    = LogInfo logged [] :: MkdirAll (Config.CertDir cfg) perm_0750 :: rest.
Proof.
  prog_simpl. rewrite run_vis, run_bind. cbn [trace].
  match goal with
  | |- context [run h (writeCertsToDisk ?d ?c ?k) ?w'] =>
      destruct (writeCertsToDisk_mkdir h d c k w') as (tl & ->)
  end.
  match goal with
  | |- context [outcome ?x] => destruct (outcome x) as [a|msg]
  end; cbv zeta; cbn [trace app]; eexists; reflexivity.
Qed.

Lemma persist_run_update (cfg : Config.t) (ex : Secret.t)
    (caPEM certPEM keyPEM : bytes) (w : W) :
  Secret.Name ex <> "" ->
  let op :=
    SecretsUpdate (Config.Namespace cfg)
      (newSecret cfg caPEM certPEM keyPEM (Secret.ResourceVersion ex)) in
  let r := run h (persist cfg (Some ex) caPEM certPEM keyPEM) w in
  match fst (h op w) with
  | Some err =>
      r = mkRun (Returned (Some (Errorf "updating secret: %w" [] err)))
            (snd (h op w)) [op]
  | None =>
      exists rest,
        trace r
        = op :: LogInfo "updated webhook cert secret" []
             :: MkdirAll (Config.CertDir cfg) perm_0750 :: rest
  end.
Proof.
  intros Hname. cbv zeta. unfold persist.
  apply String.eqb_neq in Hname. rewrite Hname. cbn [negb].
  prog_simpl. rewrite run_vis.
  destruct (fst (h (SecretsUpdate _ _) w)) as [err|]; [reflexivity|].
  cbn [trace].
  destruct (persist_rest_run cfg caPEM certPEM keyPEM
              "updated webhook cert secret"
              (snd (h (SecretsUpdate (Config.Namespace cfg)
                         (newSecret cfg caPEM certPEM keyPEM
                            (Secret.ResourceVersion ex))) w)))
    as (rest & Hrest).
  prog_simpl. exists rest. now rewrite Hrest.
Qed.

Lemma persist_run_create (cfg : Config.t) (existing : option Secret.t)
    (caPEM certPEM keyPEM : bytes) (w : W) :
  existing = None
  \/ (exists empty, existing = Some empty /\ Secret.Name empty = "") ->
  let op :=
    SecretsCreate (Config.Namespace cfg)
      (newSecret cfg caPEM certPEM keyPEM "") in
  let r := run h (persist cfg existing caPEM certPEM keyPEM) w in
  match fst (h op w) with
  | Some err =>
      r = mkRun (Returned (Some (Errorf "creating secret: %w" [] err)))
            (snd (h op w)) [op]
  | None =>
      exists rest,
        trace r
        = op :: LogInfo "created webhook cert secret" []
             :: MkdirAll (Config.CertDir cfg) perm_0750 :: rest
  end.
Proof.
  intros Hempty. cbv zeta. unfold persist.
  assert (match existing with
          | Some ex => negb (String.eqb (Secret.Name ex) "")
          | None => false
          end = false) as Hcreate.
  { destruct Hempty as [->|(empty & -> & ->)]; reflexivity. }
  destruct (persist_rest_run cfg caPEM certPEM keyPEM
              "created webhook cert secret"
              (snd (h (SecretsCreate (Config.Namespace cfg)
                         (newSecret cfg caPEM certPEM keyPEM "")) w)))
    as (rest & Hrest).
  destruct existing as [ex|]; [rewrite Hcreate|];
    prog_simpl; rewrite run_vis;
    (destruct (fst (h (SecretsCreate _ _) w)) as [err|]; [reflexivity|]);
    cbn [trace]; prog_simpl; exists rest; now rewrite Hrest.
Qed.

(** The run of [regenerate], by what the generator returns. *)
Lemma regenerate_run_cases (cfg : Config.t) (dnsNames : list string)
    (existing : option Secret.t) (w : W) :
  let rca := run h (generateCA (Config.CertValidity cfg)) w in
  run h (regenerate cfg dnsNames existing) w
  = match outcome rca with
    | Returned (Ok (caCert, caKey, caPEM)) =>
        let rsc := run h (generateServerCert caCert caKey dnsNames
                            (Config.CertValidity cfg)) (final rca) in
        match outcome rsc with
        | Returned (Ok (certPEM, keyPEM)) =>
            let rp := run h (persist cfg existing caPEM certPEM keyPEM)
                        (final rsc) in
            mkRun (outcome rp) (final rp)
              (trace rca ++ trace rsc ++ trace rp)
        | Returned (Err err) =>
            mkRun (Returned (Some (Errorf "generating server cert: %w" []
                                     err)))
              (final rsc) (trace rca ++ trace rsc)
        | Panicked msg => mkRun (Panicked msg) (final rsc)
                            (trace rca ++ trace rsc)
        end
    | Returned (Err err) =>
        mkRun (Returned (Some (Errorf "generating CA: %w" [] err)))
          (final rca) (trace rca)
    | Panicked msg => mkRun (Panicked msg) (final rca) (trace rca)
    end.
Proof.
  cbv zeta. unfold regenerate. rewrite run_bind.
  destruct (outcome (run h (generateCA _) w))
    as [[[[caCert caKey] caPEM]|e]|msg]; cbv zeta.
  - rewrite run_bind.
    destruct (outcome (run h (generateServerCert _ _ _ _) _))
      as [[[certPEM keyPEM]|e]|msg]; cbv zeta; cbn [outcome final trace].
    + reflexivity.
    + cbn. now rewrite !app_nil_r.
    + reflexivity.
  - cbn. now rewrite app_nil_r.
  - reflexivity.
Qed.

Lemma generator_no_write (cfg : Config.t) (caCert : x509.Certificate)
    (caKey : rsa.PrivateKey) (dnsNames : list string) (w w' : W) :
  List.filter isSecretWrite
    (trace (run h (generateCA (Config.CertValidity cfg)) w)) = []
  /\ List.filter isSecretWrite
       (trace (run h (generateServerCert caCert caKey dnsNames
                        (Config.CertValidity cfg)) w')) = [].
Proof.
  split; apply filter_no_secret_op, only_trace;
    [apply generateCA_only | apply generateServerCert_only].
Qed.
End UpsertRun.

Section UpsertIssued.
Context `{Lib} {W : Type} (h : Handler W).

(** C7. When [Ensure] regenerates, it writes the Secret at most once. If
    the [Get] found a record (a record has a name), then once the
    authority and the leaf are generated the next operation is an
    [Update] of the object with the configured name and namespace, the
    TLS type, the three generated blobs and the resource version of the
    record found, and it is the only write; if the [Get] reported
    not-found (leaving a nil pointer or an empty object), it is a
    [Create] of such an object with no resource version. When the write
    is refused the run ends there with that error, wrapped in
    "updating secret" or "creating secret"; when it is granted the run
    goes on with the log line and the files. No write is issued only
    when the generation of the authority or of the leaf failed, and then
    the run ends with that error. *)
Theorem Ensure_upsert (cfg : Config.t) (w : W) :
  let r := run h (Ensure cfg) w in
  let ns := Config.Namespace cfg in
  let get := SecretsGet ns (Config.SecretName cfg) in
  let dns := dnsNamesForService (Config.ServiceName cfg) ns in
  let writes := List.filter isSecretWrite (trace r) in
  let written (op : Op) (answer : option Error) (after : W)
      (context logged : string) (generated : list Op) : Prop :=
    writes = [op]
    /\ match answer with
       | Some err =>
           r = mkRun (Returned (Some (Errorf context [] err))) after
                 (generated ++ [op])
       | None =>
           exists rest,
             trace r
             = generated
               ++ op :: LogInfo logged []
                  :: MkdirAll (Config.CertDir cfg) perm_0750 :: rest
       end in
  let regenerated (w2 : W) (head : list Op)
      (persisted : bytes -> bytes -> bytes -> W -> list Op -> Prop) : Prop :=
    let rca := run h (generateCA (Config.CertValidity cfg)) w2 in
    match outcome rca with
    | Returned (Ok (caCert, caKey, caPEM)) =>
        let rsc := run h (generateServerCert caCert caKey dns
                            (Config.CertValidity cfg)) (final rca) in
        match outcome rsc with
        | Returned (Ok (certPEM, keyPEM)) =>
            persisted caPEM certPEM keyPEM (final rsc)
              (head ++ trace rca ++ trace rsc)
        | Returned (Err err) =>
            writes = []
            /\ r = mkRun (Returned
                            (Some (Errorf "generating server cert: %w" []
                                     err)))
                     (final rsc) (head ++ trace rca ++ trace rsc)
        | Panicked _ => False
        end
    | Returned (Err err) =>
        writes = []
        /\ r = mkRun (Returned (Some (Errorf "generating CA: %w" [] err)))
                 (final rca) (head ++ trace rca)
    | Panicked _ => False
    end in
  (forall existing w1,
      h get w = (inl existing, w1) ->
      Secret.Name existing <> "" ->
      outcome (run h (needsRenewal existing (Config.RenewalThreshold cfg)) w1)
      = Returned true ->
      ((writes = [] /\ outcome r <> Returned None)
       \/ (exists caPEM certPEM keyPEM,
              writes
              = [SecretsUpdate ns
                   (Secret.mk
                      (ObjectMeta.mk (Config.SecretName cfg) ns
                         (Secret.ResourceVersion existing))
                      SecretTypeTLS
                      (<["ca.crt" := caPEM]>
                         (<["tls.crt" := certPEM]>
                            (<["tls.key" := keyPEM]> ∅))))]))
      /\ let rn := run h (needsRenewal existing
                            (Config.RenewalThreshold cfg)) w1 in
         regenerated (snd (h logRenew (final rn)))
           (get :: trace rn ++ [logRenew])
           (fun caPEM certPEM keyPEM wg generated =>
              let op :=
                SecretsUpdate ns
                  (newSecret cfg caPEM certPEM keyPEM
                     (Secret.ResourceVersion existing)) in
              written op (fst (h op wg)) (snd (h op wg))
                "updating secret: %w" "updated webhook cert secret"
                generated))
  /\ (forall existing err w1,
         h get w = (inr (existing, err), w1) ->
         IsNotFound err = true ->
         (existing = None
          \/ exists empty, existing = Some empty /\ Secret.Name empty = "") ->
         ((writes = [] /\ outcome r <> Returned None)
          \/ (exists caPEM certPEM keyPEM,
                 writes
                 = [SecretsCreate ns
                      (Secret.mk
                         (ObjectMeta.mk (Config.SecretName cfg) ns "")
                         SecretTypeTLS
                         (<["ca.crt" := caPEM]>
                            (<["tls.crt" := certPEM]>
                               (<["tls.key" := keyPEM]> ∅))))]))
         /\ regenerated (snd (h logAbsent w1)) [get; logAbsent]
              (fun caPEM certPEM keyPEM wg generated =>
                 let op :=
                   SecretsCreate ns (newSecret cfg caPEM certPEM keyPEM "")
                 in
                 written op (fst (h op wg)) (snd (h op wg))
                   "creating secret: %w" "created webhook cert secret"
                   generated)).
Proof.
  cbv zeta.
  assert (dnsNamesForService (Config.ServiceName cfg) (Config.Namespace cfg)
          <> []) as Hdns by discriminate.
  (* the writes of a trace made of harmless operations, the generator's
     and one write *)
  assert (forall (head : list Op) (caCert : x509.Certificate)
                 (caKey : rsa.PrivateKey) (w2 w3 : W) (tail : list Op),
             List.filter isSecretWrite head = [] ->
             List.filter isSecretWrite
               (head
                ++ (trace (run h (generateCA (Config.CertValidity cfg)) w2)
                    ++ trace (run h (generateServerCert caCert caKey
                                       (dnsNamesForService
                                          (Config.ServiceName cfg)
                                          (Config.Namespace cfg))
                                       (Config.CertValidity cfg)) w3))
                ++ tail)
             = List.filter isSecretWrite tail) as Hfilter.
  { intros head caCert caKey w2 w3 tail Hhead.
    destruct (generator_no_write h cfg caCert caKey
                (dnsNamesForService (Config.ServiceName cfg)
                   (Config.Namespace cfg)) w2 w3) as [Hca Hsc].
    now rewrite !List.filter_app, Hhead, Hca, Hsc. }
  assert (forall (existing : option Secret.t) (w2 : W) (head : list Op)
                 (persisted : bytes -> bytes -> bytes -> W -> list Op -> Prop),
             List.filter isSecretWrite head = [] ->
             (forall caCert caKey caPEM certPEM keyPEM,
                 outcome (run h (generateCA (Config.CertValidity cfg)) w2)
                 = Returned (Ok (caCert, caKey, caPEM)) ->
                 let rca := run h (generateCA (Config.CertValidity cfg)) w2 in
                 let rsc :=
                   run h (generateServerCert caCert caKey
                            (dnsNamesForService (Config.ServiceName cfg)
                               (Config.Namespace cfg))
                            (Config.CertValidity cfg)) (final rca) in
                 outcome rsc = Returned (Ok (certPEM, keyPEM)) ->
                 let rp := run h (persist cfg existing caPEM certPEM keyPEM)
                             (final rsc) in
                 run h (Ensure cfg) w
                 = mkRun (outcome rp) (final rp)
                     (head ++ (trace rca ++ trace rsc) ++ trace rp) ->
                 persisted caPEM certPEM keyPEM (final rsc)
                   (head ++ trace rca ++ trace rsc)) ->
             let rg := run h (regenerate cfg
                                (dnsNamesForService (Config.ServiceName cfg)
                                   (Config.Namespace cfg)) existing) w2 in
             run h (Ensure cfg) w
             = mkRun (outcome rg) (final rg) (head ++ trace rg) ->
             let rca := run h (generateCA (Config.CertValidity cfg)) w2 in
             match outcome rca with
             | Returned (Ok (caCert, caKey, caPEM)) =>
                 let rsc :=
                   run h (generateServerCert caCert caKey
                            (dnsNamesForService (Config.ServiceName cfg)
                               (Config.Namespace cfg))
                            (Config.CertValidity cfg)) (final rca) in
                 match outcome rsc with
                 | Returned (Ok (certPEM, keyPEM)) =>
                     persisted caPEM certPEM keyPEM (final rsc)
                       (head ++ trace rca ++ trace rsc)
                 | Returned (Err err) =>
                     List.filter isSecretWrite (trace (run h (Ensure cfg) w))
                     = []
                     /\ run h (Ensure cfg) w
                        = mkRun (Returned
                                   (Some (Errorf "generating server cert: %w"
                                            [] err)))
                            (final rsc) (head ++ trace rca ++ trace rsc)
                 | Panicked _ => False
                 end
             | Returned (Err err) =>
                 List.filter isSecretWrite (trace (run h (Ensure cfg) w)) = []
                 /\ run h (Ensure cfg) w
                    = mkRun (Returned (Some (Errorf "generating CA: %w" []
                                               err)))
                        (final rca) (head ++ trace rca)
             | Panicked _ => False
             end) as Hregen.
  { intros existing w2 head persisted Hhead Hpersist. cbv zeta.
    rewrite regenerate_run_cases. cbv zeta.
    destruct (noPanic_run h _ w2 (generateCA_noPanic (Config.CertValidity cfg)))
      as [rca Hca].
    rewrite Hca. destruct rca as [[[caCert caKey] caPEM]|e].
    - destruct (noPanic_run h _
                  (final (run h (generateCA (Config.CertValidity cfg)) w2))
                  (generateServerCert_noPanic caCert caKey _
                     (Config.CertValidity cfg) Hdns)) as [rsc Hsc].
      rewrite Hsc. destruct rsc as [[certPEM keyPEM]|e].
      + cbn [outcome final trace]. intros Hrun.
        apply (Hpersist caCert caKey caPEM certPEM keyPEM Hca Hsc).
        rewrite Hrun. now rewrite <- !app_assoc.
      + cbn [outcome final trace]. intros Hrun. rewrite Hrun.
        split; [|reflexivity]. cbn [trace].
        rewrite <- (app_nil_r (trace _ ++ trace _)).
        rewrite (Hfilter head caCert caKey w2 _ [] Hhead). reflexivity.
    - cbn [outcome final trace]. intros Hrun. rewrite Hrun.
      split; [|reflexivity]. cbn [trace].
      rewrite List.filter_app, Hhead.
      now destruct (generator_no_write h cfg
                      (x509.mkCertificate 0 (pkix.mkName "" []) [] 0 0 0 []
                         false false)
                      (rsa.mkPrivateKey (rsa.mkPublicKey 0 0) 0 []) [] w2 w2)
        as [-> _]. }
  split.
  - intros existing w1 Hget Hname Hrenew.
    split.
    { exact (proj1 (Ensure_upsert_writes h cfg w) existing w1 Hget Hname Hrenew). }
    assert (List.filter isSecretWrite
              (SecretsGet (Config.Namespace cfg) (Config.SecretName cfg)
               :: trace (run h (needsRenewal existing
                                  (Config.RenewalThreshold cfg)) w1)
               ++ [logRenew]) = []) as Hhead.
    { cbn [List.filter isSecretWrite]. rewrite List.filter_app.
      rewrite (filter_no_secret_op (trace (run h (needsRenewal _ _) w1))).
      2:{ apply only_trace. eapply only_weaken; [|apply needsRenewal_only].
          now intros o ->. }
      reflexivity. }
    refine (Hregen (Some existing)
              (snd (h logRenew
                      (final (run h (needsRenewal existing
                                       (Config.RenewalThreshold cfg)) w1))))
              (SecretsGet (Config.Namespace cfg) (Config.SecretName cfg)
               :: trace (run h (needsRenewal existing
                                  (Config.RenewalThreshold cfg)) w1)
               ++ [logRenew])
              (fun caPEM certPEM keyPEM wg generated =>
                 List.filter isSecretWrite (trace (run h (Ensure cfg) w))
                 = [SecretsUpdate (Config.Namespace cfg)
                      (newSecret cfg caPEM certPEM keyPEM
                         (Secret.ResourceVersion existing))]
                 /\ match
                      fst (h (SecretsUpdate (Config.Namespace cfg)
                                (newSecret cfg caPEM certPEM keyPEM
                                   (Secret.ResourceVersion existing))) wg)
                    with
                    | Some err =>
                        run h (Ensure cfg) w
                        = mkRun (Returned
                                   (Some (Errorf "updating secret: %w" []
                                            err)))
                            (snd (h (SecretsUpdate (Config.Namespace cfg)
                                       (newSecret cfg caPEM certPEM keyPEM
                                          (Secret.ResourceVersion existing)))
                                    wg))
                            (generated
                             ++ [SecretsUpdate (Config.Namespace cfg)
                                   (newSecret cfg caPEM certPEM keyPEM
                                      (Secret.ResourceVersion existing))])
                    | None =>
                        exists rest,
                          trace (run h (Ensure cfg) w)
                          = generated
                            ++ SecretsUpdate (Config.Namespace cfg)
                                 (newSecret cfg caPEM certPEM keyPEM
                                    (Secret.ResourceVersion existing))
                               :: LogInfo "updated webhook cert secret" []
                               :: MkdirAll (Config.CertDir cfg) perm_0750
                               :: rest
                    end)
              Hhead _ _).
    + intros caCert caKey caPEM certPEM keyPEM Hca. cbv zeta.
      intros Hsc Hrun.
      pose proof (persist_run_update h cfg existing caPEM certPEM keyPEM
                    (final (run h (generateServerCert caCert caKey
                                     (dnsNamesForService
                                        (Config.ServiceName cfg)
                                        (Config.Namespace cfg))
                                     (Config.CertValidity cfg))
                              (final (run h (generateCA
                                               (Config.CertValidity cfg))
                                        (snd (h logRenew
                                                (final (run h (needsRenewal existing (Config.RenewalThreshold cfg)) w1))))))))
                    Hname) as Hp.
      cbv zeta in Hp.
      destruct (persist_trace h cfg (Some existing) caPEM certPEM keyPEM
                  (final (run h (generateServerCert caCert caKey
                                   (dnsNamesForService
                                      (Config.ServiceName cfg)
                                      (Config.Namespace cfg))
                                   (Config.CertValidity cfg))
                            (final (run h (generateCA
                                             (Config.CertValidity cfg))
                                      (snd (h logRenew
                                              (final (run h (needsRenewal existing (Config.RenewalThreshold cfg)) w1)))))))))
        as (tl & Htl & Hno).
      assert (upsertOp cfg (Some existing) caPEM certPEM keyPEM
              = SecretsUpdate (Config.Namespace cfg)
                  (newSecret cfg caPEM certPEM keyPEM
                     (Secret.ResourceVersion existing))) as Hop.
      { unfold upsertOp. apply String.eqb_neq in Hname. now rewrite Hname. }
      rewrite Hop in Htl.
      split.
      * rewrite Hrun. cbn [trace]. rewrite (Hfilter _ _ _ _ _ _ Hhead), Htl.
        cbn [List.filter isSecretWrite].
        now rewrite (filter_no_secret_op tl Hno).
      * destruct (fst (h (SecretsUpdate _ _) _)) as [err|].
        -- rewrite Hrun, Hp. cbn [outcome final trace].
           now rewrite <- !app_assoc.
        -- destruct Hp as (rest & Hrest). exists rest.
           rewrite Hrun. cbn [trace]. rewrite Hrest.
           now rewrite <- !app_assoc.
    + rewrite (Ensure_run_renew h cfg w w1 existing Hget Hrenew). cbv zeta.
      f_equal. cbn [app]. now rewrite <- app_assoc.
  - intros existing err w1 Hget Hnf Hempty.
    split.
    { exact (proj2 (Ensure_upsert_writes h cfg w) existing err w1 Hget Hnf Hempty). }
    assert (List.filter isSecretWrite
              [SecretsGet (Config.Namespace cfg) (Config.SecretName cfg);
               logAbsent] = []) as Hhead by reflexivity.
    refine (Hregen existing (snd (h logAbsent w1))
              [SecretsGet (Config.Namespace cfg) (Config.SecretName cfg);
               logAbsent]
              (fun caPEM certPEM keyPEM wg generated =>
                 List.filter isSecretWrite (trace (run h (Ensure cfg) w))
                 = [SecretsCreate (Config.Namespace cfg)
                      (newSecret cfg caPEM certPEM keyPEM "")]
                 /\ match
                      fst (h (SecretsCreate (Config.Namespace cfg)
                                (newSecret cfg caPEM certPEM keyPEM "")) wg)
                    with
                    | Some err =>
                        run h (Ensure cfg) w
                        = mkRun (Returned
                                   (Some (Errorf "creating secret: %w" []
                                            err)))
                            (snd (h (SecretsCreate (Config.Namespace cfg)
                                       (newSecret cfg caPEM certPEM keyPEM
                                          "")) wg))
                            (generated
                             ++ [SecretsCreate (Config.Namespace cfg)
                                   (newSecret cfg caPEM certPEM keyPEM "")])
                    | None =>
                        exists rest,
                          trace (run h (Ensure cfg) w)
                          = generated
                            ++ SecretsCreate (Config.Namespace cfg)
                                 (newSecret cfg caPEM certPEM keyPEM "")
                               :: LogInfo "created webhook cert secret" []
                               :: MkdirAll (Config.CertDir cfg) perm_0750
                               :: rest
                    end)
              Hhead _ _).
    + intros caCert caKey caPEM certPEM keyPEM Hca. cbv zeta.
      intros Hsc Hrun.
      pose proof (persist_run_create h cfg existing caPEM certPEM keyPEM
                    (final (run h (generateServerCert caCert caKey
                                     (dnsNamesForService
                                        (Config.ServiceName cfg)
                                        (Config.Namespace cfg))
                                     (Config.CertValidity cfg))
                              (final (run h (generateCA
                                               (Config.CertValidity cfg))
                                        (snd (h logAbsent w1))))))
                    Hempty) as Hp.
      cbv zeta in Hp.
      destruct (persist_trace h cfg existing caPEM certPEM keyPEM
                  (final (run h (generateServerCert caCert caKey
                                   (dnsNamesForService
                                      (Config.ServiceName cfg)
                                      (Config.Namespace cfg))
                                   (Config.CertValidity cfg))
                            (final (run h (generateCA
                                             (Config.CertValidity cfg))
                                      (snd (h logAbsent w1)))))))
        as (tl & Htl & Hno).
      assert (upsertOp cfg existing caPEM certPEM keyPEM
              = SecretsCreate (Config.Namespace cfg)
                  (newSecret cfg caPEM certPEM keyPEM "")) as Hop.
      { unfold upsertOp.
        destruct Hempty as [->|(empty & -> & ->)]; reflexivity. }
      rewrite Hop in Htl.
      split.
      * rewrite Hrun. cbn [trace]. rewrite (Hfilter _ _ _ _ _ _ Hhead), Htl.
        cbn [List.filter isSecretWrite].
        now rewrite (filter_no_secret_op tl Hno).
      * destruct (fst (h (SecretsCreate _ _) _)) as [e|].
        -- rewrite Hrun, Hp. cbn [outcome final trace].
           now rewrite <- !app_assoc.
        -- destruct Hp as (rest & Hrest). exists rest.
           rewrite Hrun. cbn [trace]. rewrite Hrest.
           now rewrite <- !app_assoc.
    + rewrite (Ensure_run_absent h cfg w w1 existing err Hget Hnf). cbv zeta.
      reflexivity.
Qed.
End UpsertIssued.

(** ** The certificates of the generator *)

Section NotaryLaws.
Local Existing Instance Notary.lib.

Lemma Notary_parseSigned (der : bytes) (c : x509.Certificate) (n s : Z) :
  Notary.parseSigned der = Some (c, n, s) ->
  x509_ParseCertificate der = Ok c.
Proof. cbn. unfold Notary.parseCertificate. now intros ->. Qed.

Lemma Notary_created (tmpl parent : x509.Certificate) (pub : rsa.PublicKey)
    (priv : rsa.PrivateKey) (w : Ref.World) (der : bytes) :
  fst (Notary.handler (X509CreateCertificate tmpl parent pub priv) w) = Ok der ->
  Notary.parseSigned der
  = Some (issued tmpl, rsa.N pub, rsa.N (rsa.Public priv)).
Proof.
  unfold Notary.handler. cbv zeta.
  destruct (decide _) as [Hparse|_]; cbn [fst]; [|discriminate].
  intros [= <-]. exact Hparse.
Qed.

Lemma Notary_createParses : createParses Notary.handler.
Proof.
  intros tmpl parent pub priv w der Hder.
  eapply Notary_parseSigned, Notary_created, Hder.
Qed.

Lemma Notary_decodesCertificates : decodesCertificates.
Proof. intros der. reflexivity. Qed.

Lemma Notary_keysSized : keysSized Notary.handler.
Proof.
  intros bits w key. unfold Notary.handler.
  destruct (fst (Ref.handler (RsaGenerateKey bits) w)) as [k|e] eqn:Hk;
    [|discriminate].
  destruct (BitLen (rsa.N (rsa.Public k)) =? bits) eqn:Hbits;
    [|discriminate].
  rewrite Hk. intros [= <-]. now apply Z.eqb_eq.
Qed.

Lemma Notary_verifyAccepts : verifyAccepts Notary.handler Notary.verify.
Proof.
  intros tmpl parent pub priv w der rootTmpl rootParent rootPriv w0 rootDER
    usage t Hder Hroot Hparent HisCA Hbc Hsign Heku Husage Hleaf Hparent_t.
  apply Notary_created in Hder. apply Notary_created in Hroot.
  pose proof (Notary_parseSigned _ _ _ _ Hroot) as Hparse.
  rewrite Hparse in Hparent. injection Hparent as <-.
  unfold Notary.verify. rewrite Hder. cbn [existsb forallb].
  rewrite Hroot.
  assert (Notary.current t (issued tmpl) = true) as ->.
  { unfold Notary.current. apply andb_true_iff.
    split; apply Z.leb_le; lia. }
  assert (Notary.current t (issued rootTmpl) = true) as ->.
  { unfold Notary.current. apply andb_true_iff.
    split; apply Z.leb_le; lia. }
  assert (Notary.allows usage (issued tmpl) = true) as ->.
  { unfold Notary.allows. cbn [x509.ExtKeyUsage_ issued].
    destruct (x509.ExtKeyUsage_ tmpl) as [|u us] eqn:Hus; [reflexivity|].
    apply existsb_exists. exists usage. split; [exact Husage|].
    apply orb_true_iff. left. now apply bool_decide_eq_true. }
  assert (Notary.allows usage (issued rootTmpl) = true) as ->.
  { unfold Notary.allows. now rewrite Heku. }
  rewrite Z.eqb_refl, HisCA, Hbc.
  apply Z.eqb_neq in Hsign. rewrite Hsign. reflexivity.
Qed.
End NotaryLaws.

Section Contract.
Lemma truncateSecond_bounds (t : Time) :
  t - Second < truncateSecond t <= t.
Proof.
  unfold truncateSecond.
  pose proof (Z.mod_pos_bound t Second eq_refl). lia.
Qed.

Lemma truncateSecond_whole (t : Time) :
  t `mod` Second = 0 -> truncateSecond t = t.
Proof. unfold truncateSecond. lia. Qed.
End Contract.

Section Generated.
Context `{Lib} {W : Type} (h : Handler W).

(** C9. A successful [generateCA] has asked for a 4096-bit RSA key, a
    serial below 2^128 and the time, and then for a self-signed
    certificate from a template that is a CA with valid basic
    constraints, has the certificate-sign bit in its key usage, the
    common name "webhook-ca", and the window from the time read to that
    time plus the validity; it returns the key, the certificate parsed
    from the bytes made, and their PEM. Under the contract of the
    libraries the certificate returned is the template as issued: a CA,
    with the certificate-sign bit and the common name "webhook-ca", its
    window the one of the template to the second (it starts within the
    second before the time read, exactly at it when the clock and the
    validity are whole seconds); the modulus of the key has 4096 bits;
    and the PEM decodes to the bytes made. *)
Theorem generateCA_request (validity : Duration) (w : W)
    (cert : x509.Certificate) (key : rsa.PrivateKey) (certPEM : bytes) :
  outcome (run h (generateCA validity) w) = Returned (Ok (cert, key, certPEM)) ->
  exists (serial : Z) (now : Time) (certDER : bytes) (tmpl : x509.Certificate)
         (w1 w2 w3 w4 : W),
    h (RsaGenerateKey 4096) w = (Ok key, w1)
    /\ h (RandInt (2 ^ 128)) w1 = (Ok serial, w2)
    /\ h TimeNow w2 = (now, w3)
    /\ h (X509CreateCertificate tmpl tmpl (rsa.Public key) key) w3
       = (Ok certDER, w4)
    /\ trace (run h (generateCA validity) w)
       = [RsaGenerateKey 4096; RandInt (2 ^ 128); TimeNow;
          X509CreateCertificate tmpl tmpl (rsa.Public key) key]
    /\ x509.IsCA tmpl = true
    /\ x509.BasicConstraintsValid tmpl = true
    /\ Z.testbit (x509.KeyUsage tmpl) 5 = true
    /\ Z.land (x509.KeyUsage tmpl) x509.KeyUsageCertSign
       = x509.KeyUsageCertSign
    /\ x509.KeyUsage tmpl = x509.KeyUsageCertSign + x509.KeyUsageCRLSign
    /\ pkix.CommonName (x509.Subject tmpl) = "webhook-ca"
    /\ pkix.Organization (x509.Subject tmpl) = ["butane-operator"]
    /\ x509.SerialNumber tmpl = serial
    /\ x509.NotBefore tmpl = now
    /\ x509.NotAfter tmpl = now + validity
    /\ x509.DNSNames tmpl = []
    /\ x509.ExtKeyUsage_ tmpl = []
    /\ x509_ParseCertificate certDER = Ok cert
    /\ certPEM
       = pem_EncodeToMemory {| pem.Type_ := "CERTIFICATE";
                               pem.Bytes := certDER |}
    /\ (createParses h ->
        cert = issued tmpl
        /\ x509.IsCA cert = true
        /\ x509.BasicConstraintsValid cert = true
        /\ Z.testbit (x509.KeyUsage cert) 5 = true
        /\ Z.land (x509.KeyUsage cert) x509.KeyUsageCertSign
           = x509.KeyUsageCertSign
        /\ pkix.CommonName (x509.Subject cert) = "webhook-ca"
        /\ x509.ExtKeyUsage_ cert = []
        /\ x509.NotBefore cert = truncateSecond now
        /\ x509.NotAfter cert = truncateSecond (now + validity)
        /\ now - Second < x509.NotBefore cert <= now
        /\ now + validity - Second < x509.NotAfter cert <= now + validity
        /\ (now `mod` Second = 0 -> validity `mod` Second = 0 ->
            x509.NotBefore cert = now
            /\ x509.NotAfter cert = now + validity))
    /\ (keysSized h -> BitLen (rsa.N (rsa.Public key)) = 4096)
    /\ (decodesCertificates ->
        pem_Decode certPEM
        = Some {| pem.Type_ := "CERTIFICATE"; pem.Bytes := certDER |}).
Proof.
  intros Hout.
  destruct (generateCA_success h validity w cert key certPEM Hout)
    as (serial & now & certDER & tmpl & w1 & w2 & w3 & w4
        & Hkey & Hserial & Hnow & Hder & Htrace & HisCA & Hbc & Hbit & Hland
        & Hku & Hcn & Horg & Hsn & Hnb & Hna & Hdns & Heku & Hparse & Hpem).
  exists serial, now, certDER, tmpl, w1, w2, w3, w4.
  do 19 (split; [assumption|]).
  split; [|split].
  - intros Hlaw.
    assert (cert = issued tmpl) as ->.
    { pose proof (Hlaw tmpl tmpl (rsa.Public key) key w3 certDER) as Hc.
      rewrite Hder in Hc. specialize (Hc eq_refl).
      rewrite Hparse in Hc. now injection Hc. }
    cbn [issued x509.IsCA x509.BasicConstraintsValid x509.KeyUsage
         x509.Subject x509.NotBefore x509.NotAfter x509.ExtKeyUsage_].
    rewrite HisCA, Hbc, Hnb, Hna.
    pose proof (truncateSecond_bounds now).
    pose proof (truncateSecond_bounds (now + validity)).
    repeat (split; [first [assumption | reflexivity | lia]|]).
    intros Hwhole Hvalidity.
    assert ((now + validity) `mod` Second = 0) as Hend
      by (rewrite Z.add_mod, Hwhole, Hvalidity by discriminate;
          reflexivity).
    now rewrite !truncateSecond_whole.
  - intros Hlaw. apply (Hlaw 4096 w key). now rewrite Hkey.
  - intros Hlaw. rewrite Hpem. apply Hlaw.
Qed.

(** C8. A successful [generateServerCert] on a non-empty list of DNS
    names has asked for a 2048-bit RSA key, a serial and the time, and
    then for a certificate under the authority, signed with the
    authority's key, from a template that is not a CA, has the list as
    its DNS names, the first name as its common name and server
    authentication as its one extended key usage. Under the contract of
    the libraries the PEM returned decodes and parses to the template as
    issued: not a CA, with the DNS names of the input in length and
    order, the first as its common name, and the server-auth usage; the
    modulus of the key has 2048 bits; and the check of the package's
    test, verification of the decoded certificate for server
    authentication against a pool holding the authority certificate,
    accepts it at every time within the windows of the two. *)
Theorem generateServerCert_request (caCert : x509.Certificate)
    (caKey : rsa.PrivateKey) (dnsNames : list string) (validity : Duration)
    (w : W) (certPEM keyPEM : bytes) :
  dnsNames <> [] ->
  outcome (run h (generateServerCert caCert caKey dnsNames validity) w)
  = Returned (Ok (certPEM, keyPEM)) ->
  exists (key : rsa.PrivateKey) (serial : Z) (now : Time) (certDER : bytes)
         (tmpl : x509.Certificate) (w1 w2 w3 w4 : W),
    h (RsaGenerateKey 2048) w = (Ok key, w1)
    /\ h (RandInt (2 ^ 128)) w1 = (Ok serial, w2)
    /\ h TimeNow w2 = (now, w3)
    /\ h (X509CreateCertificate tmpl caCert (rsa.Public key) caKey) w3
       = (Ok certDER, w4)
    /\ trace (run h (generateServerCert caCert caKey dnsNames validity) w)
       = [RsaGenerateKey 2048; RandInt (2 ^ 128); TimeNow;
          X509CreateCertificate tmpl caCert (rsa.Public key) caKey]
    /\ x509.IsCA tmpl = false
    /\ x509.DNSNames tmpl = dnsNames
    /\ length (x509.DNSNames tmpl) = length dnsNames
    /\ (forall i, x509.DNSNames tmpl !! i = dnsNames !! i)
    /\ Some (pkix.CommonName (x509.Subject tmpl)) = head dnsNames
    /\ x509.ExtKeyUsage_ tmpl = [x509.ExtKeyUsageServerAuth]
    /\ x509.KeyUsage tmpl
       = x509.KeyUsageDigitalSignature + x509.KeyUsageKeyEncipherment
    /\ x509.SerialNumber tmpl = serial
    /\ x509.NotBefore tmpl = now
    /\ x509.NotAfter tmpl = now + validity
    /\ certPEM
       = pem_EncodeToMemory {| pem.Type_ := "CERTIFICATE";
                               pem.Bytes := certDER |}
    /\ keyPEM
       = pem_EncodeToMemory
           {| pem.Type_ := "RSA PRIVATE KEY";
              pem.Bytes := x509_MarshalPKCS1PrivateKey key |}
    /\ (createParses h -> decodesCertificates ->
        exists (block : pem.Block) (cert : x509.Certificate),
          pem_Decode certPEM = Some block
          /\ pem.Bytes block = certDER
          /\ x509_ParseCertificate (pem.Bytes block) = Ok cert
          /\ cert = issued tmpl
          /\ x509.IsCA cert = false
          /\ x509.DNSNames cert = dnsNames
          /\ length (x509.DNSNames cert) = length dnsNames
          /\ (forall i, x509.DNSNames cert !! i = dnsNames !! i)
          /\ Some (pkix.CommonName (x509.Subject cert)) = head dnsNames
          /\ x509.ExtKeyUsage_ cert = [x509.ExtKeyUsageServerAuth]
          /\ x509.NotBefore cert = truncateSecond now
          /\ x509.NotAfter cert = truncateSecond (now + validity))
    /\ (keysSized h -> BitLen (rsa.N (rsa.Public key)) = 2048)
    /\ (forall verify : Verifier,
           createParses h -> decodesCertificates ->
           verifyAccepts h verify ->
           forall (rootTmpl rootParent : x509.Certificate)
                  (rootPriv : rsa.PrivateKey) (w0 : W) (caDER : bytes)
                  (t : Time),
             fst (h (X509CreateCertificate rootTmpl rootParent
                       (rsa.Public caKey) rootPriv) w0) = Ok caDER ->
             x509_ParseCertificate caDER = Ok caCert ->
             x509.IsCA caCert = true ->
             x509.BasicConstraintsValid caCert = true ->
             Z.land (x509.KeyUsage caCert) x509.KeyUsageCertSign <> 0 ->
             x509.ExtKeyUsage_ caCert = [] ->
             truncateSecond now <= t <= truncateSecond (now + validity) ->
             x509.NotBefore caCert <= t <= x509.NotAfter caCert ->
             verifiesServerAuth verify certPEM caDER t = true).
Proof.
  intros Hne Hout.
  destruct (generateServerCert_success h caCert caKey dnsNames validity w
              certPEM keyPEM Hne Hout)
    as (key & serial & now & certDER & tmpl & w1 & w2 & w3 & w4
        & Hkey & Hserial & Hnow & Hder & Htrace & HisCA & Hdns & Hlen & Hnth
        & Hcn & Heku & Hku & Hsn & Hnb & Hna & Hpem & Hkpem).
  exists key, serial, now, certDER, tmpl, w1, w2, w3, w4.
  do 17 (split; [assumption|]).
  assert (createParses h -> x509_ParseCertificate certDER = Ok (issued tmpl))
    as Hparse.
  { intros Hlaw. apply (Hlaw tmpl caCert (rsa.Public key) caKey w3).
    now rewrite Hder. }
  split; [|split].
  - intros Hcreate Hdecode.
    exists {| pem.Type_ := "CERTIFICATE"; pem.Bytes := certDER |},
           (issued tmpl).
    split; [rewrite Hpem; apply Hdecode|]. split; [reflexivity|].
    split; [exact (Hparse Hcreate)|]. split; [reflexivity|].
    cbn [issued x509.IsCA x509.DNSNames x509.Subject x509.ExtKeyUsage_
         x509.NotBefore x509.NotAfter].
    rewrite HisCA, Hnb, Hna, andb_false_r.
    repeat (split; [first [assumption | reflexivity]|]). reflexivity.
  - intros Hlaw. apply (Hlaw 2048 w key). now rewrite Hkey.
  - intros verify Hcreate Hdecode Hverify rootTmpl rootParent rootPriv w0
      caDER t Hroot Hca HcaIsCA Hcabc Hcasign Hcaeku Ht Hcat.
    unfold verifiesServerAuth.
    rewrite Hpem, Hdecode. cbn [pem.Bytes]. rewrite (Hparse Hcreate).
    apply (Hverify tmpl caCert (rsa.Public key) caKey w3 certDER rootTmpl
             rootParent rootPriv w0 caDER x509.ExtKeyUsageServerAuth t);
      try assumption.
    + now rewrite Hder.
    + rewrite Heku. now left.
    + cbn [issued x509.NotBefore x509.NotAfter]. now rewrite Hnb, Hna.
Qed.
End Generated.

(** ** On the reference worlds *)

Section ReuseScenario.
Import Ref Scenario.

Lemma Ensure_reuse_refreshes_witness :
  let r := run handler (Ensure cfg) both in
  handler (SecretsGet (Config.Namespace cfg) (Config.SecretName cfg)) both
  = (inl record, both)
  /\ outcome (run handler
                (needsRenewal record (Config.RenewalThreshold cfg)) both)
     = Returned false
  /\ secrets (final r) = secrets both
  /\ Forall (reuseOp cfg record) (trace r)
  /\ In (MkdirAll "/tmp/certs" perm_0750) (trace r)
  /\ outcome r = Returned None
  /\ trace r
     = [SecretsGet "test-ns" "webhook-server-cert"; TimeNow; logSkip;
        MkdirAll "/tmp/certs" perm_0750;
        WriteFile "/tmp/certs/tls.crt" leaf perm_0640;
        WriteFile "/tmp/certs/tls.key" leafKey perm_0640;
        ValidatingGet "test-validating-webhook-configuration";
        ValidatingUpdate (patchedValidating authority primary);
        logValidating "test-validating-webhook-configuration";
        MutatingGet "test-mutating-webhook-configuration";
        MutatingUpdate (patchedMutating authority secondary);
        logMutating "test-validating-webhook-configuration"]
  /\ files (final r) !! "/tmp/certs/tls.crt" = Some leaf
  /\ files (final r) !! "/tmp/certs/tls.key" = Some leafKey
  /\ validating (final r) !! "test-validating-webhook-configuration"
     = Some (patchedValidating authority primary)
  /\ mutating (final r) !! "test-mutating-webhook-configuration"
     = Some (patchedMutating authority secondary).
Proof.
  cbv zeta.
  assert (handler (SecretsGet (Config.Namespace cfg) (Config.SecretName cfg))
            both = (inl record, both)) as Hfound
    by (vm_compute; reflexivity).
  assert (outcome (run handler
                     (needsRenewal record (Config.RenewalThreshold cfg))
                     both) = Returned false) as Hvalid
    by (vm_compute; reflexivity).
  destruct (Ensure_reuse_refreshes handler secrets cfg record both both
              Ref_store_frame Hfound Hvalid)
    as (Hstore & Hops & Hdir & Hrun).
  refine (conj Hfound (conj Hvalid (conj Hstore (conj Hops (conj Hdir _))))).
  rewrite Hrun.
  refine (conj _ (conj _ (conj _ (conj _ (conj _ _)))));
    vm_compute; reflexivity.
Defined.
End ReuseScenario.

Section UpsertScenario.
Import Ref Scenario ScenarioV.

Lemma Ensure_upsert_witness :
  (handler (SecretsGet (Config.Namespace cfg) (Config.SecretName cfg))
     versioned
   = (inl versionedRecord, versioned)
   /\ Secret.Name versionedRecord <> ""
   /\ Secret.ResourceVersion versionedRecord = "41"
   /\ outcome (run handler
                 (needsRenewal versionedRecord (Config.RenewalThreshold cfg))
                 versioned)
      = Returned true
   /\ outcome (run handler (Ensure cfg) versioned) = Returned None
   /\ exists caPEM certPEM keyPEM,
        List.filter isSecretWrite
          (trace (run handler (Ensure cfg) versioned))
        = [SecretsUpdate "test-ns"
             (newSecret cfg caPEM certPEM keyPEM "41")])
  /\ (handler (SecretsGet (Config.Namespace cfg) (Config.SecretName cfg)) cold
      = (inr (Some emptySecret, notFound "secrets" "webhook-server-cert"),
         cold)
      /\ outcome (run handler (Ensure cfg) cold) = Returned None
      /\ exists caPEM certPEM keyPEM,
           List.filter isSecretWrite (trace (run handler (Ensure cfg) cold))
           = [SecretsCreate "test-ns"
                (newSecret cfg caPEM certPEM keyPEM "")]).
Proof.
  split.
  - assert (handler (SecretsGet (Config.Namespace cfg) (Config.SecretName cfg))
              versioned = (inl versionedRecord, versioned)) as Hfound
      by (vm_compute; reflexivity).
    assert (Secret.Name versionedRecord <> "") as Hname
      by (vm_compute; discriminate).
    assert (outcome (run handler
                       (needsRenewal versionedRecord
                          (Config.RenewalThreshold cfg))
                       versioned) = Returned true) as Hrenew
      by (vm_compute; reflexivity).
    assert (outcome (run handler (Ensure cfg) versioned) = Returned None)
      as Hok by (vm_compute; reflexivity).
    split; [exact Hfound|]. split; [exact Hname|].
    split; [reflexivity|]. split; [exact Hrenew|]. split; [exact Hok|].
    pose proof (proj2 (proj1 (Ensure_upsert handler cfg versioned)
                         versionedRecord versioned Hfound Hname Hrenew))
      as Hrun.
    cbv beta zeta in Hrun.
    destruct (outcome (run handler (generateCA (Config.CertValidity cfg)) _))
      as [[[[caCert caKey] caPEM]|e]|msg]; [| |destruct Hrun].
    2:{ destruct Hrun as [_ Hrun]. rewrite Hrun in Hok. discriminate Hok. }
    destruct (outcome (run handler (generateServerCert caCert caKey _ _) _))
      as [[[certPEM keyPEM]|e]|msg]; [| |destruct Hrun].
    2:{ destruct Hrun as [_ Hrun]. rewrite Hrun in Hok. discriminate Hok. }
    destruct Hrun as [Hwrites _].
    exists caPEM, certPEM, keyPEM. exact Hwrites.
  - assert (handler (SecretsGet (Config.Namespace cfg) (Config.SecretName cfg))
              cold
            = (inr (Some emptySecret, notFound "secrets" "webhook-server-cert"),
               cold)) as Habsent
      by (vm_compute; reflexivity).
    assert (outcome (run handler (Ensure cfg) cold) = Returned None)
      as Hok by (vm_compute; reflexivity).
    split; [exact Habsent|]. split; [exact Hok|].
    pose proof (proj2 (proj2 (Ensure_upsert handler cfg cold)
                         (Some emptySecret)
                         (notFound "secrets" "webhook-server-cert") cold
                         Habsent eq_refl
                         (or_intror
                            (ex_intro _ emptySecret
                               (conj eq_refl eq_refl)))))
      as Hrun.
    cbv beta zeta in Hrun.
    destruct (outcome (run handler (generateCA (Config.CertValidity cfg)) _))
      as [[[[caCert caKey] caPEM]|e]|msg]; [| |destruct Hrun].
    2:{ destruct Hrun as [_ Hrun]. rewrite Hrun in Hok. discriminate Hok. }
    destruct (outcome (run handler (generateServerCert caCert caKey _ _) _))
      as [[[certPEM keyPEM]|e]|msg]; [| |destruct Hrun].
    2:{ destruct Hrun as [_ Hrun]. rewrite Hrun in Hok. discriminate Hok. }
    destruct Hrun as [Hwrites _].
    exists caPEM, certPEM, keyPEM. exact Hwrites.
Defined.
End UpsertScenario.

Section NotaryScenario.
Import Notary NotaryS.
Local Existing Instance Notary.lib.

Lemma Notary_clock (o : Op) (w : Ref.World) :
  Ref.clock (snd (handler o w)) = Ref.clock w.
Proof.
  assert (forall o', Ref.clock (snd (Ref.handler o' w)) = Ref.clock w)
    as Href.
  { intros o'. destruct o'; cbn;
      repeat match goal with
             | |- context [match ?x with _ => _ end] => destruct x
             end; reflexivity. }
  destruct o; try exact (Href _).
  - unfold handler.
    destruct (fst (Ref.handler (RsaGenerateKey bits) w));
      [destruct (_ =? _)|]; [exact (Href _) | reflexivity | reflexivity].
  - unfold handler; cbv zeta. destruct (decide _); reflexivity.
Qed.

Lemma Notary_now (w w' : Ref.World) (now : Time) :
  handler TimeNow w = (now, w') -> now = Ref.clock w.
Proof. cbn. now intros [= <- _]. Qed.

Lemma generateCA_request_witness :
  outcome (run handler (generateCA validity) cold)
  = Returned (Ok (caCert, caKey, snd madeCA))
  /\ Ref.clock cold = Scenario.start + 333333333
  /\ (exists tmpl,
         trace (run handler (generateCA validity) cold)
         = [RsaGenerateKey 4096; RandInt (2 ^ 128); TimeNow;
            X509CreateCertificate tmpl tmpl (rsa.Public caKey) caKey]
         /\ x509.IsCA tmpl = true
         /\ x509.NotBefore tmpl = Scenario.start + 333333333
         /\ x509.NotAfter tmpl = Scenario.start + 333333333 + validity
         /\ caCert = issued tmpl)
  /\ x509.IsCA caCert = true
  /\ Z.testbit (x509.KeyUsage caCert) 5 = true
  /\ pkix.CommonName (x509.Subject caCert) = "webhook-ca"
  /\ x509.NotBefore caCert = Scenario.start
  /\ x509.NotAfter caCert = Scenario.start + validity
  /\ BitLen (rsa.N (rsa.Public caKey)) = 4096
  /\ pem_Decode (snd madeCA)
     = Some {| pem.Type_ := "CERTIFICATE"; pem.Bytes := caDER |}.
Proof.
  assert (outcome (run handler (generateCA validity) cold)
          = Returned (Ok (caCert, caKey, snd madeCA))) as Hmade
    by (vm_compute; reflexivity).
  destruct (generateCA_request handler validity cold _ _ _ Hmade)
    as (serial & now & certDER & tmpl & w1 & w2 & w3 & w4
        & Hkey & Hserial & Hnow & Hder & Htrace & HisCA & _ & _ & _ & _
        & _ & _ & _ & Hnb & Hna & _ & _ & _ & Hpem & Hcert & Hsize & Hdecode).
  destruct (Hcert Notary_createParses)
    as (Hissued & HcIsCA & _ & Hbit & _ & Hcn & _ & Hcnb & Hcna & _).
  assert (now = Scenario.start + 333333333) as Hclock.
  { rewrite (Notary_now _ _ _ Hnow).
    change w2 with (snd (Ok serial, w2)). rewrite <- Hserial.
    change w1 with (snd (Ok caKey, w1)). rewrite <- Hkey.
    rewrite (Notary_clock (RandInt (2 ^ 128))),
      (Notary_clock (RsaGenerateKey 4096)).
    reflexivity. }
  rewrite Hclock in Hnb, Hna, Hcnb, Hcna.
  assert (certDER = caDER) as HcaDER.
  { unfold caDER. rewrite (Hdecode Notary_decodesCertificates).
    reflexivity. }
  refine (conj Hmade (conj eq_refl (conj _ (conj HcIsCA (conj Hbit
            (conj Hcn (conj _ (conj _ (conj (Hsize Notary_keysSized) _))))))))).
  - exists tmpl. exact (conj Htrace (conj HisCA (conj Hnb (conj Hna Hissued)))).
  - rewrite Hcnb. vm_compute. reflexivity.
  - rewrite Hcna. vm_compute. reflexivity.
  - rewrite <- HcaDER. exact (Hdecode Notary_decodesCertificates).
Defined.

Lemma generateServerCert_request_witness :
  dnsNames <> []
  /\ outcome (run handler (generateServerCert caCert caKey dnsNames validity)
                afterCA)
     = Returned (Ok madeLeaf)
  /\ (exists (block : pem.Block) (cert : x509.Certificate),
         pem_Decode (fst madeLeaf) = Some block
         /\ x509_ParseCertificate (pem.Bytes block) = Ok cert
         /\ x509.IsCA cert = false
         /\ x509.DNSNames cert = ["svc.ns.svc"; "svc.ns.svc.cluster.local"]
         /\ pkix.CommonName (x509.Subject cert) = "svc.ns.svc"
         /\ x509.ExtKeyUsage_ cert = [x509.ExtKeyUsageServerAuth]
         /\ x509.NotBefore cert = Scenario.start
         /\ x509.NotAfter cert = Scenario.start + validity)
  /\ (exists key : rsa.PrivateKey,
         snd madeLeaf
         = pem_EncodeToMemory
             {| pem.Type_ := "RSA PRIVATE KEY";
                pem.Bytes := x509_MarshalPKCS1PrivateKey key |}
         /\ BitLen (rsa.N (rsa.Public key)) = 2048)
  /\ x509_ParseCertificate caDER = Ok caCert
  /\ verifiesServerAuth verify (fst madeLeaf) caDER
       (Scenario.start + Scenario.day) = true
  /\ verifiesServerAuth verify (fst madeLeaf) caDER (Scenario.start - 1)
     = false
  /\ verifiesServerAuth verify (fst madeLeaf) (pem.Bytes
       {| pem.Type_ := "CERTIFICATE"; pem.Bytes := [] |})
       (Scenario.start + Scenario.day) = false.
Proof.
  assert (dnsNames <> []) as Hne by discriminate.
  assert (outcome (run handler
                     (generateServerCert caCert caKey dnsNames validity)
                     afterCA)
          = Returned (Ok (fst madeLeaf, snd madeLeaf))) as Hmade
    by (vm_compute; reflexivity).
  assert (outcome (run handler (generateCA validity) cold)
          = Returned (Ok (caCert, caKey, snd madeCA))) as Hroot
    by (vm_compute; reflexivity).
  destruct (generateCA_success handler validity cold _ _ _ Hroot)
    as (rootSerial & rootNow & rootDER & rootTmpl & v1 & v2 & w0 & v4
        & _ & _ & _ & Hrootder & _ & _ & _ & _ & _ & _ & _ & _ & _ & _ & _
        & _ & _ & Hrootparse & Hrootpem).
  assert (rootDER = caDER) as HcaDER.
  { unfold caDER. rewrite Hrootpem, Notary_decodesCertificates.
    reflexivity. }
  rewrite HcaDER in Hrootder, Hrootparse.
  destruct (generateServerCert_request handler caCert caKey dnsNames
              validity afterCA _ _ Hne Hmade)
    as (key & serial & now & certDER & tmpl & w1 & w2 & w3 & w4
        & Hkey & Hserial & Hnow & Hder & Htrace & _ & _ & _ & _ & _ & _ & _
        & _ & _ & _ & _ & Hkpem & Hcert & Hsize & Hverify).
  destruct (Hcert Notary_createParses Notary_decodesCertificates)
    as (block & cert & Hblock & _ & Hparse & _ & HisCA & Hdns & _ & _ & Hcn
        & Heku & Hcnb & Hcna).
  assert (now = Scenario.start + 333333333) as Hclock.
  { rewrite (Notary_now _ _ _ Hnow).
    change w2 with (snd (Ok serial, w2)). rewrite <- Hserial.
    change w1 with (snd (Ok key, w1)). rewrite <- Hkey.
    rewrite (Notary_clock (RandInt (2 ^ 128))),
      (Notary_clock (RsaGenerateKey 2048)).
    vm_compute. reflexivity. }
  rewrite Hclock in Hcnb, Hcna.
  refine (conj Hne (conj _ (conj _ (conj _ (conj Hrootparse
            (conj _ (conj _ _))))))).
  - vm_compute. reflexivity.
  - exists block, cert.
    refine (conj Hblock (conj Hparse (conj HisCA (conj Hdns (conj _
              (conj Heku (conj _ _))))))).
    + injection Hcn as ->. reflexivity.
    + rewrite Hcnb. vm_compute. reflexivity.
    + rewrite Hcna. vm_compute. reflexivity.
  - exists key. exact (conj Hkpem (Hsize Notary_keysSized)).
  - apply (Hverify verify Notary_createParses Notary_decodesCertificates
             Notary_verifyAccepts rootTmpl rootTmpl caKey w0 caDER
             (Scenario.start + Scenario.day)).
    + exact (f_equal fst Hrootder).
    + exact Hrootparse.
    + vm_compute. reflexivity.
    + vm_compute. reflexivity.
    + vm_compute. discriminate.
    + vm_compute. reflexivity.
    + rewrite Hclock. vm_compute. split; discriminate.
    + vm_compute. split; discriminate.
  - vm_compute. reflexivity.
  - vm_compute. reflexivity.
Defined.
End NotaryScenario.

(** * Further properties of the package *)

(** ** [writeCertsToDisk] *)

Section WriteCerts.
Context `{Lib} {W : Type} (h : Handler W).
Context (certDir : string) (certPEM keyPEM : bytes) (w : W).

(** X1. [writeCertsToDisk] makes the directory, writes [tls.crt], writes
    [tls.key], in this order and each once, and stops at the first
    operation that fails, returning that error wrapped with its own
    context: after a failed [MkdirAll] no file is written, after a failed
    write of [tls.crt] the key is not written. It returns nil exactly
    when all three operations succeeded. *)
Theorem writeCertsToDisk_stops_at_first_failure :
  let r := run h (writeCertsToDisk certDir certPEM keyPEM) w in
  let mkdir := MkdirAll certDir perm_0750 in
  let crt := WriteFile (filepath_Join certDir "tls.crt") certPEM perm_0640 in
  let key := WriteFile (filepath_Join certDir "tls.key") keyPEM perm_0640 in
  let w1 := snd (h mkdir w) in
  let w2 := snd (h crt w1) in
  let w3 := snd (h key w2) in
  match fst (h mkdir w) with
  | Some err =>
      r = mkRun (Returned (Some (Errorf "creating cert dir %s: %w" [certDir]
                                   err)))
            w1 [mkdir]
  | None =>
      match fst (h crt w1) with
      | Some err =>
          r = mkRun (Returned (Some (Errorf "writing tls.crt: %w" [] err)))
                w2 [mkdir; crt]
      | None =>
          match fst (h key w2) with
          | Some err =>
              r = mkRun (Returned (Some (Errorf "writing tls.key: %w" []
                                           err)))
                    w3 [mkdir; crt; key]
          | None => r = mkRun (Returned None) w3 [mkdir; crt; key]
          end
      end
  end
  /\ (outcome r = Returned None <->
      fst (h mkdir w) = None /\ fst (h crt w1) = None
      /\ fst (h key w2) = None).
Proof.
  cbv zeta. unfold writeCertsToDisk. prog_simpl. rewrite !run_vis.
  destruct (fst (h (MkdirAll _ _) w)) as [e1|].
  { split; [reflexivity|].
    split; [discriminate | intros (? & _); discriminate]. }
  rewrite !run_vis.
  destruct (fst (h (WriteFile _ certPEM _) _)) as [e2|].
  { split; [reflexivity|].
    split; [discriminate | intros (_ & ? & _); discriminate]. }
  rewrite !run_vis.
  destruct (fst (h (WriteFile _ keyPEM _) _)) as [e3|].
  { split; [reflexivity|].
    split; [discriminate | intros (_ & _ & ?); discriminate]. }
  split; [reflexivity|]. split; auto.
Qed.
End WriteCerts.

(** ** [Ensure]: what it returns, and in what order it works *)

Section StaticFacts.
Context {W : Type} (h : Handler W).

Lemma returns_run {A} (P : A -> Prop) (p : Prog A) (w : W) (a : A) :
  returns P p -> outcome (run h p w) = Returned a -> P a.
Proof.
  revert w; induction p as [a'|msg|o k IH]; intros w Hp; cbn.
  - now intros [= <-].
  - discriminate.
  - apply IH, Hp.
Qed.

Global Instance follows_transitive : Transitive follows.
Proof. intros s t u; unfold follows; lia. Qed.

(** The stages of the operations a [pipeline] program issues come in an
    order in which each may follow the one before. *)
Lemma pipeline_trace {A} (p : Prog A) :
  forall (prev : option nat) (w : W),
    pipeline prev p ->
    Sorted follows (omap stage (trace (run h p w)))
    /\ (forall s, prev = Some s ->
                  HdRel follows s (omap stage (trace (run h p w)))).
Proof.
  induction p as [a|msg|o k IH]; intros prev w Hp.
  - cbn. split; [constructor | intros; constructor].
  - cbn. split; [constructor | intros; constructor].
  - cbn [run trace omap list_omap pipeline] in *.
    destruct (stage o) as [t|].
    + destruct Hp as [Hprev Hk].
      destruct (IH (fst (h o w)) (Some t) (snd (h o w)) (Hk _))
        as [Hsorted Hhd].
      split.
      * constructor; [exact Hsorted | now apply Hhd].
      * intros s ->. now constructor.
    + apply (IH (fst (h o w)) prev (snd (h o w)) (Hp _)).
Qed.

Lemma pipeline_sorted {A} (p : Prog A) (w : W) :
  pipeline None p ->
  StronglySorted follows (omap stage (trace (run h p w))).
Proof.
  intros Hp. apply Sorted_StronglySorted; [exact follows_transitive|].
  now apply (pipeline_trace p None w).
Qed.
End StaticFacts.

Section EnsureStatic.
Context `{Lib}.

Lemma Ensure_pipeline (cfg : Config.t) : pipeline None (Ensure cfg).
Proof.
  unfold Ensure, regenerate, persist, needsRenewal, time_Until, generateCA,
    generateServerCert, writeCertsToDisk, patchWebhookConfig, patchMutating,
    dnsNamesForService.
  cbn [lookup list_lookup]. stage_walk.
Qed.

Lemma Ensure_returns_wrapped (cfg : Config.t) :
  returns nilOrWrapped (Ensure cfg).
Proof.
  unfold Ensure, regenerate, persist, needsRenewal, time_Until, generateCA,
    generateServerCert, writeCertsToDisk, patchWebhookConfig, patchMutating,
    dnsNamesForService.
  cbn [lookup list_lookup]. stage_walk.
Qed.

Lemma Ensure_noPanic (cfg : Config.t) : noPanic (Ensure cfg).
Proof.
  unfold Ensure, regenerate, persist, needsRenewal, time_Until, generateCA,
    generateServerCert, writeCertsToDisk, patchWebhookConfig, patchMutating,
    dnsNamesForService.
  cbn [lookup list_lookup].
  repeat (prog_simpl;
          match goal with
          | |- True => exact I
          | |- forall _, _ => intro
          | |- noPanic ?p =>
              match p with
              | context [match ?x with _ => _ end] => destruct x
              end
          end).
Qed.
End EnsureStatic.

Section EnsureOrder.
Context `{Lib} {W : Type} (h : Handler W) (cfg : Config.t) (w : W).

(** X2. [Ensure] cannot panic: from every world and whatever it is
    answered it returns, and what it returns is nil or an error made by
    [fmt.Errorf] around its cause, never a bare error of the client, the
    disk or the generator. *)
Theorem Ensure_returns_nil_or_wrapped :
  exists e : error,
    outcome (run h (Ensure cfg) w) = Returned e
    /\ (e = None \/ exists msg cause, e = Some (WrapError msg cause)).
Proof.
  destruct (noPanic_run h (Ensure cfg) w (Ensure_noPanic cfg)) as [e He].
  exists e. split; [exact He|].
  pose proof (returns_run h _ _ w e (Ensure_returns_wrapped cfg) He) as Hw.
  destruct e as [[| |msg cause]|]; cbn in Hw; try contradiction; eauto.
Qed.

(** X3. The operations of [Ensure] come in the order of its stages, the
    log lines apart: the [Get] of the Secret, then the clock and the
    generator, then the write of the Secret, then [MkdirAll], then the
    file writes, then the [Get] and the [Update] of the validating
    configuration, then those of the mutating one. An operation of a
    stage is never followed by one of an earlier stage, and only the
    clock and generator stage and the file-write stage hold more than one
    operation; in particular nothing touches a Secret or the disk once a
    webhook configuration has been fetched, and nothing touches a Secret
    once the disk has been. *)
Theorem Ensure_forward_only :
  let tr := trace (run h (Ensure cfg) w) in
  StronglySorted follows (omap stage tr)
  /\ (forall pre o post s,
         tr = pre ++ o :: post -> stage o = Some s ->
         Forall (fun o' => forall t, stage o' = Some t -> follows s t) post)
  /\ (forall pre o post,
         tr = pre ++ o :: post -> isWebhookOp o = true ->
         Forall (fun o' => isSecretOp o' = false /\ isDiskOp o' = false) post)
  /\ (forall pre o post,
         tr = pre ++ o :: post -> isDiskOp o = true ->
         Forall (fun o' => isSecretOp o' = false) post)
  /\ (forall pre o post,
         tr = pre ++ o :: post -> isSecretOp o = true ->
         Forall (fun o' => o' <> o /\ forall ns n, o' <> SecretsGet ns n)
                post).
Proof.
  cbv zeta.
  pose proof (pipeline_sorted h (Ensure cfg) w (Ensure_pipeline cfg))
    as Hsorted.
  assert (forall pre o post s,
             trace (run h (Ensure cfg) w) = pre ++ o :: post ->
             stage o = Some s ->
             Forall (fun o' => forall t, stage o' = Some t -> follows s t)
                    post) as Hafter.
  { intros pre o post s Htr Hs. rewrite Htr in Hsorted.
    rewrite omap_app in Hsorted. cbn [omap list_omap] in Hsorted.
    rewrite Hs in Hsorted.
    apply StronglySorted_app in Hsorted as (_ & _ & Hsorted).
    apply StronglySorted_cons in Hsorted as [Hall _].
    apply Forall_forall. intros o' Ho' t Ht.
    rewrite Forall_forall in Hall.
    apply Hall, list_elem_of_omap. eauto. }
  split; [exact Hsorted|]. split; [exact Hafter|].
  split; [|split].
  - intros pre o post Htr Ho.
    destruct (stage o) as [s|] eqn:Hs; [|now destruct o].
    eapply Forall_impl; [exact (Hafter pre o post s Htr Hs)|].
    intros o' Ho'. unfold follows in Ho'.
    destruct o; try discriminate; injection Hs as <-;
      destruct o'; (split; [reflexivity || (specialize (Ho' _ eq_refl); lia)
                           | reflexivity || (specialize (Ho' _ eq_refl); lia)]).
  - intros pre o post Htr Ho.
    destruct (stage o) as [s|] eqn:Hs; [|now destruct o].
    eapply Forall_impl; [exact (Hafter pre o post s Htr Hs)|].
    intros o' Ho'. unfold follows in Ho'.
    destruct o; try discriminate; injection Hs as <-;
      destruct o'; reflexivity || (specialize (Ho' _ eq_refl); lia).
  - intros pre o post Htr Ho.
    destruct (stage o) as [s|] eqn:Hs; [|now destruct o].
    eapply Forall_impl; [exact (Hafter pre o post s Htr Hs)|].
    intros o' Ho'. unfold follows in Ho'.
    destruct o; try discriminate; injection Hs as <-;
      (split; [intros -> | intros ns n ->]);
      specialize (Ho' _ eq_refl); lia.
Qed.

(** X4. When the [Get] of the Secret fails with anything but not-found,
    [Ensure] returns that error, wrapped with the namespace and the name
    of the Secret, and has issued nothing else: no generation, no write,
    no propagation. *)
Theorem Ensure_get_error (existing : option Secret.t) (err : Error) (w1 : W) :
  h (SecretsGet (Config.Namespace cfg) (Config.SecretName cfg)) w
  = (inr (existing, err), w1) ->
  IsNotFound err = false ->
  run h (Ensure cfg) w
  = mkRun (Returned
             (Some (Errorf "getting secret %s/%s: %w"
                      [Config.Namespace cfg; Config.SecretName cfg] err)))
          w1 [SecretsGet (Config.Namespace cfg) (Config.SecretName cfg)].
Proof.
  intros Hget Hnf. unfold Ensure. prog_simpl.
  rewrite run_vis, Hget. cbn [fst snd]. rewrite Hnf. reflexivity.
Qed.
End EnsureOrder.

(** ** [Ensure]: one pass, one material *)

Section Material.
Context `{Lib} {W : Type} (h : Handler W).

Lemma patchWebhookConfig_first (name : string) (ca : bytes) (w : W) :
  exists rest,
    trace (run h (patchWebhookConfig name ca) w) = ValidatingGet name :: rest.
Proof.
  unfold patchWebhookConfig. prog_simpl. rewrite run_vis. cbn [trace]. eauto.
Qed.

Lemma patch_material (cfg : Config.t) (caPEM certPEM keyPEM : bytes) (w : W) :
  Forall (materialOp cfg caPEM certPEM keyPEM)
    (trace (run h (patchWebhookConfig (Config.WebhookConfigName cfg) caPEM)
              w)).
Proof.
  apply only_trace. eapply only_weaken; [|apply patchWebhookConfig_only].
  intros [] Ho; cbn in *; auto; contradiction.
Qed.

(** The run of the files and the propagation that end a regeneration,
    when it succeeds. *)
Lemma persist_rest_success (cfg : Config.t) (caPEM certPEM keyPEM : bytes)
    (w : W) :
  let rest : Prog error :=
    e ← writeCertsToDisk (Config.CertDir cfg) certPEM keyPEM;
    match e with
    | Some err => mret (Some (Errorf "writing certs to disk: %w" [] err))
    | None =>
        call (LogInfo "wrote webhook certs to disk"
                ["dir"; Config.CertDir cfg]);;
        patchWebhookConfig (Config.WebhookConfigName cfg) caPEM
    end in
  outcome (run h rest w) = Returned None ->
  exists wp,
    trace (run h rest w)
    = [MkdirAll (Config.CertDir cfg) perm_0750;
       WriteFile (filepath_Join (Config.CertDir cfg) "tls.crt") certPEM
         perm_0640;
       WriteFile (filepath_Join (Config.CertDir cfg) "tls.key") keyPEM
         perm_0640;
       logWrote cfg]
      ++ trace (run h (patchWebhookConfig (Config.WebhookConfigName cfg)
                         caPEM) wp)
    /\ outcome (run h (patchWebhookConfig (Config.WebhookConfigName cfg)
                         caPEM) wp) = Returned None.
Proof.
  cbv zeta. rewrite run_bind.
  destruct (writeCertsToDisk_run h (Config.CertDir cfg) certPEM keyPEM w)
    as [(err & Herr)|(Hok & Hfiles)].
  - rewrite Herr. cbn. discriminate.
  - rewrite Hok, Hfiles. cbv zeta. prog_simpl. rewrite run_vis.
    cbn [outcome trace]. intros Hout. eexists. split; [reflexivity|].
    exact Hout.
Qed.

(** The run of [persist], when it succeeds: the write of the Secret, a
    log line, the files, a log line, the propagation. *)
Lemma persist_success (cfg : Config.t) (existing : option Secret.t)
    (caPEM certPEM keyPEM : bytes) (w : W) :
  outcome (run h (persist cfg existing caPEM certPEM keyPEM) w)
  = Returned None ->
  exists (logged : Op) (wp : W),
    stage logged = None
    /\ trace (run h (persist cfg existing caPEM certPEM keyPEM) w)
       = upsertOp cfg existing caPEM certPEM keyPEM
         :: logged
         :: [MkdirAll (Config.CertDir cfg) perm_0750;
             WriteFile (filepath_Join (Config.CertDir cfg) "tls.crt") certPEM
               perm_0640;
             WriteFile (filepath_Join (Config.CertDir cfg) "tls.key") keyPEM
               perm_0640;
             logWrote cfg]
         ++ trace (run h (patchWebhookConfig (Config.WebhookConfigName cfg)
                            caPEM) wp)
    /\ outcome (run h (patchWebhookConfig (Config.WebhookConfigName cfg)
                         caPEM) wp) = Returned None.
Proof.
  unfold persist, upsertOp.
  destruct existing as [ex|]; [destruct (String.eqb (Secret.Name ex) "")|];
    cbn [negb]; prog_simpl; rewrite run_vis;
    match goal with
    | |- context [fst (h ?o w)] => destruct (fst (h o w)) as [err|]
    end;
    try (cbn; discriminate);
    (rewrite run_vis; cbn [outcome trace]; intros Hout;
     destruct (persist_rest_success cfg caPEM certPEM keyPEM _ Hout)
       as (wp & Htr & Hp);
     eexists _, wp; refine (conj _ (conj _ Hp));
     [|match goal with
       | |- ?o1 :: ?o2 :: _ = _ =>
           exact (f_equal (fun l => o1 :: o2 :: l) Htr)
       end];
     reflexivity).
Qed.

(** The run of [regenerate], when it succeeds: the authority, the leaf
    under that authority, then [persist] with what the two returned. *)
Lemma regenerate_success (cfg : Config.t) (dnsNames : list string)
    (existing : option Secret.t) (w : W) :
  outcome (run h (regenerate cfg dnsNames existing) w) = Returned None ->
  exists caCert caKey caPEM certPEM keyPEM,
    let rca := run h (generateCA (Config.CertValidity cfg)) w in
    let rsc := run h (generateServerCert caCert caKey dnsNames
                        (Config.CertValidity cfg)) (final rca) in
    let rp := run h (persist cfg existing caPEM certPEM keyPEM) (final rsc) in
    outcome rca = Returned (Ok (caCert, caKey, caPEM))
    /\ outcome rsc = Returned (Ok (certPEM, keyPEM))
    /\ outcome rp = Returned None
    /\ trace (run h (regenerate cfg dnsNames existing) w)
       = trace rca ++ trace rsc ++ trace rp.
Proof.
  unfold regenerate. rewrite run_bind.
  destruct (outcome (run h (generateCA _) w))
    as [[[[caCert caKey] caPEM]|e]|msg] eqn:Hca;
    [|cbn; discriminate..].
  cbv zeta. rewrite run_bind. cbn [outcome trace].
  destruct (outcome (run h (generateServerCert _ _ _ _) _))
    as [[[certPEM keyPEM]|e]|msg] eqn:Hsc;
    [|cbn; discriminate..].
  cbv zeta. cbn [outcome trace]. intros Hout.
  exists caCert, caKey, caPEM, certPEM, keyPEM. cbv zeta.
  rewrite ?Hca, ?Hsc.
  split; [reflexivity|]. split; [reflexivity|]. split; [exact Hout|].
  reflexivity.
Qed.

Lemma generateCA_stage (validity : Duration) :
  only (fun o => stage o = Some 1%nat) (generateCA validity).
Proof. unfold generateCA. prog_walk; reflexivity. Qed.

Lemma generateServerCert_stage (caCert : x509.Certificate)
    (caKey : rsa.PrivateKey) (dnsNames : list string) (validity : Duration) :
  only (fun o => stage o = Some 1%nat)
       (generateServerCert caCert caKey dnsNames validity).
Proof. unfold generateServerCert. prog_walk; reflexivity. Qed.

Lemma stage_1_harmless (o : Op) : stage o = Some 1%nat -> harmless o.
Proof. now destruct o. Qed.

Lemma stage_none_harmless (o : Op) : stage o = None -> harmless o.
Proof. now destruct o. Qed.

Lemma harmless_material (cfg : Config.t) (caPEM certPEM keyPEM : bytes)
    (o : Op) :
  harmless o -> materialOp cfg caPEM certPEM keyPEM o.
Proof. intros (Hd & Hw & Hs). now destruct o. Qed.

Lemma upsertOp_material (cfg : Config.t) (existing : option Secret.t)
    (caPEM certPEM keyPEM : bytes) :
  materialOp cfg caPEM certPEM keyPEM
    (upsertOp cfg existing caPEM certPEM keyPEM).
Proof.
  unfold upsertOp.
  destruct existing as [ex|]; [destruct (String.eqb (Secret.Name ex) "")|];
    cbn; eauto.
Qed.

Lemma patch_quiet (name : string) (ca : bytes) (w : W) :
  Forall (fun o => isSecretOp o = false /\ isDiskOp o = false)
    (trace (run h (patchWebhookConfig name ca) w)).
Proof.
  apply only_trace. eapply only_weaken; [|apply patchWebhookConfig_only].
  intros [] Ho; cbn in *; auto; contradiction.
Qed.

(** The run of [regenerate], when it succeeds, as one list. *)
Lemma regenerate_material (cfg : Config.t) (dnsNames : list string)
    (existing : option Secret.t) (w : W) :
  outcome (run h (regenerate cfg dnsNames existing) w) = Returned None ->
  exists (caPEM certPEM keyPEM : bytes) (gen : list Op) (logged : Op)
         (wp : W),
    trace (run h (regenerate cfg dnsNames existing) w)
    = (gen ++ [upsertOp cfg existing caPEM certPEM keyPEM; logged])
      ++ [MkdirAll (Config.CertDir cfg) perm_0750;
          WriteFile (filepath_Join (Config.CertDir cfg) "tls.crt") certPEM
            perm_0640;
          WriteFile (filepath_Join (Config.CertDir cfg) "tls.key") keyPEM
            perm_0640]
      ++ logWrote cfg
         :: trace (run h (patchWebhookConfig (Config.WebhookConfigName cfg)
                            caPEM) wp)
    /\ Forall harmless gen
    /\ harmless logged.
Proof.
  intros Hout.
  destruct (regenerate_success cfg dnsNames existing w Hout)
    as (caCert & caKey & caPEM & certPEM & keyPEM & Hca & Hsc & Hp & Htr).
  cbv zeta in *.
  destruct (persist_success cfg existing caPEM certPEM keyPEM _ Hp)
    as (logged & wp & Hlog & Hptr & _).
  exists caPEM, certPEM, keyPEM.
  exists (trace (run h (generateCA (Config.CertValidity cfg)) w)
          ++ trace (run h (generateServerCert caCert caKey dnsNames
                             (Config.CertValidity cfg))
                      (final (run h (generateCA (Config.CertValidity cfg))
                                w)))).
  exists logged, wp.
  split; [|split].
  - rewrite Htr, Hptr. rewrite <- !app_assoc. reflexivity.
  - apply Forall_app_2;
      (eapply Forall_impl; [apply only_trace|exact stage_1_harmless]).
    + apply generateCA_stage.
    + apply generateServerCert_stage.
  - now apply stage_none_harmless.
Qed.
End Material.

(** ** [Ensure]: what a nil return means *)

Section OneMaterial.
Context `{Lib} {W : Type} (h : Handler W) (cfg : Config.t).

Lemma upsertOp_kind (existing : option Secret.t)
    (caPEM certPEM keyPEM : bytes) :
  isDiskOp (upsertOp cfg existing caPEM certPEM keyPEM) = false
  /\ isWebhookOp (upsertOp cfg existing caPEM certPEM keyPEM) = false.
Proof.
  unfold upsertOp.
  destruct existing as [ex|]; [destruct (String.eqb (Secret.Name ex) "")|];
    now cbn.
Qed.

Lemma harmless_kind (o : Op) :
  harmless o -> isDiskOp o = false /\ isWebhookOp o = false.
Proof. now intros (Hd & Hw & _). Qed.

(** A successful regeneration after the harmless operations [head]. *)
Lemma regenerate_one_material (dnsNames : list string)
    (existing : option Secret.t) (w : W) (head : list Op) :
  Forall harmless head ->
  outcome (run h (regenerate cfg dnsNames existing) w) = Returned None ->
  exists (caPEM certPEM keyPEM : bytes) (pre post : list Op),
    head ++ trace (run h (regenerate cfg dnsNames existing) w)
    = pre
      ++ [MkdirAll (Config.CertDir cfg) perm_0750;
          WriteFile (filepath_Join (Config.CertDir cfg) "tls.crt") certPEM
            perm_0640;
          WriteFile (filepath_Join (Config.CertDir cfg) "tls.key") keyPEM
            perm_0640]
      ++ post
    /\ Forall (fun o => isDiskOp o = false /\ isWebhookOp o = false) pre
    /\ ValidatingGet (Config.WebhookConfigName cfg) ∈ post
    /\ Forall (fun o => isSecretOp o = false /\ isDiskOp o = false) post
    /\ Forall (materialOp cfg caPEM certPEM keyPEM)
         (head ++ trace (run h (regenerate cfg dnsNames existing) w))
    /\ upsertOp cfg existing caPEM certPEM keyPEM ∈ pre.
Proof.
  intros Hhead Hout.
  destruct (regenerate_material h cfg dnsNames existing w Hout)
    as (caPEM & certPEM & keyPEM & gen & logged & wp & Htr & Hgen & Hlog).
  destruct (patchWebhookConfig_first h (Config.WebhookConfigName cfg) caPEM
              wp) as (rest & Hfirst).
  exists caPEM, certPEM, keyPEM.
  exists (head ++ gen ++ [upsertOp cfg existing caPEM certPEM keyPEM; logged]).
  exists (logWrote cfg
          :: trace (run h (patchWebhookConfig (Config.WebhookConfigName cfg)
                             caPEM) wp)).
  split; [rewrite Htr, <- !app_assoc; reflexivity|].
  split.
  { apply Forall_app_2;
      [eapply Forall_impl; [exact Hhead|exact harmless_kind]|].
    apply Forall_app_2;
      [eapply Forall_impl; [exact Hgen|exact harmless_kind]|].
    apply Forall_cons_2; [apply upsertOp_kind|].
    apply Forall_cons_2; [now apply harmless_kind|constructor]. }
  split; [rewrite Hfirst; set_solver|].
  split; [apply Forall_cons_2; [now cbn|apply patch_quiet]|].
  split; [|set_solver].
  rewrite Htr.
  apply Forall_app_2;
    [eapply Forall_impl; [exact Hhead|apply harmless_material]|].
  apply Forall_app_2; [apply Forall_app_2|].
  - eapply Forall_impl; [exact Hgen|apply harmless_material].
  - apply Forall_cons_2; [apply upsertOp_material|].
    apply Forall_cons_2; [now apply harmless_material|constructor].
  - apply Forall_cons_2; [now cbn|].
    apply Forall_cons_2; [cbn; auto|].
    apply Forall_cons_2; [cbn; auto|].
    apply Forall_cons_2; [now cbn|apply patch_material].
Qed.

Lemma needsRenewal_harmless (existing : Secret.t) (threshold : Duration)
    (w : W) :
  Forall harmless (trace (run h (needsRenewal existing threshold) w)).
Proof.
  apply only_trace. eapply only_weaken; [|apply needsRenewal_only].
  now intros o ->.
Qed.

(** X5. When [Ensure] returns nil, everything it wrote in that pass is
    one and the same material. There are an authority certificate, a
    leaf certificate and a key such that the trace is: operations that
    touch neither the disk nor a webhook configuration; then [MkdirAll]
    on the certificate directory and the writes of [tls.crt] and
    [tls.key] holding that leaf and that key, one after the other; then
    the propagation, which fetches the configured validating
    configuration and touches neither a Secret nor the disk. Every
    Secret written holds the three blobs and every webhook configuration
    updated carries that authority in every entry. The material is
    either what the record found holds, and then no Secret is written,
    or what the write of the Secret (an [Update] over the record found,
    a [Create] otherwise) carries. *)
Theorem Ensure_success_one_material (w : W) :
  let get := SecretsGet (Config.Namespace cfg) (Config.SecretName cfg) in
  let tr := trace (run h (Ensure cfg) w) in
  outcome (run h (Ensure cfg) w) = Returned None ->
  exists (caPEM certPEM keyPEM : bytes) (pre post : list Op),
    tr
    = pre
      ++ [MkdirAll (Config.CertDir cfg) perm_0750;
          WriteFile (filepath_Join (Config.CertDir cfg) "tls.crt") certPEM
            perm_0640;
          WriteFile (filepath_Join (Config.CertDir cfg) "tls.key") keyPEM
            perm_0640]
      ++ post
    /\ Forall (fun o => isDiskOp o = false /\ isWebhookOp o = false) pre
    /\ ValidatingGet (Config.WebhookConfigName cfg) ∈ post
    /\ Forall (fun o => isSecretOp o = false /\ isDiskOp o = false) post
    /\ Forall (materialOp cfg caPEM certPEM keyPEM) tr
    /\ match fst (h get w) with
       | inl existing =>
           (caPEM = Secret.Data existing !!! "ca.crt"
            /\ certPEM = Secret.Data existing !!! "tls.crt"
            /\ keyPEM = Secret.Data existing !!! "tls.key"
            /\ Forall (fun o => isSecretWrite o = false) tr)
           \/ upsertOp cfg (Some existing) caPEM certPEM keyPEM ∈ pre
       | inr (existing, _) =>
           upsertOp cfg existing caPEM certPEM keyPEM ∈ pre
       end.
Proof.
  cbv zeta.
  destruct (h (SecretsGet (Config.Namespace cfg) (Config.SecretName cfg)) w)
    as [[existing|[existing err]] w1] eqn:Hget; cbn [fst].
  - destruct (noPanic_run h _ w1
                (needsRenewal_noPanic existing (Config.RenewalThreshold cfg)))
      as [[|] Hrn].
    + rewrite (Ensure_run_renew h cfg w w1 existing Hget Hrn).
      cbv zeta. cbn [outcome trace]. intros Hout.
      match goal with
      | |- context [run h (regenerate cfg ?d ?e) ?w'] =>
          destruct (regenerate_one_material d e w'
                      (SecretsGet (Config.Namespace cfg)
                         (Config.SecretName cfg)
                       :: trace (run h (needsRenewal existing
                                          (Config.RenewalThreshold cfg)) w1)
                       ++ [logRenew]))
            as (ca & crt & key & pre & post & Htr & Hpre & Hget' & Hpost
                & Hmat & Hup);
          [|exact Hout|]
      end.
      { apply Forall_cons_2; [now cbn|].
        apply Forall_app_2; [apply needsRenewal_harmless|].
        apply Forall_cons_2; [now cbn|constructor]. }
      cbn [app] in Htr, Hmat. rewrite <- app_assoc in Htr, Hmat.
      cbn [app] in Htr, Hmat.
      exists ca, crt, key, pre, post.
      refine (conj Htr (conj Hpre (conj Hget' (conj Hpost (conj Hmat _))))).
      right. exact Hup.
    + rewrite (Ensure_run_reuse h cfg w w1 existing Hget Hrn). cbv zeta.
      destruct (writeCertsToDisk_run h (Config.CertDir cfg)
                  (Secret.Data existing !!! "tls.crt")
                  (Secret.Data existing !!! "tls.key")
                  (snd (h logSkip
                          (final (run h (needsRenewal existing
                                           (Config.RenewalThreshold cfg))
                                    w1)))))
        as [(err & Herr)|(Hok & Hfiles)].
      { rewrite Herr. cbn. discriminate. }
      rewrite Hok, Hfiles. cbn [outcome trace]. intros Hout.
      destruct (patchWebhookConfig_first h (Config.WebhookConfigName cfg)
                  (Secret.Data existing !!! "ca.crt")
                  (final (run h (writeCertsToDisk (Config.CertDir cfg)
                                   (Secret.Data existing !!! "tls.crt")
                                   (Secret.Data existing !!! "tls.key"))
                            (snd (h logSkip
                                    (final (run h (needsRenewal existing
                                                     (Config.RenewalThreshold
                                                        cfg)) w1)))))))
        as (rest & Hfirst).
      exists (Secret.Data existing !!! "ca.crt"),
             (Secret.Data existing !!! "tls.crt"),
             (Secret.Data existing !!! "tls.key").
      exists (SecretsGet (Config.Namespace cfg) (Config.SecretName cfg)
              :: trace (run h (needsRenewal existing
                                 (Config.RenewalThreshold cfg)) w1)
              ++ [logSkip]).
      eexists.
      split; [cbn [app]; rewrite <- !app_assoc; reflexivity|].
      pose proof (needsRenewal_harmless existing
                    (Config.RenewalThreshold cfg) w1) as Hn.
      split.
      { apply Forall_cons_2; [now cbn|].
        apply Forall_app_2;
          [eapply Forall_impl; [exact Hn|exact harmless_kind]|].
        apply Forall_cons_2; [now cbn|constructor]. }
      split; [rewrite Hfirst; set_solver|].
      split; [apply patch_quiet|].
      split.
      { cbn [app]. apply Forall_cons_2; [now cbn|].
        apply Forall_app_2; [apply Forall_app_2|].
        - eapply Forall_impl; [exact Hn|apply harmless_material].
        - apply Forall_cons_2; [now cbn|].
          apply Forall_cons_2; [now cbn|].
          apply Forall_cons_2; [cbn; auto|].
          apply Forall_cons_2; [cbn; auto|constructor].
        - apply patch_material. }
      left. split; [reflexivity|]. split; [reflexivity|].
      split; [reflexivity|].
      cbn [app]. apply Forall_cons_2; [now cbn|].
      apply Forall_app_2; [apply Forall_app_2|].
      * eapply Forall_impl; [exact Hn|]. now intros o (_ & _ & Ho).
      * apply Forall_cons_2; [now cbn|].
        apply Forall_cons_2; [now cbn|].
        apply Forall_cons_2; [now cbn|].
        apply Forall_cons_2; [now cbn|constructor].
      * eapply Forall_impl; [apply patch_quiet|].
        intros o [Ho _]. now destruct o.
  - destruct (IsNotFound err) eqn:Hnf.
    + rewrite (Ensure_run_absent h cfg w w1 existing err Hget Hnf).
      cbv zeta. cbn [outcome trace]. intros Hout.
      match goal with
      | |- context [run h (regenerate cfg ?d ?e) ?w'] =>
          destruct (regenerate_one_material d e w'
                      [SecretsGet (Config.Namespace cfg)
                         (Config.SecretName cfg); logAbsent])
            as (ca & crt & key & pre & post & Htr & Hpre & Hget' & Hpost
                & Hmat & Hup);
          [|exact Hout|]
      end.
      { apply Forall_cons_2; [now cbn|].
        apply Forall_cons_2; [now cbn|constructor]. }
      cbn [app] in Htr, Hmat.
      exists ca, crt, key, pre, post.
      exact (conj Htr (conj Hpre (conj Hget' (conj Hpost (conj Hmat Hup))))).
    + unfold Ensure. prog_simpl. rewrite run_vis, Hget. cbn [fst snd].
      rewrite Hnf. cbn. discriminate.
Qed.
End OneMaterial.

(** ** [Ensure]: the answers it gets and what it makes of them *)

Section History.
Context {W : Type} (h : Handler W).

Lemma transcript_trace {A} (p : Prog A) (w : W) :
  map asked (transcript h p w) = trace (run h p w).
Proof.
  revert w; induction p as [a|msg|o k IH]; intros w; cbn;
    [reflexivity..|]. now rewrite IH.
Qed.

Lemma guarded_transcript {A} (P : list Event -> Op -> Prop) (p : Prog A) :
  forall (past : list Event) (w : W) (pre : list Event) (ev : Event)
         (post : list Event),
    guarded P past p ->
    transcript h p w = pre ++ ev :: post ->
    P (past ++ pre) (asked ev).
Proof.
  induction p as [a|msg|o k IH]; intros past w pre ev post Hp Htr.
  - now destruct pre.
  - now destruct pre.
  - cbn [transcript guarded] in *. destruct Hp as [Ho Hk].
    destruct pre as [|e0 pre]; cbn [app] in Htr; injection Htr as <- Htr.
    + now rewrite app_nil_r.
    + specialize (IH _ _ _ _ _ _ (Hk _) Htr).
      now rewrite <- app_assoc in IH.
Qed.

(** The same, by the position of the operation. *)
Lemma guarded_lookup {A} (P : list Event -> Op -> Prop) (p : Prog A)
    (w : W) (n : nat) (ev : Event) :
  guarded P [] p ->
  transcript h p w !! n = Some ev ->
  P (take n (transcript h p w)) (asked ev).
Proof.
  intros Hp Hn.
  apply (guarded_transcript P p [] w (take n (transcript h p w)) ev
           (drop (S n) (transcript h p w)) Hp).
  symmetry. now apply take_drop_middle.
Qed.

(** [apierrors.IsNotFound] sees through the wrappings. *)
Lemma causedBy_IsNotFound (err cause : Error) :
  causedBy err cause -> IsNotFound err = IsNotFound cause.
Proof.
  induction err as [reason code msg|msg|msg inner IH];
    cbn [causedBy]; intros [<-|Hin]; try reflexivity; try contradiction.
  now apply IH.
Qed.

Lemma concludes_run {A} (P : list Event -> A -> Prop) (p : Prog A) :
  forall (past : list Event) (w : W) (a : A),
    concludes P past p ->
    outcome (run h p w) = Returned a ->
    P (past ++ transcript h p w) a.
Proof.
  induction p as [a'|msg|o k IH]; intros past w a Hp; cbn.
  - intros [= <-]. now rewrite app_nil_r.
  - discriminate.
  - intros Hout. specialize (IH _ _ _ _ (Hp _) Hout).
    now rewrite <- app_assoc in IH.
Qed.
End History.

Section EnsureHistory.
Context `{Lib}.

Lemma newSecret_ca (cfg : Config.t) (caPEM certPEM keyPEM : bytes)
    (resourceVersion : string) :
  Secret.Data (newSecret cfg caPEM certPEM keyPEM resourceVersion)
    !!! "ca.crt" = caPEM.
Proof. apply lookup_total_insert_eq. Qed.

Lemma newSecret_crt (cfg : Config.t) (caPEM certPEM keyPEM : bytes)
    (resourceVersion : string) :
  Secret.Data (newSecret cfg caPEM certPEM keyPEM resourceVersion)
    !!! "tls.crt" = certPEM.
Proof.
  unfold newSecret. cbn [Secret.Data].
  rewrite lookup_total_insert_ne by discriminate.
  apply lookup_total_insert_eq.
Qed.

Lemma newSecret_key (cfg : Config.t) (caPEM certPEM keyPEM : bytes)
    (resourceVersion : string) :
  Secret.Data (newSecret cfg caPEM certPEM keyPEM resourceVersion)
    !!! "tls.key" = keyPEM.
Proof.
  unfold newSecret. cbn [Secret.Data].
  rewrite !lookup_total_insert_ne by discriminate.
  apply lookup_total_insert_eq.
Qed.

Lemma Ensure_concludes (cfg : Config.t) :
  concludes (fun past e => nilPassed past e /\ errorCause past e) []
    (Ensure cfg).
Proof.
  unfold Ensure, regenerate, persist, needsRenewal, time_Until, generateCA,
    generateServerCert, writeCertsToDisk, patchWebhookConfig, patchMutating,
    dnsNamesForService.
  cbn [lookup list_lookup].
  history_walk ltac:(split;
                     [let Hnil := fresh "Hnil" in
                      intros Hnil; try discriminate Hnil; passed_leaf
                     |cause_leaf]).
Qed.

Lemma Ensure_guarded (cfg : Config.t) :
  guarded (fun past o => Forall passed past
                         /\ filesFirst cfg past o
                         /\ fromKnown cfg past o
                         /\ fromThisPass cfg past o) []
    (Ensure cfg).
Proof.
  unfold Ensure, regenerate, persist, needsRenewal, time_Until, generateCA,
    generateServerCert, writeCertsToDisk, patchWebhookConfig, patchMutating,
    dnsNamesForService.
  cbn [lookup list_lookup].
  history_walk
    ltac:(split; [passed_leaf|];
          split;
          [ unfold filesFirst; cbn [isWebhookOp];
            let Hw := fresh "Hw" in
            intros Hw;
            first [ discriminate Hw
                  | unfold filesInstalled; eexists _, _; reflexivity ]
          | split;
            [ unfold fromKnown;
              first
                [ exact I
                | eexists; split; [reflexivity|];
                  first
                    [ left; split; [reflexivity|];
                      first [symmetry; apply newSecret_crt | reflexivity]
                    | right; split; [reflexivity|];
                      first [symmetry; apply newSecret_key | reflexivity]
                    | rewrite ?newSecret_ca;
                      rewrite rangeValidating_map;
                      apply validatingBundles_patched
                    | rewrite ?newSecret_ca;
                      rewrite rangeMutating_map;
                      apply mutatingBundles_patched ] ]
            | cbv [fromThisPass certsMade keysMade omap list_omap madeCert
                   madeKey projT1 projT2];
              first
                [ exact I
                | split; [reflexivity|];
                  repeat split; first [reflexivity | eassumption]
                | do 6 eexists; split; [reflexivity|];
                  split; reflexivity ] ] ]).
Qed.
End EnsureHistory.

Section EnsureAnswers.
Context `{Lib} {W : Type} (h : Handler W) (cfg : Config.t) (w : W).

(** X6. A nil return of [Ensure] means that nothing failed: every
    operation it issued was answered without an error, but for the two
    answers the package goes on after, not-found on the [Get] of the
    Secret and not-found on the [Get] of the mutating configuration. (The
    transcript is the trace with the answers.) *)
Theorem Ensure_nil_means_all_passed :
  map asked (transcript h (Ensure cfg) w) = trace (run h (Ensure cfg) w)
  /\ (outcome (run h (Ensure cfg) w) = Returned None ->
      Forall passed (transcript h (Ensure cfg) w)).
Proof.
  split; [apply transcript_trace|]. intros Hout.
  now apply (concludes_run h _ (Ensure cfg) [] w None (Ensure_concludes cfg)
               Hout).
Qed.

(** X7. An error [Ensure] returns has its cause in its chain of
    wrappings, where [errors.Unwrap] finds it, so that
    [apierrors.IsNotFound] says of the error what it says of the cause;
    and the cause is the error of the last operation [Ensure] issued, an
    error it does not go on after, or, when that operation is the making
    of the authority certificate and went through, the error of parsing
    what it made. *)
Theorem Ensure_error_cause (err : Error) :
  outcome (run h (Ensure cfg) w) = Returned (Some err) ->
  exists cause,
    causedBy err cause
    /\ IsNotFound err = IsNotFound cause
    /\ ((exists ev,
            last (transcript h (Ensure cfg) w) = Some ev
            /\ failed ev = Some cause
            /\ tolerated (asked ev) cause = false)
        \/ (exists template parent pub priv certDER,
               last (transcript h (Ensure cfg) w)
               = Some (existT (X509CreateCertificate template parent pub priv)
                         (Ok certDER : result bytes))
               /\ x509_ParseCertificate certDER = Err cause)).
Proof.
  intros Hout.
  destruct (concludes_run h _ (Ensure cfg) [] w (Some err)
              (Ensure_concludes cfg) Hout) as [_ Hcause].
  destruct (Hcause err eq_refl) as (cause & Hchain & Hlast).
  exists cause. split; [exact Hchain|].
  split; [now apply causedBy_IsNotFound | exact Hlast].
Qed.

(** X8. [Ensure] stops at the first failure: an operation is only issued
    when every operation before it in the pass was answered without an
    error (the two not-found answers apart). So a failed write of the
    Secret leaves the disk and the webhook configurations alone, and a
    failed write of a file leaves the webhook configurations alone. *)
Theorem Ensure_stops_at_first_failure (n : nat) (ev : Event) :
  transcript h (Ensure cfg) w !! n = Some ev ->
  Forall passed (take n (transcript h (Ensure cfg) w)).
Proof.
  intros Hn.
  destruct (guarded_lookup h _ (Ensure cfg) w n ev (Ensure_guarded cfg) Hn)
    as (Hpassed & Hfiles & Hknown & Hpass).
  assumption.
Qed.

(** X9. A webhook configuration is only fetched or updated once the
    files are there: before any operation on a webhook configuration,
    the operations on the disk of that pass are exactly [MkdirAll] on the
    certificate directory, the write of [tls.crt] and the write of
    [tls.key] under it, in that order, each answered without an error. *)
Theorem Ensure_files_before_webhooks (n : nat) (ev : Event) :
  transcript h (Ensure cfg) w !! n = Some ev ->
  isWebhookOp (asked ev) = true ->
  filesInstalled cfg (take n (transcript h (Ensure cfg) w)).
Proof.
  intros Hn.
  destruct (guarded_lookup h _ (Ensure cfg) w n ev (Ensure_guarded cfg) Hn)
    as (Hpassed & Hfiles & Hknown & Hpass).
  assumption.
Qed.

(** X10. What [Ensure] writes to a file or sends as a CA bundle is what
    the Secret holds: when it writes a file, the answers so far have
    shown the cluster to hold a Secret (the one the [Get] returned, or
    the one an [Update] or [Create] that went through sent), and the
    bytes written are the [tls.crt] or the [tls.key] of the latest such
    Secret; every entry of a webhook configuration it updates carries the
    [ca.crt] of that Secret. *)
Theorem Ensure_writes_what_the_secret_holds (n : nat) (ev : Event) :
  transcript h (Ensure cfg) w !! n = Some ev ->
  fromKnown cfg (take n (transcript h (Ensure cfg) w)) (asked ev).
Proof.
  intros Hn.
  destruct (guarded_lookup h _ (Ensure cfg) w n ev (Ensure_guarded cfg) Hn)
    as (Hpassed & Hfiles & Hknown & Hpass).
  assumption.
Qed.

(** X11. What [Ensure] stores is what it generated in that pass, and the
    leaf is issued under the authority of that pass. The first
    certificate it asks for is self-signed, an authority, under the first
    key generated; the second is not an authority, is for the two DNS
    names of the service, has the second key generated as its public key,
    has for parent the parse of the first certificate made and is signed
    with the first key; both are valid for the configured time from
    their start. A Secret is only written once both were made, and it
    holds the PEM of the first as [ca.crt], of the second as [tls.crt],
    and of the second key as [tls.key]. *)
Theorem Ensure_stores_what_it_generated (n : nat) (ev : Event) :
  transcript h (Ensure cfg) w !! n = Some ev ->
  fromThisPass cfg (take n (transcript h (Ensure cfg) w)) (asked ev).
Proof.
  intros Hn.
  destruct (guarded_lookup h _ (Ensure cfg) w n ev (Ensure_guarded cfg) Hn)
    as (Hpassed & Hfiles & Hknown & Hpass).
  assumption.
Qed.
End EnsureAnswers.

(** ** The generator, the renewal check and the propagation, by themselves *)

Section Pieces.
Context `{Lib} {W : Type} (h : Handler W).

(** X12. [generateServerCert] panics exactly when it is given no DNS
    name and both the key and the serial number were generated: the
    panic is the index [dnsNames[0]] of the template, reached after the
    clock has been read, so the three operations have been issued and no
    certificate is asked for. With a name it never panics. *)
Theorem generateServerCert_panics_iff (caCert : x509.Certificate)
    (caKey : rsa.PrivateKey) (dnsNames : list string) (validity : Duration)
    (w : W) :
  let r := run h (generateServerCert caCert caKey dnsNames validity) w in
  let key := h (RsaGenerateKey 2048) w in
  let serial := h (RandInt (Z.shiftl 1 128)) (snd key) in
  ((exists msg, outcome r = Panicked msg)
   <-> dnsNames = []
       /\ (exists k, fst key = Ok k) /\ (exists n, fst serial = Ok n))
  /\ ((exists msg, outcome r = Panicked msg) ->
      trace r = [RsaGenerateKey 2048; RandInt (Z.shiftl 1 128); TimeNow]).
Proof.
  cbv zeta. unfold generateServerCert. prog_simpl. rewrite run_vis.
  destruct (fst (h (RsaGenerateKey 2048) w)) as [k|e].
  2:{ cbn. split; [split|]; [intros [msg [=]]
                            |intros (_ & [k [=]] & _)
                            |intros [msg [=]]]. }
  rewrite run_vis.
  destruct (fst (h (RandInt (Z.shiftl 1 128)) _)) as [n|e].
  2:{ cbn. split; [split|]; [intros [msg [=]]
                            |intros (_ & _ & [n [=]])
                            |intros [msg [=]]]. }
  rewrite run_vis.
  destruct dnsNames as [|d0 ds]; cbn [lookup list_lookup].
  - cbn. split; [split|]; eauto.
  - rewrite run_vis.
    destruct (fst (h (X509CreateCertificate _ _ _ _) _)); cbn;
      (split; [split|]); [intros [msg [=]]|intros ([=] & _)|intros [msg [=]]
                         |intros [msg [=]]|intros ([=] & _)|intros [msg [=]]].
Qed.

(** X13. The threshold only bears on the verdict of [needsRenewal], and
    a larger threshold renews no later: the operations issued and the
    world left are the same for any two thresholds, and a record that
    needs renewal for a threshold needs it for every larger one. *)
Theorem needsRenewal_monotone (secret : Secret.t) (t1 t2 : Duration)
    (w : W) :
  t1 <= t2 ->
  let r1 := run h (needsRenewal secret t1) w in
  let r2 := run h (needsRenewal secret t2) w in
  trace r1 = trace r2
  /\ final r1 = final r2
  /\ (outcome r1 = Returned true -> outcome r2 = Returned true).
Proof.
  intros Hle. cbv zeta. unfold needsRenewal, time_Until.
  destruct (Secret.Data secret !! "tls.crt") as [certPEM|]; [|now cbn].
  destruct (length certPEM =? 0)%nat; [now cbn|].
  destruct (pem_Decode certPEM) as [block|]; [|now cbn].
  destruct (x509_ParseCertificate (pem.Bytes block)) as [cert|e];
    [|now cbn].
  prog_simpl. rewrite !run_vis. cbn.
  split; [reflexivity|]. split; [reflexivity|].
  intros [= Hlt]. f_equal. apply Z.ltb_lt in Hlt. apply Z.ltb_lt. lia.
Qed.

(** X14. When the validating configuration has no webhook and the
    mutating one exists, [patchWebhookConfig] still updates the mutating
    one, and it does so even when that has no webhook either, sending
    back the object it fetched: the update of the mutating configuration
    is not guarded the way the update of the validating one is. *)
Theorem patchWebhookConfig_secondary_update_unguarded (name : string)
    (ca : bytes) (w w1 w2 : W) (vwc : ValidatingWebhookConfiguration.t)
    (mwc : MutatingWebhookConfiguration.t) :
  h (ValidatingGet name) w = (Ok vwc, w1) ->
  ValidatingWebhookConfiguration.Webhooks vwc = [] ->
  h (MutatingGet (mutatingWebhookName name)) w1 = (Ok mwc, w2) ->
  (exists rest,
      trace (run h (patchWebhookConfig name ca) w)
      = [ValidatingGet name; MutatingGet (mutatingWebhookName name);
         MutatingUpdate (patchedMutating ca mwc)] ++ rest
      /\ Forall (fun o => stage o = None) rest)
  /\ (MutatingWebhookConfiguration.Webhooks mwc = [] ->
      patchedMutating ca mwc = mwc).
Proof.
  intros Hv Hempty Hm. split.
  - rewrite (patchWebhookConfig_run_found h name ca w w1 vwc Hv), Hempty.
    cbv zeta. cbn [trace]. rewrite patchMutating_run. cbv zeta.
    rewrite Hm. cbn [fst snd].
    destruct (fst (h (MutatingUpdate _) w2)); cbn [trace]; eexists;
      (split; [reflexivity|]); repeat constructor.
  - destruct mwc as [meta whs]. unfold patchedMutating. cbn.
    now intros ->.
Qed.
End Pieces.

(** ** [mutatingWebhookName]: when the name changes *)

Section MutatingNameLength.
Import MutatingName.
Local Open Scope nat_scope.

Lemma substring_length (s : string) :
  forall n m, n + m <= String.length s ->
              String.length (String.substring n m s) = m.
Proof.
  induction s as [|c s IH]; intros [|n] [|m] Hle; simpl in *;
    try reflexivity; try lia.
  - f_equal. apply IH. lia.
  - apply IH. lia.
  - apply IH. lia.
Qed.

Lemma substring_empty (i n : nat) : String.substring i n "" = "".
Proof. destruct i, n; reflexivity. Qed.

Lemma occurs_dec (s : string) :
  (exists i, String.substring i 10 s = old)
  \/ (forall i, String.substring i 10 s <> old).
Proof.
  induction s as [|c s IH].
  - right. intros i. rewrite substring_empty. discriminate.
  - destruct (String.prefix old (String c s)) eqn:Hp.
    + left. exists 0. now apply prefix_old_spec.
    + destruct IH as [[i Hi]|Hno].
      * left. exists (S i). exact Hi.
      * right. intros [|i]; [|exact (Hno i)].
        intros Heq. apply prefix_old_spec in Heq. congruence.
Qed.

Lemma replace_first_length (s : string) :
  (exists i, String.substring i 10 s = old) ->
  String.length (replace_first old new s) + 2 = String.length s.
Proof.
  induction s as [|c s IH]; intros [i Hi].
  - rewrite substring_empty in Hi. discriminate.
  - rewrite replace_first_unfold.
    destruct (String.prefix old (String c s)) eqn:Hp.
    + apply prefix_old_spec in Hp.
      assert (10 <= String.length (String c s)) as Hlen.
      { destruct (Nat.lt_ge_cases (String.length (String c s)) 10)
          as [Hlt|Hge]; [|exact Hge].
        pose proof (substring_short (String c s) 10 Hlt) as Hs.
        rewrite Hp in Hs. simpl in Hs. lia. }
      rewrite string_length_app, substring_length;
        change (String.length old) with 10;
        change (String.length new) with 8; lia.
    + destruct i as [|i].
      * apply prefix_old_spec in Hi. congruence.
      * cbn [String.length]. rewrite <- (IH (ex_intro _ i Hi)). lia.
Qed.
End MutatingNameLength.

(** X15. The derived name differs from the configured one exactly when
    [validating] occurs in it, and is then two characters shorter; a name
    without [validating] is its own derived name, so that the second half
    of the propagation then looks for a mutating configuration under the
    configured name itself. *)
Theorem mutatingWebhookName_changes_iff_occurs (name : string) :
  let occurs := exists i, String.substring i 10 name = "validating" in
  (mutatingWebhookName name <> name <-> occurs)
  /\ (occurs ->
      (String.length (mutatingWebhookName name) + 2)%nat = String.length name).
Proof.
  cbv zeta. rewrite mutatingWebhookName_replace_first.
  unfold MutatingName.old, MutatingName.new.
  assert ((exists i, String.substring i 10 name = "validating") ->
          (String.length (replace_first "validating" "mutating" name) + 2)%nat
          = String.length name) as Hlen
    by apply replace_first_length.
  split; [split|exact Hlen].
  - intros Hne. destruct (occurs_dec name) as [Hocc|Hno]; [exact Hocc|].
    destruct Hne. now apply replace_first_absent.
  - intros Hocc Heq. specialize (Hlen Hocc). rewrite Heq in Hlen. lia.
Qed.

(** ** The reference world: faults and corner cases *)

Section ConcreteFurther.
Import Ref Scenario Faults.

(** The operations of a cold start, by position: the [Get], a log line,
    the four operations of the authority, the four of the leaf, the
    [Create] (10), a log line, [MkdirAll] (12), the two files (13, 14), a
    log line, the [Get] of the validating configuration (16). *)
Lemma Ensure_forward_only_witness :
  let tr := trace (run handler (Ensure cfg) cold) in
  tr = take 16 tr ++ ValidatingGet (Config.WebhookConfigName cfg)
                     :: drop 17 tr
  /\ Forall (fun o => isSecretOp o = false /\ isDiskOp o = false)
       (drop 17 tr).
Proof.
  cbv zeta.
  assert (trace (run handler (Ensure cfg) cold)
          = take 16 (trace (run handler (Ensure cfg) cold))
            ++ ValidatingGet (Config.WebhookConfigName cfg)
               :: drop 17 (trace (run handler (Ensure cfg) cold))) as Htr
    by (vm_compute; reflexivity).
  destruct (Ensure_forward_only handler cfg cold) as (_ & _ & Hweb & _).
  exact (conj Htr (Hweb _ _ _ Htr eq_refl)).
Defined.

(** A cluster that forbids reading Secrets. *)
Lemma Ensure_get_error_witness :
  secretsForbidden
    (SecretsGet (Config.Namespace cfg) (Config.SecretName cfg)) cold
  = (inr (None, forbidden), cold)
  /\ IsNotFound forbidden = false
  /\ run secretsForbidden (Ensure cfg) cold
     = mkRun (Returned
                (Some (Errorf "getting secret %s/%s: %w"
                         [Config.Namespace cfg; Config.SecretName cfg]
                         forbidden)))
             cold
             [SecretsGet (Config.Namespace cfg) (Config.SecretName cfg)].
Proof.
  assert (secretsForbidden
            (SecretsGet (Config.Namespace cfg) (Config.SecretName cfg)) cold
          = (inr (None, forbidden), cold)) as Hget
    by (vm_compute; reflexivity).
  assert (IsNotFound forbidden = false) as Hnf by reflexivity.
  exact (conj Hget
           (conj Hnf
              (Ensure_get_error secretsForbidden cfg cold None forbidden cold
                 Hget Hnf))).
Defined.

(** The renewal of the stale record. *)
Lemma Ensure_success_one_material_witness :
  outcome (run handler (Ensure cfg) stale) = Returned None
  /\ exists (caPEM certPEM keyPEM : bytes) (pre post : list Op),
       trace (run handler (Ensure cfg) stale)
       = pre
         ++ [MkdirAll (Config.CertDir cfg) perm_0750;
             WriteFile (filepath_Join (Config.CertDir cfg) "tls.crt")
               certPEM perm_0640;
             WriteFile (filepath_Join (Config.CertDir cfg) "tls.key")
               keyPEM perm_0640]
         ++ post
       /\ Forall (materialOp cfg caPEM certPEM keyPEM)
            (trace (run handler (Ensure cfg) stale)).
Proof.
  assert (outcome (run handler (Ensure cfg) stale) = Returned None) as Hok
    by (vm_compute; reflexivity).
  destruct (Ensure_success_one_material handler cfg stale Hok)
    as (caPEM & certPEM & keyPEM & pre & post & Htr & _ & _ & _ & Hmat & _).
  split; [exact Hok|].
  exists caPEM, certPEM, keyPEM, pre, post.
  exact (conj Htr Hmat).
Defined.

Lemma Ensure_nil_means_all_passed_witness :
  outcome (run handler (Ensure cfg) cold) = Returned None
  /\ Forall passed (transcript handler (Ensure cfg) cold).
Proof.
  assert (outcome (run handler (Ensure cfg) cold) = Returned None) as Hok
    by (vm_compute; reflexivity).
  exact (conj Hok
           (proj2 (Ensure_nil_means_all_passed handler cfg cold) Hok)).
Defined.

(** A full disk: the error of the write comes back under two
    wrappings. *)
Lemma Ensure_error_cause_witness :
  let err :=
    Errorf "writing certs to disk: %w" []
      (Errorf "writing tls.crt: %w" []
         (PlainError "no space left on device")) in
  outcome (run diskFull (Ensure cfg) cold) = Returned (Some err)
  /\ exists cause,
       causedBy err cause /\ IsNotFound err = IsNotFound cause.
Proof.
  cbv zeta.
  assert (outcome (run diskFull (Ensure cfg) cold)
          = Returned
              (Some (Errorf "writing certs to disk: %w" []
                       (Errorf "writing tls.crt: %w" []
                          (PlainError "no space left on device"))))) as Hout
    by (vm_compute; reflexivity).
  destruct (Ensure_error_cause diskFull cfg cold _ Hout)
    as (cause & Hchain & Hnf & _).
  split; [exact Hout|]. exists cause. exact (conj Hchain Hnf).
Defined.

(** A cluster that refuses the write of the Secret: the [Create] is the
    last operation. *)
Lemma Ensure_stops_at_first_failure_witness :
  exists ev,
    transcript secretsReadOnly (Ensure cfg) cold !! 10%nat = Some ev
    /\ failed ev = Some forbidden
    /\ transcript secretsReadOnly (Ensure cfg) cold !! 11%nat = None
    /\ Forall passed (take 10 (transcript secretsReadOnly (Ensure cfg) cold)).
Proof.
  assert (exists ev,
             transcript secretsReadOnly (Ensure cfg) cold !! 10%nat = Some ev
             /\ failed ev = Some forbidden) as (ev & Hev & Hfailed)
    by (eexists; split; vm_compute; reflexivity).
  assert (transcript secretsReadOnly (Ensure cfg) cold !! 11%nat = None)
    as Hlast by (vm_compute; reflexivity).
  exists ev.
  exact (conj Hev
           (conj Hfailed
              (conj Hlast
                 (Ensure_stops_at_first_failure secretsReadOnly cfg cold 10
                    ev Hev)))).
Defined.

Lemma Ensure_files_before_webhooks_witness :
  let ev : Event :=
    existT (ValidatingGet (Config.WebhookConfigName cfg))
      (Ok primary : result ValidatingWebhookConfiguration.t) in
  transcript handler (Ensure cfg) cold !! 16%nat = Some ev
  /\ isWebhookOp (asked ev) = true
  /\ filesInstalled cfg (take 16 (transcript handler (Ensure cfg) cold)).
Proof.
  cbv zeta.
  assert (transcript handler (Ensure cfg) cold !! 16%nat
          = Some (existT (ValidatingGet (Config.WebhookConfigName cfg))
                    (Ok primary : result ValidatingWebhookConfiguration.t)))
    as Hev by (vm_compute; reflexivity).
  exact (conj Hev
           (conj eq_refl
              (Ensure_files_before_webhooks handler cfg cold 16 _ Hev
                 eq_refl))).
Defined.

Lemma Ensure_writes_what_the_secret_holds_witness :
  exists ev,
    transcript handler (Ensure cfg) cold !! 13%nat = Some ev
    /\ isDiskOp (asked ev) = true
    /\ fromKnown cfg (take 13 (transcript handler (Ensure cfg) cold))
         (asked ev).
Proof.
  assert (exists ev,
             transcript handler (Ensure cfg) cold !! 13%nat = Some ev
             /\ isDiskOp (asked ev) = true) as (ev & Hev & Hdisk)
    by (eexists; split; vm_compute; reflexivity).
  exists ev.
  exact (conj Hev
           (conj Hdisk
              (Ensure_writes_what_the_secret_holds handler cfg cold 13 ev
                 Hev))).
Defined.

Lemma Ensure_stores_what_it_generated_witness :
  exists ev,
    transcript handler (Ensure cfg) cold !! 10%nat = Some ev
    /\ isSecretWrite (asked ev) = true
    /\ fromThisPass cfg (take 10 (transcript handler (Ensure cfg) cold))
         (asked ev).
Proof.
  assert (exists ev,
             transcript handler (Ensure cfg) cold !! 10%nat = Some ev
             /\ isSecretWrite (asked ev) = true) as (ev & Hev & Hwrite)
    by (eexists; split; vm_compute; reflexivity).
  exists ev.
  exact (conj Hev
           (conj Hwrite
              (Ensure_stores_what_it_generated handler cfg cold 10 ev Hev))).
Defined.

(** No DNS name: the key and the serial number are generated, the clock
    is read, and the template panics. *)
Lemma generateServerCert_panics_iff_witness :
  exists msg,
    outcome (run handler
               (generateServerCert (fst (fst madeCA)) (snd (fst madeCA)) []
                  (365 * day)) afterCA)
    = Panicked msg.
Proof.
  apply (proj2 (proj1 (generateServerCert_panics_iff handler
                         (fst (fst madeCA)) (snd (fst madeCA)) []
                         (365 * day) afterCA))).
  split; [reflexivity|]. split; eexists; vm_compute; reflexivity.
Defined.

(** Twenty-five days before the end: renewal is due for a threshold of
    thirty days, and so for one of sixty. *)
Lemma needsRenewal_monotone_witness :
  30 * day <= 60 * day
  /\ outcome (run handler (needsRenewal record (30 * day)) stale)
     = Returned true
  /\ outcome (run handler (needsRenewal record (60 * day)) stale)
     = Returned true.
Proof.
  assert (30 * day <= 60 * day) as Hle by (vm_compute; discriminate).
  assert (outcome (run handler (needsRenewal record (30 * day)) stale)
          = Returned true) as Hdue by (vm_compute; reflexivity).
  destruct (needsRenewal_monotone handler record (30 * day) (60 * day) stale
              Hle) as (_ & _ & Hmono).
  exact (conj Hle (conj Hdue (Hmono Hdue))).
Defined.

Lemma patchWebhookConfig_secondary_update_unguarded_witness :
  handler (ValidatingGet (Config.WebhookConfigName cfg)) hollowBoth
  = (Ok emptyPrimary, hollowBoth)
  /\ handler (MutatingGet
                (mutatingWebhookName (Config.WebhookConfigName cfg)))
       hollowBoth
     = (Ok emptySecondary, hollowBoth)
  /\ (exists rest,
         trace (run handler
                  (patchWebhookConfig (Config.WebhookConfigName cfg)
                     authority) hollowBoth)
         = [ValidatingGet (Config.WebhookConfigName cfg);
            MutatingGet (mutatingWebhookName (Config.WebhookConfigName cfg));
            MutatingUpdate (patchedMutating authority emptySecondary)]
           ++ rest)
  /\ patchedMutating authority emptySecondary = emptySecondary.
Proof.
  assert (handler (ValidatingGet (Config.WebhookConfigName cfg)) hollowBoth
          = (Ok emptyPrimary, hollowBoth)) as Hv
    by (vm_compute; reflexivity).
  assert (handler (MutatingGet
                     (mutatingWebhookName (Config.WebhookConfigName cfg)))
            hollowBoth
          = (Ok emptySecondary, hollowBoth)) as Hm
    by (vm_compute; reflexivity).
  destruct (patchWebhookConfig_secondary_update_unguarded handler
              (Config.WebhookConfigName cfg) authority hollowBoth hollowBoth
              hollowBoth emptyPrimary emptySecondary Hv eq_refl Hm)
    as [(rest & Htr & _) Hsame].
  split; [exact Hv|]. split; [exact Hm|].
  split; [exists rest; exact Htr | exact (Hsame eq_refl)].
Defined.

Lemma mutatingWebhookName_changes_iff_occurs_witness :
  mutatingWebhookName "butane-operator-validating-webhook-configuration"
  <> "butane-operator-validating-webhook-configuration"
  /\ (String.length
        (mutatingWebhookName
           "butane-operator-validating-webhook-configuration") + 2)%nat
     = String.length "butane-operator-validating-webhook-configuration".
Proof.
  assert (exists i,
             String.substring i 10
               "butane-operator-validating-webhook-configuration"
             = "validating") as Hocc
    by (exists 16%nat; reflexivity).
  destruct (mutatingWebhookName_changes_iff_occurs
              "butane-operator-validating-webhook-configuration")
    as [Hiff Hlen].
  exact (conj (proj2 Hiff Hocc) (Hlen Hocc)).
Defined.
End ConcreteFurther.
